(** * Strategy-optimization report: a shallow embedding of
    [GET /optimize/:userId] (src/routes/sync.ts, second module) and of
    the aggregation pipeline it hands to the trade store.

    Number model.  What the trade store computes -- counters, the win
    rate, the mean outcome -- is modelled by exact rationals [Q]: every
    finite BSON double is a rational, and the server's arithmetic is
    not part of this repository.  What the handler itself computes,
    the correlation of lines 349-370, is computed in binary64 as
    JavaScript does, with the kernel's primitive floats: sums,
    products, differences, the square root and the quotient round to
    nearest (ties to even) and yield infinities and NaN where IEEE 754
    says so. *)

From Stdlib Require Import List String Ascii Bool Arith ZArith Lia.
From Stdlib Require Import QArith Qabs Lqa.
From Stdlib Require Floats.
From Stdlib Require Import Sorting.Sorted Permutation.
Import ListNotations.

Local Close Scope Q_scope.
Local Open Scope nat_scope.
Local Open Scope string_scope.
Local Open Scope list_scope.

(** ** Values of the trade store *)

(** An [ObjectId] is kept as its 24-digit hexadecimal string; a [Date]
    as milliseconds since the epoch. *)
Definition ObjectId := string.
Definition Date := Z.

(** [ITrade] of src/models/Trade.ts.  The schema declares [riskLevel] as
    one of the three enumerated strings; the pipeline nevertheless
    provides for any other or absent value ([default: 2]), and the
    handler types it [... | string], so the field is an optional
    arbitrary string here ([None] is a missing or null field). *)
Record TradeDoc := mkTrade {
  userId : ObjectId;
  strategyId : string;
  tradeDate : Date;
  riskLevel : option string;
  outcome : Q;
  win : bool
}.
Arguments mkTrade userId%_string strategyId%_string tradeDate%_Z
  riskLevel outcome%_Q win%_bool.

(** ** Evaluation of aggregation expressions

    An aggregation expression either yields a value or aborts the whole
    pipeline with a server-side error. *)

Inductive MongoError := DivideByZero | SwitchNoMatch.

Inductive Eval (A : Type) : Type :=
| Ok (a : A)
| Fault (e : MongoError).
Arguments Ok {A} a.
Arguments Fault {A} e.

Definition bindE {A B} (m : Eval A) (k : A -> Eval B) : Eval B :=
  match m with
  | Ok a => k a
  | Fault e => Fault e
  end.

Declare Scope eval_scope.
Delimit Scope eval_scope with eval.
Notation "x <- m ;; k" := (bindE m (fun x => k))
  (at level 61, m at next level, right associativity) : eval_scope.

(** A stage that evaluates an expression on every document. *)
Fixpoint mapE {A B} (f : A -> Eval B) (l : list A) : Eval (list B) :=
  match l with
  | [] => Ok []
  | a :: r =>
      (b <- f a ;; bs <- mapE f r ;; Ok (b :: bs))%eval
  end.

(** [$eq] on a field that may be missing and a string literal. *)
Definition mongo_eq (field : option string) (lit : string) : bool :=
  match field with
  | Some s => String.eqb s lit
  | None => false
  end.

(** [$switch]: the first branch whose case holds; the default when none
    does; an error when none does and no default was given. *)
Fixpoint mongo_switch {A} (branches : list (bool * A)) (default : option A)
  : Eval A :=
  match branches with
  | [] => match default with
          | Some d => Ok d
          | None => Fault SwitchNoMatch
          end
  | (c, v) :: rest => if c then Ok v else mongo_switch rest default
  end.

(** [$divide]: an error on a zero divisor. *)
Definition mongo_divide (a b : Q) : Eval Q :=
  if Qeq_bool b 0 then Fault DivideByZero else Ok (a / b)%Q.

(** [$cond: [c, t, e]] evaluates only the selected branch. *)
Definition mongo_cond {A} (c : bool) (t e : Eval A) : Eval A :=
  if c then t else e.

(** ** Stage 2: [$project] with the risk score *)

Definition riskScore (lvl : option string) : Eval Z :=
  mongo_switch
    [ (mongo_eq lvl "low", 1%Z);
      (mongo_eq lvl "medium", 2%Z);
      (mongo_eq lvl "high", 3%Z) ]
    (Some 2%Z).

Record Projected := mkProjected {
  p_strategyId : string;
  p_riskLevel : option string;
  p_outcome : Q;
  p_win : bool;
  p_tradeDate : Date;
  p_riskScore : Z
}.

Definition project_trade (t : TradeDoc) : Eval Projected :=
  (rs <- riskScore (riskLevel t) ;;
   Ok {| p_strategyId := strategyId t;
         p_riskLevel := riskLevel t;
         p_outcome := outcome t;
         p_win := win t;
         p_tradeDate := tradeDate t;
         p_riskScore := rs |})%eval.

(** ** [$group]

    Groups are kept in an association list in the order in which their
    keys are first met; every accumulator starts from [zero] and is
    advanced by [step] on each document of the group, so a group exists
    only once a document carries its key. *)
Section Group.
Context {K D V : Type}.
Variable eqb : K -> K -> bool.
Variable key : D -> K.
Variable zero : V.
Variable step : V -> D -> V.

Fixpoint upsert (d : D) (gs : list (K * V)) : list (K * V) :=
  match gs with
  | [] => [(key d, step zero d)]
  | (k, v) :: rest =>
      if eqb k (key d) then (k, step v d) :: rest
      else (k, v) :: upsert d rest
  end.

Definition group_from (gs : list (K * V)) (docs : list D) : list (K * V) :=
  fold_left (fun acc d => upsert d acc) docs gs.

Definition group (docs : list D) : list (K * V) := group_from [] docs.

Fixpoint lookup (k : K) (gs : list (K * V)) : option V :=
  match gs with
  | [] => None
  | (k', v) :: rest => if eqb k' k then Some v else lookup k rest
  end.

(** The documents of a group, in input order. *)
Definition members (k : K) (docs : list D) : list D :=
  filter (fun d => eqb (key d) k) docs.

(** The sum of a counter over all groups. *)
Definition tally_all (tally : V -> nat) (gs : list (K * V)) : nat :=
  list_sum (map (fun g => tally (snd g)) gs).
End Group.

(** ** [$sort]: a stable insertion sort, ascending for [le]. *)
Section Sort.
Context {A : Type}.
Variable le : A -> A -> bool.

Fixpoint insert_by (x : A) (l : list A) : list A :=
  match l with
  | [] => [x]
  | y :: r => if le x y then x :: y :: r else y :: insert_by x r
  end.

Fixpoint sort_by (l : list A) : list A :=
  match l with
  | [] => []
  | x :: r => insert_by x (sort_by r)
  end.
End Sort.

(** ** Facet [byStrategy] *)

(** Accumulators of the [$group] stage: [total: {$sum: 1}] and
    [wins: {$sum: {$cond: [{$eq: ["$win", true]}, 1, 0]}}]. *)
Record StrategyAcc := mkStrategyAcc { acc_total : nat; acc_wins : nat }.

Definition strategy_zero : StrategyAcc :=
  {| acc_total := 0; acc_wins := 0 |}.

Definition strategy_step (a : StrategyAcc) (d : Projected) : StrategyAcc :=
  {| acc_total := acc_total a + 1;
     acc_wins := acc_wins a + (if Bool.eqb (p_win d) true then 1 else 0) |}.

Definition group_by_strategy (docs : list Projected)
  : list (string * StrategyAcc) :=
  group String.eqb p_strategyId strategy_zero strategy_step docs.

Record StrategyStat := mkStrategyStat {
  s_strategyId : string;
  total : nat;
  wins : nat;
  winRate : Q
}.

Definition Qnat (n : nat) : Q := inject_Z (Z.of_nat n).

Definition project_strategy (g : string * StrategyAcc) : Eval StrategyStat :=
  let '(id, a) := g in
  (wr <- mongo_cond (0 <? acc_total a)%nat
           (mongo_divide (Qnat (acc_wins a)) (Qnat (acc_total a)))
           (Ok 0%Q) ;;
   Ok {| s_strategyId := id;
         total := acc_total a;
         wins := acc_wins a;
         winRate := wr |})%eval.

Definition winRate_le (a b : StrategyStat) : bool :=
  Qle_bool (winRate a) (winRate b).

Definition facet_byStrategy (docs : list Projected) : Eval (list StrategyStat) :=
  (stats <- mapE project_strategy (group_by_strategy docs) ;;
   Ok (sort_by winRate_le stats))%eval.

(** ** Facet [byRisk] *)

(** Accumulators of [avgOutcome: {$avg: "$outcome"}] (a running sum and
    the number of values averaged) and of [count: {$sum: 1}]. *)
Record RiskAcc := mkRiskAcc { acc_sum : Q; acc_n : nat; acc_count : nat }.

Definition risk_zero : RiskAcc :=
  {| acc_sum := 0%Q; acc_n := 0; acc_count := 0 |}.

Definition risk_step (a : RiskAcc) (d : Projected) : RiskAcc :=
  {| acc_sum := (acc_sum a + p_outcome d)%Q;
     acc_n := acc_n a + 1;
     acc_count := acc_count a + 1 |}.

Definition level_eqb (a b : option string) : bool :=
  match a, b with
  | Some x, Some y => String.eqb x y
  | None, None => true
  | _, _ => false
  end.

Definition group_by_risk (docs : list Projected)
  : list (option string * RiskAcc) :=
  group level_eqb p_riskLevel risk_zero risk_step docs.

Record RiskStat := mkRiskStat {
  r_riskLevel : option string;
  avgOutcome : Q;
  count : nat
}.

Definition project_risk (g : option string * RiskAcc) : RiskStat :=
  let '(lvl, a) := g in
  {| r_riskLevel := lvl;
     avgOutcome := (acc_sum a / Qnat (acc_n a))%Q;
     count := acc_count a |}.

(** Ascending BSON order on a field that is null or a string: null
    sorts first, strings compare byte by byte. *)
Definition level_le (a b : option string) : bool :=
  match a, b with
  | None, _ => true
  | Some _, None => false
  | Some x, Some y => String.leb x y
  end.

Definition riskLevel_le (a b : RiskStat) : bool :=
  level_le (r_riskLevel a) (r_riskLevel b).

Definition facet_byRisk (docs : list Projected) : list RiskStat :=
  sort_by riskLevel_le (map project_risk (group_by_risk docs)).

(** ** Facet [perTrade] *)

(** The handler reads both fields through [?? 0], so they are optional
    on the JavaScript side. *)
Record PerTrade := mkPerTrade {
  pt_riskScore : option Z;
  pt_outcome : option Q
}.

Definition facet_perTrade (docs : list Projected) : list PerTrade :=
  map (fun d => {| pt_riskScore := Some (p_riskScore d);
                   pt_outcome := Some (p_outcome d) |}) docs.

(** ** The pipeline *)

Record FacetResult := mkFacet {
  byStrategy : list StrategyStat;
  byRisk : list RiskStat;
  perTrade : list PerTrade
}.

Definition match_stage (userObjectId : ObjectId) (windowStart : Date)
           (docs : list TradeDoc) : list TradeDoc :=
  filter (fun t => String.eqb (userId t) userObjectId
                   && (windowStart <=? tradeDate t)%Z) docs.

(** [$facet] always emits exactly one document. *)
Definition facet_stage (docs : list Projected) : Eval (list FacetResult) :=
  (bs <- facet_byStrategy docs ;;
   Ok [ {| byStrategy := bs;
           byRisk := facet_byRisk docs;
           perTrade := facet_perTrade docs |} ])%eval.

(** The stages that follow [$match], on the trades it let through. *)
Definition facets_of (trades : list TradeDoc) : Eval (list FacetResult) :=
  (projected <- mapE project_trade trades ;;
   facet_stage projected)%eval.

Definition pipeline (userObjectId : ObjectId) (windowStart : Date)
           (docs : list TradeDoc) : Eval (list FacetResult) :=
  facets_of (match_stage userObjectId windowStart docs).

(** ** JavaScript numbers of the handler *)

Definition Qlt_bool (x y : Q) : bool :=
  (Qnum x * QDen y <? Qnum y * QDen x)%Z.

(** A JavaScript number: a binary64 double. *)
Definition JsNumber : Set := PrimFloat.float.

Definition spec_of_Z (z : Z) : SpecFloat.spec_float :=
  match z with
  | Z0 => SpecFloat.S754_zero false
  | Zpos m => SpecFloat.S754_finite false m 0
  | Zneg m => SpecFloat.S754_finite true m 0
  end.

(** The double nearest to a rational, ties to even.  A stored outcome
    is a double, and the rational that stands for it is read back as
    that double; a decimal literal of the source denotes the double
    nearest to it. *)
Definition double_of_Q (q : Q) : JsNumber :=
  FloatOps.SF2Prim
    (SpecFloat.SFdiv FloatOps.prec FloatOps.emax
       (spec_of_Z (Qnum q)) (spec_of_Z (Zpos (Qden q)))).

Definition double_of_Z (z : Z) : JsNumber := double_of_Q (inject_Z z).

Definition double_of_nat (n : nat) : JsNumber := double_of_Z (Z.of_nat n).

(** [Math.sqrt]: NaN on a negative number, -0 on -0. *)
Definition js_sqrt (x : JsNumber) : JsNumber := PrimFloat.sqrt x.

(** [d === 0]: true of 0 and of -0, false of NaN. *)
Definition js_is_zero (d : JsNumber) : bool := PrimFloat.eqb d PrimFloat.zero.

(** [a / d]: never throws; a zero divisor gives an infinity or NaN. *)
Definition js_div (a d : JsNumber) : JsNumber := PrimFloat.div a d.

(** [c < b]: false as soon as one side is NaN. *)
Definition js_lt (c b : JsNumber) : bool := PrimFloat.ltb c b.

(** [v ?? d]. *)
Definition nullish {A} (v : option A) (d : A) : A :=
  match v with
  | Some a => a
  | None => d
  end.

(** ** The handler's own computations *)

Record Underperf := mkUnderperf {
  u_strategyId : string;
  u_winRate : Q
}.

Definition underperforming (byStrategy : list StrategyStat) : list Underperf :=
  map (fun s => {| u_strategyId := s_strategyId s; u_winRate := winRate s |})
      (filter (fun s => (0 <? total s)%nat && Qlt_bool (winRate s) (1 # 2))
              byStrategy).

(** The five running sums of the correlation loop. *)
Record Sums := mkSums {
  sumX : JsNumber; sumY : JsNumber; sumXY : JsNumber;
  sumX2 : JsNumber; sumY2 : JsNumber
}.

Definition sums_zero : Sums :=
  {| sumX := PrimFloat.zero; sumY := PrimFloat.zero;
     sumXY := PrimFloat.zero; sumX2 := PrimFloat.zero;
     sumY2 := PrimFloat.zero |}.

Definition sums_step (s : Sums) (t : PerTrade) : Sums :=
  let x := double_of_Z (nullish (pt_riskScore t) 0%Z) in
  let y := double_of_Q (nullish (pt_outcome t) 0%Q) in
  {| sumX := PrimFloat.add (sumX s) x;
     sumY := PrimFloat.add (sumY s) y;
     sumXY := PrimFloat.add (sumXY s) (PrimFloat.mul x y);
     sumX2 := PrimFloat.add (sumX2 s) (PrimFloat.mul x x);
     sumY2 := PrimFloat.add (sumY2 s) (PrimFloat.mul y y) |}.

Definition numerator_of (n : nat) (s : Sums) : JsNumber :=
  PrimFloat.sub (PrimFloat.mul (double_of_nat n) (sumXY s))
                (PrimFloat.mul (sumX s) (sumY s)).
Definition denomLeft_of (n : nat) (s : Sums) : JsNumber :=
  PrimFloat.sub (PrimFloat.mul (double_of_nat n) (sumX2 s))
                (PrimFloat.mul (sumX s) (sumX s)).
Definition denomRight_of (n : nat) (s : Sums) : JsNumber :=
  PrimFloat.sub (PrimFloat.mul (double_of_nat n) (sumY2 s))
                (PrimFloat.mul (sumY s) (sumY s)).

Definition correlation_of (perTrade : list PerTrade) : option JsNumber :=
  let n := List.length perTrade in
  if (2 <=? n)%nat then
    let s := fold_left sums_step perTrade sums_zero in
    let numerator := numerator_of n s in
    let denomLeft := denomLeft_of n s in
    let denomRight := denomRight_of n s in
    let denominator := js_sqrt (PrimFloat.mul denomLeft denomRight) in
    if js_is_zero denominator then None
    else Some (js_div numerator denominator)
  else None.

Definition refine_line (s : Underperf) : string :=
  ("Refine entry criteria for strategy " ++ u_strategyId s)%string.
Definition increase_line : string :=
  "Increase position size for low-risk trades".
Definition reduce_line : string :=
  "Reduce exposure to high-risk trades".

(** [suggestions.push(line)]. *)
Definition push (suggestions : list string) (line : string) : list string :=
  suggestions ++ [line].

(** The three rules, in the order of the source.  The win rate and
    the mean outcome are the store's figures; the literal [-0.2] is
    the negated double nearest to 0.2. *)
Definition suggestions_of (under : list Underperf) (byRisk : list RiskStat)
           (correlation : option JsNumber) : list string :=
  let suggestions := [] in
  let suggestions :=
    fold_left (fun acc s => push acc (refine_line s)) under suggestions in
  let lowRisk := find (fun r => mongo_eq (r_riskLevel r) "low") byRisk in
  let suggestions :=
    match lowRisk with
    | Some r =>
        if (3 <=? count r)%nat && Qlt_bool 0 (avgOutcome r)
        then push suggestions increase_line
        else suggestions
    | None => suggestions
    end in
  match correlation with
  | Some c =>
      if js_lt c (PrimFloat.opp (double_of_Q (2 # 10)))
      then push suggestions reduce_line
      else suggestions
  | None => suggestions
  end.

(** ** The response *)

Record Meta := mkMeta {
  totalTradesAnalyzed : nat;
  generatedAt : string
}.

Record Report := mkReport {
  rep_userId : string;
  windowDays : Z;
  underperformingStrategies : list Underperf;
  riskAverages : list RiskStat;
  riskOutcomeCorrelation : option JsNumber;
  suggestions : list string;
  meta : Meta
}.

Inductive Body :=
| ErrorBody (error : string)
| ReportBody (r : Report).

Record Response := mkResponse { status : Z; body : Body }.

(** ** The request handler as a state-and-exception computation

    The world a request runs in: the trade collection, whether the
    store answers, the clock (the value of the k-th [new Date()]), and
    the trace of what the handler did to the outside. *)

Inductive Event :=
| EvAggregate
| EvConsoleError.

Record World := mkWorld {
  store : list TradeDoc;
  storeUp : bool;
  clock : nat -> Date;
  reads : nat;
  trace : list Event
}.

Inductive Outcome (A : Type) : Type :=
| Return (a : A)
| Throw.
Arguments Return {A} a.
Arguments Throw {A}.

Definition IO (A : Type) : Type := World -> Outcome A * World.

Definition ret {A} (a : A) : IO A := fun w => (Return a, w).

Definition bind {A B} (m : IO A) (k : A -> IO B) : IO B :=
  fun w =>
    match m w with
    | (Return a, w') => k a w'
    | (Throw, w') => (Throw, w')
    end.

Definition try_catch {A} (m : IO A) (handler : IO A) : IO A :=
  fun w =>
    match m w with
    | (Return a, w') => (Return a, w')
    | (Throw, w') => handler w'
    end.

Declare Scope io_scope.
Delimit Scope io_scope with io.
Notation "x <- m ;; k" := (bind m (fun x => k))
  (at level 61, m at next level, right associativity) : io_scope.
Notation "m ;; k" := (bind m (fun _ => k))
  (at level 61, right associativity) : io_scope.

Definition emit (e : Event) (w : World) : World :=
  {| store := store w; storeUp := storeUp w; clock := clock w;
     reads := reads w; trace := trace w ++ [e] |}.

(** [new Date()]. *)
Definition new_Date : IO Date :=
  fun w =>
    (Return (clock w (reads w)),
     {| store := store w; storeUp := storeUp w; clock := clock w;
        reads := S (reads w); trace := trace w |}).

Definition console_error : IO unit :=
  fun w => (Return tt, emit EvConsoleError w).

(** [await Trade.aggregate(pipeline)]: the query reaches the store,
    which runs the pipeline on the collection; the call throws when the
    store does not answer or the pipeline aborts. *)
Definition Trade_aggregate
           (pipeline : list TradeDoc -> Eval (list FacetResult))
  : IO (list FacetResult) :=
  fun w =>
    let w' := emit EvAggregate w in
    if storeUp w then
      match pipeline (store w) with
      | Ok docs => (Return docs, w')
      | Fault _ => (Throw, w')
      end
    else (Throw, w').

(** What the handler takes from mongoose and from the JavaScript
    runtime: [Types.ObjectId.isValid], [new Types.ObjectId(s)],
    [d.setDate(d.getDate() - days)] and [d.toISOString()]. *)
Record Runtime := mkRuntime {
  isValid : string -> bool;
  ObjectId_of : string -> ObjectId;
  setDate_back : Date -> Z -> Date;
  toISOString : Date -> string
}.

Section Handler.
Variable rt : Runtime.

Definition optimize (userId : string) : IO Response :=
  try_catch
    (if negb (isValid rt userId) then
       ret {| status := 400; body := ErrorBody "Invalid userId" |}
     else
       let userObjectId := ObjectId_of rt userId in
       let days := 30%Z in
       now <- new_Date ;;
       let windowStart := setDate_back rt now days in
       let pipeline := pipeline userObjectId windowStart in
       results <- Trade_aggregate pipeline ;;
       let result := hd_error results in
       let byStrategy := nullish (option_map byStrategy result) [] in
       let byRisk := nullish (option_map byRisk result) [] in
       let perTrade := nullish (option_map perTrade result) [] in
       let underperformingStrategies := underperforming byStrategy in
       let n := List.length perTrade in
       let correlation := correlation_of perTrade in
       let suggestions :=
         suggestions_of underperformingStrategies byRisk correlation in
       stamp <- new_Date ;;
       ret {| status := 200;
              body := ReportBody
                {| rep_userId := userId;
                   windowDays := days;
                   underperformingStrategies := underperformingStrategies;
                   riskAverages := byRisk;
                   riskOutcomeCorrelation := correlation;
                   suggestions := suggestions;
                   meta := {| totalTradesAnalyzed := n;
                              generatedAt := toISOString rt stamp |} |} |})%io
    (console_error ;;
     ret {| status := 500; body := ErrorBody "Internal Server Error" |})%io.
End Handler.

(** * Reference definitions

    What the statements below compare the pipeline and the handler
    with. *)

(** The risk score as a plain function of the stored level. *)
Definition score (lvl : option string) : Z :=
  if mongo_eq lvl "low" then 1
  else if mongo_eq lvl "medium" then 2
  else if mongo_eq lvl "high" then 3
  else 2.

(** The document [$project] makes of a trade. *)
Definition projected (t : TradeDoc) : Projected :=
  {| p_strategyId := strategyId t;
     p_riskLevel := riskLevel t;
     p_outcome := outcome t;
     p_win := win t;
     p_tradeDate := tradeDate t;
     p_riskScore := score (riskLevel t) |}.

(** The statistics document the second [$project] makes of a group. *)
Definition stat_of (g : string * StrategyAcc) : StrategyStat :=
  {| s_strategyId := fst g;
     total := acc_total (snd g);
     wins := acc_wins (snd g);
     winRate := if (0 <? acc_total (snd g))%nat
                then (Qnat (acc_wins (snd g)) / Qnat (acc_total (snd g)))%Q
                else 0%Q |}.

(** Per-strategy figures read off the trade set itself. *)
Definition trades_of_strategy (sid : string) (trades : list TradeDoc)
  : list TradeDoc :=
  filter (fun t => String.eqb (strategyId t) sid) trades.

Definition total_of (sid : string) (trades : list TradeDoc) : nat :=
  List.length (trades_of_strategy sid trades).

Definition wins_of (sid : string) (trades : list TradeDoc) : nat :=
  List.length (filter win (trades_of_strategy sid trades)).

(** wins/total, and 0 when total = 0. *)
Definition winRate_of (sid : string) (trades : list TradeDoc) : Q :=
  if (total_of sid trades =? 0)%nat then 0%Q
  else (Qnat (wins_of sid trades) / Qnat (total_of sid trades))%Q.

(** Per-risk-level figures read off the trade set itself. *)
Definition trades_of_level (lvl : option string) (trades : list TradeDoc)
  : list TradeDoc :=
  filter (fun t => level_eqb (riskLevel t) lvl) trades.

Definition count_of (lvl : option string) (trades : list TradeDoc) : nat :=
  List.length (trades_of_level lvl trades).

Definition Qsum (l : list Q) : Q := fold_right Qplus 0%Q l.

(** The arithmetic mean of [outcome] over the trades of a level. *)
Definition mean_outcome (lvl : option string) (trades : list TradeDoc) : Q :=
  (Qsum (map outcome (trades_of_level lvl trades))
   / Qnat (count_of lvl trades))%Q.

(** The strict order that goes with [level_le]. *)
Definition level_lt (a b : option string) : bool :=
  match a, b with
  | None, Some _ => true
  | Some x, Some y => String.ltb x y
  | _, _ => false
  end.

(** The trades [$match] lets through for a request started in world
    [w]: those of the user dated at or after the window start, which is
    computed from the first clock reading of the request. *)
Definition window_of (rt : Runtime) (userId : string) (w : World)
  : list TradeDoc :=
  match_stage (ObjectId_of rt userId)
              (setDate_back rt (clock w (reads w)) 30%Z) (store w).

(** The report the handler assembles from the one facet document. *)
Definition assemble (userId : string) (stamp : string) (fr : FacetResult)
  : Report :=
  {| rep_userId := userId;
     windowDays := 30%Z;
     underperformingStrategies := underperforming (byStrategy fr);
     riskAverages := byRisk fr;
     riskOutcomeCorrelation := correlation_of (perTrade fr);
     suggestions :=
       suggestions_of (underperforming (byStrategy fr)) (byRisk fr)
                      (correlation_of (perTrade fr));
     meta := {| totalTradesAnalyzed := List.length (perTrade fr);
                generatedAt := stamp |} |}.

(** The world a successful request leaves behind: two clock readings
    and one query. *)
Definition after_report (w : World) : World :=
  {| store := store w;
     storeUp := storeUp w;
     clock := clock w;
     reads := S (S (reads w));
     trace := trace w ++ [EvAggregate] |}.

(** The request is answered [200] with report [rep], computed from the
    facet document [fr] of the trades in the window. *)
Definition serves (rt : Runtime) (userId : string) (w : World)
           (fr : FacetResult) (rep : Report) : Prop :=
  facets_of (window_of rt userId w) = Ok [fr] /\
  optimize rt userId w =
  (Return {| status := 200; body := ReportBody rep |},
   after_report w).

(** The number of [Trade.aggregate] calls recorded in a trace. *)
Definition queries (tr : list Event) : nat :=
  List.length (filter (fun e => match e with
                                | EvAggregate => true
                                | EvConsoleError => false
                                end) tr).

(** A response with its time stamp blanked. *)
Definition without_stamp (r : Response) : Response :=
  match body r with
  | ErrorBody _ => r
  | ReportBody rep =>
      {| status := status r;
         body := ReportBody
           {| rep_userId := rep_userId rep;
              windowDays := windowDays rep;
              underperformingStrategies := underperformingStrategies rep;
              riskAverages := riskAverages rep;
              riskOutcomeCorrelation := riskOutcomeCorrelation rep;
              suggestions := suggestions rep;
              meta := {| totalTradesAnalyzed :=
                           totalTradesAnalyzed (meta rep);
                         generatedAt := "" |} |} |}
  end.

(** The Pearson formula as it reads,
    (n Sxy - Sx Sy) / sqrt ((n Sxx - Sx^2) (n Syy - Syy^2)), over
    binary64 points: every sum is accumulated from 0 in the order of
    the points, and every operation rounds. *)
Definition float_sum (l : list JsNumber) : JsNumber :=
  fold_left PrimFloat.add l PrimFloat.zero.

Definition S_x (ps : list (JsNumber * JsNumber)) : JsNumber :=
  float_sum (map fst ps).
Definition S_y (ps : list (JsNumber * JsNumber)) : JsNumber :=
  float_sum (map snd ps).
Definition S_xy (ps : list (JsNumber * JsNumber)) : JsNumber :=
  float_sum (map (fun p => PrimFloat.mul (fst p) (snd p)) ps).
Definition S_xx (ps : list (JsNumber * JsNumber)) : JsNumber :=
  float_sum (map (fun p => PrimFloat.mul (fst p) (fst p)) ps).
Definition S_yy (ps : list (JsNumber * JsNumber)) : JsNumber :=
  float_sum (map (fun p => PrimFloat.mul (snd p) (snd p)) ps).

Definition pearson_numerator (ps : list (JsNumber * JsNumber)) : JsNumber :=
  PrimFloat.sub
    (PrimFloat.mul (double_of_nat (List.length ps)) (S_xy ps))
    (PrimFloat.mul (S_x ps) (S_y ps)).

Definition spread_x (ps : list (JsNumber * JsNumber)) : JsNumber :=
  PrimFloat.sub
    (PrimFloat.mul (double_of_nat (List.length ps)) (S_xx ps))
    (PrimFloat.mul (S_x ps) (S_x ps)).
Definition spread_y (ps : list (JsNumber * JsNumber)) : JsNumber :=
  PrimFloat.sub
    (PrimFloat.mul (double_of_nat (List.length ps)) (S_yy ps))
    (PrimFloat.mul (S_y ps) (S_y ps)).

Definition pearson_denominator (ps : list (JsNumber * JsNumber))
  : JsNumber :=
  PrimFloat.sqrt (PrimFloat.mul (spread_x ps) (spread_y ps)).

Definition pearson (ps : list (JsNumber * JsNumber)) : JsNumber :=
  PrimFloat.div (pearson_numerator ps) (pearson_denominator ps).

(** The (riskScore, outcome) point of a trade, and of a [perTrade]
    document. *)
Definition point_of_trade (t : TradeDoc) : JsNumber * JsNumber :=
  (double_of_Z (score (riskLevel t)), double_of_Q (outcome t)).

Definition point_of (t : PerTrade) : JsNumber * JsNumber :=
  (double_of_Z (nullish (pt_riskScore t) 0%Z),
   double_of_Q (nullish (pt_outcome t) 0%Q)).

(** The response a request ends with, if it ends with one. *)
Definition response_of (o : Outcome Response * World) : option Response :=
  match fst o with
  | Return r => Some r
  | Throw => None
  end.

(** ** A concrete runtime, for running the model

    The statements below hold for every [Runtime]; the concrete runs
    use this one: the 24-hexadecimal-digit test, lower-casing, and UTC
    calendar arithmetic for instants from 1970 on. *)

Definition is_hex_digit (c : ascii) : bool :=
  let n := nat_of_ascii c in
  (((48 <=? n) && (n <=? 57)) || ((65 <=? n) && (n <=? 70))
   || ((97 <=? n) && (n <=? 102)))%nat.

Fixpoint all_chars (p : ascii -> bool) (s : string) : bool :=
  match s with
  | EmptyString => true
  | String c r => p c && all_chars p r
  end.

Definition hex24_isValid (s : string) : bool :=
  (String.length s =? 24)%nat && all_chars is_hex_digit s.

Definition lower_hex (c : ascii) : ascii :=
  let n := nat_of_ascii c in
  if ((65 <=? n) && (n <=? 70))%nat then ascii_of_nat (n + 32) else c.

Fixpoint map_chars (f : ascii -> ascii) (s : string) : string :=
  match s with
  | EmptyString => EmptyString
  | String c r => String (f c) (map_chars f r)
  end.

Definition hex_ObjectId_of (s : string) : ObjectId := map_chars lower_hex s.

Definition ms_per_day : Z := 86400000.

Definition utc_setDate_back (d : Date) (days : Z) : Date :=
  (d - days * ms_per_day)%Z.

Fixpoint pad (width : nat) (n : Z) : string :=
  match width with
  | O => EmptyString
  | S k => (pad k (n / 10)
            ++ String (ascii_of_nat (48 + Z.to_nat (n mod 10))) EmptyString)
           %string
  end.

Definition utc_toISOString (d : Date) : string :=
  let day := (d / ms_per_day)%Z in
  let ms := (d mod ms_per_day)%Z in
  let z := (day + 719468)%Z in
  let era := (z / 146097)%Z in
  let doe := (z - era * 146097)%Z in
  let yoe := ((doe - doe / 1460 + doe / 36524 - doe / 146096) / 365)%Z in
  let doy := (doe - (365 * yoe + yoe / 4 - yoe / 100))%Z in
  let mp := ((5 * doy + 2) / 153)%Z in
  let dd := (doy - (153 * mp + 2) / 5 + 1)%Z in
  let mm := (if mp <? 10 then mp + 3 else mp - 9)%Z in
  let yy := (yoe + era * 400 + (if mm <=? 2 then 1 else 0))%Z in
  (pad 4 yy ++ "-" ++ pad 2 mm ++ "-" ++ pad 2 dd ++ "T"
   ++ pad 2 (ms / 3600000) ++ ":" ++ pad 2 ((ms / 60000) mod 60) ++ ":"
   ++ pad 2 ((ms / 1000) mod 60) ++ "." ++ pad 3 (ms mod 1000) ++ "Z")%string.

Definition sample_runtime : Runtime :=
  {| isValid := hex24_isValid;
     ObjectId_of := hex_ObjectId_of;
     setDate_back := utc_setDate_back;
     toISOString := utc_toISOString |}.

(** A user with seven trades in the window, one outside it, and one
    trade of another user. *)
Definition sample_user : string := "66f0a6b5c5f8b4d6e3a9f012".
Definition other_user : string := "66f0a6b5c5f8b4d6e3a9f0aa".

(** 2024-03-01T12:00:00.000Z. *)
Definition sample_now : Date := 1709294400000%Z.

Definition sample_store : list TradeDoc :=
  [ mkTrade sample_user "mean-reversion" 1709000000000 (Some "high")
            (-(40 # 1)) false;
    mkTrade sample_user "breakout" 1709000100000 (Some "low") (30 # 1) true;
    mkTrade sample_user "mean-reversion" 1709000200000 (Some "medium")
            (5 # 1) true;
    mkTrade sample_user "mean-reversion" 1709000300000 (Some "low")
            (45 # 1) false;
    mkTrade other_user "breakout" 1709000400000 (Some "high") (7 # 1) true;
    mkTrade sample_user "breakout" 1709000500000 (Some "low") (60 # 1) true;
    mkTrade sample_user "scalp" 1700000000000 (Some "low") (1 # 1) true;
    mkTrade sample_user "scalp" 1709000600000 None (-(2 # 1)) true;
    mkTrade sample_user "scalp" 1709000700000 (Some "extreme")
            (-(35 # 1)) false ].

(** The trades of [sample_store] that are in the window of a request
    for [sample_user] at [sample_now]. *)
Definition sample_window : list TradeDoc :=
  [ mkTrade sample_user "mean-reversion" 1709000000000 (Some "high")
            (-(40 # 1)) false;
    mkTrade sample_user "breakout" 1709000100000 (Some "low") (30 # 1) true;
    mkTrade sample_user "mean-reversion" 1709000200000 (Some "medium")
            (5 # 1) true;
    mkTrade sample_user "mean-reversion" 1709000300000 (Some "low")
            (45 # 1) false;
    mkTrade sample_user "breakout" 1709000500000 (Some "low") (60 # 1) true;
    mkTrade sample_user "scalp" 1709000600000 None (-(2 # 1)) true;
    mkTrade sample_user "scalp" 1709000700000 (Some "extreme")
            (-(35 # 1)) false ].

Definition sample_world : World :=
  {| store := sample_store;
     storeUp := true;
     clock := fun k => (sample_now + Z.of_nat k * 40)%Z;
     reads := 0;
     trace := [] |}.

(** The same store seen by a request that starts a second later. *)
Definition later_world : World :=
  {| store := sample_store;
     storeUp := true;
     clock := fun k => (sample_now + 1000 + Z.of_nat k * 25)%Z;
     reads := 0;
     trace := [] |}.

Definition empty_world : World :=
  {| store := [];
     storeUp := true;
     clock := fun k => (sample_now + Z.of_nat k * 40)%Z;
     reads := 0;
     trace := [] |}.

(** * Further reference definitions *)

(** The world with another trade collection. *)
Definition with_store (w : World) (docs : list TradeDoc) : World :=
  {| store := docs;
     storeUp := storeUp w;
     clock := clock w;
     reads := reads w;
     trace := trace w |}.

(** Three small windows on which the rounding of binary64 shows: two
    trades on a line, three trades with large outcomes, and three
    trades with one and the same outcome. *)
Definition collinear_window : list TradeDoc :=
  [ mkTrade sample_user "scalp" 1709000100000 (Some "low")
            (-(593 # 100)) false;
    mkTrade sample_user "scalp" 1709000200000 (Some "high")
            (-(1193 # 100)) false ].

Definition large_window : list TradeDoc :=
  [ mkTrade sample_user "scalp" 1709000100000 (Some "low")
            (100000000 # 1) true;
    mkTrade sample_user "scalp" 1709000200000 (Some "medium")
            (100000001 # 1) true;
    mkTrade sample_user "scalp" 1709000300000 (Some "high")
            (100000002 # 1) true ].

Definition flat_window : list TradeDoc :=
  [ mkTrade sample_user "scalp" 1709000100000 (Some "low") (226 # 5) true;
    mkTrade sample_user "scalp" 1709000200000 (Some "low") (226 # 5) true;
    mkTrade sample_user "scalp" 1709000300000 (Some "medium")
            (226 # 5) true ].

(** The world a request leaves behind when the query throws: one clock
    reading, the query, and the logged error. *)
Definition after_failure (w : World) : World :=
  {| store := store w;
     storeUp := storeUp w;
     clock := clock w;
     reads := S (reads w);
     trace := trace w ++ [EvAggregate; EvConsoleError] |}.

(** A trade that [$match] rejects for a request started in [w]: it is
    another user's, or dated before the window start. *)
Definition outside_window (rt : Runtime) (userId' : string) (w : World)
           (t : TradeDoc) : Prop :=
  userId t <> ObjectId_of rt userId' \/
  (tradeDate t < setDate_back rt (clock w (reads w)) 30)%Z.

(** The entry of [underperformingStrategies] made of a bucket. *)
Definition entry_of (s : StrategyStat) : Underperf :=
  {| u_strategyId := s_strategyId s; u_winRate := winRate s |}.

(** * The broker-sync side: src/routes/sync.ts (first module), the
    token store, the adapter registry, the sync service and the
    normalisation helpers

    Console output is left out: the [console.log], [console.warn] and
    [console.error] lines of these modules neither read nor change
    anything the functions below depend on.  Numbers are exact
    rationals or one of the three non-finite doubles; rounding is not
    modelled.  Values have the types the TypeScript declarations give
    them: user ids, broker names and tokens are strings, a stored
    expiry is a [Date], and what is thrown is an [Error] with a
    message. *)

(** ** Strings *)

(** [hay.includes(needle)]. *)
Fixpoint includes (needle hay : string) : bool :=
  String.prefix needle hay ||
  match hay with
  | EmptyString => false
  | String _ rest => includes needle rest
  end.

(** [s.split(sep)] for a one-character separator. *)
Fixpoint split_on (sep : ascii) (s : string) : list string :=
  match s with
  | EmptyString => [EmptyString]
  | String c rest =>
      if Ascii.eqb c sep then EmptyString :: split_on sep rest
      else match split_on sep rest with
           | seg :: segs => String c seg :: segs
           | [] => [String c EmptyString]
           end
  end.

(** Whether a character occurs in a string. *)
Fixpoint occurs (c : ascii) (s : string) : bool :=
  match s with
  | EmptyString => false
  | String c' rest => Ascii.eqb c' c || occurs c rest
  end.

Definition colon : ascii := ":"%char.

(** [v || d] for a string that may be undefined: the empty string is
    falsy. *)
Definition or_string (v : option string) (d : string) : string :=
  match v with
  | Some s => if String.eqb s "" then d else s
  | None => d
  end.

(** ** [Map<string, V>]: entries in insertion order, keys distinct *)
Module JsMap.
Section Ops.
Context {V : Type}.

Fixpoint get (k : string) (m : list (string * V)) : option V :=
  match m with
  | [] => None
  | (k', v) :: rest => if String.eqb k' k then Some v else get k rest
  end.

Definition has (k : string) (m : list (string * V)) : bool :=
  match get k m with
  | Some _ => true
  | None => false
  end.

(** [m.set(k, v)]: an existing key keeps its place. *)
Fixpoint set (k : string) (v : V) (m : list (string * V))
  : list (string * V) :=
  match m with
  | [] => [(k, v)]
  | (k', v') :: rest =>
      if String.eqb k' k then (k', v) :: rest
      else (k', v') :: set k v rest
  end.

(** [m.delete(k)]: the entry under [k], of which there is at most one,
    goes. *)
Definition delete (k : string) (m : list (string * V)) : list (string * V) :=
  filter (fun entry => negb (String.eqb (fst entry) k)) m.

Definition keys (m : list (string * V)) : list string := map fst m.
Definition values (m : list (string * V)) : list V := map snd m.
Definition size (m : list (string * V)) : nat := List.length m.
End Ops.
End JsMap.

(** ** Numbers, dates and JSON values *)

Inductive JsDouble :=
| Finite (q : Q)
| PlusInfinity
| MinusInfinity
| NotANumber.

(** [d > 0]. *)
Definition double_positive (d : JsDouble) : bool :=
  match d with
  | Finite q => Qlt_bool 0 q
  | PlusInfinity => true
  | MinusInfinity | NotANumber => false
  end.

Definition Math_abs (d : JsDouble) : JsDouble :=
  match d with
  | Finite q => Finite (Qabs q)
  | PlusInfinity | MinusInfinity => PlusInfinity
  | NotANumber => NotANumber
  end.

(** [a - b] for a time value [a]. *)
Definition double_minus (a b : JsDouble) : JsDouble :=
  match a, b with
  | NotANumber, _ | _, NotANumber => NotANumber
  | Finite x, Finite y => Finite (x - y)%Q
  | Finite _, PlusInfinity => MinusInfinity
  | Finite _, MinusInfinity => PlusInfinity
  | PlusInfinity, PlusInfinity | MinusInfinity, MinusInfinity => NotANumber
  | PlusInfinity, _ => PlusInfinity
  | MinusInfinity, _ => MinusInfinity
  end.

(** A [Date] object: its time value, or [None] for an Invalid Date. *)
Definition JsDate := option Z.

Definition max_time : Z := 8640000000000000.

(** [new Date(value)] for a number: the time value is clipped. *)
Definition Date_of_double (d : JsDouble) : JsDate :=
  match d with
  | Finite q =>
      if Qle_bool (Qabs q) (inject_Z max_time)
      then Some (Z.quot (Qnum q) (QDen q))
      else None
  | _ => None
  end.

(** [d.getTime()]. *)
Definition getTime (d : JsDate) : JsDouble :=
  match d with
  | Some t => Finite (inject_Z t)
  | None => NotANumber
  end.

(** [a < b] on dates; false as soon as one is invalid. *)
Definition date_lt (a b : JsDate) : bool :=
  match a, b with
  | Some x, Some y => (x <? y)%Z
  | _, _ => false
  end.

(** What [JSON.parse] can produce. *)
#[warnings="-register-all"]
Inductive Json :=
| JNull
| JBool (b : bool)
| JNum (q : Q)
| JStr (s : string)
| JArr (items : list Json)
| JObj (fields : list (string * Json)).

(** Truthiness of a value that may be undefined. *)
Definition truthy (v : option Json) : bool :=
  match v with
  | None | Some JNull => false
  | Some (JBool b) => b
  | Some (JNum q) => negb (Qeq_bool q 0)
  | Some (JStr s) => negb (String.eqb s "")
  | Some (JArr _) | Some (JObj _) => true
  end.

(** A raw trade ([RawTrade]) is a JSON object; a field that is not
    there reads as undefined. *)
Definition RawTrade := list (string * Json).

(** What the sync side takes from the JavaScript runtime:
    [s.toLowerCase()], [s.toUpperCase()], [parseInt(s, 10)],
    [parseFloat(s)], [v.toString()] on a JSON value ([None] when it
    throws), [new Date(s)] on a string, and [d.toISOString()]. *)
Record JsRuntime := mkJsRuntime {
  toLowerCase : string -> string;
  toUpperCase : string -> string;
  parseInt10 : string -> JsDouble;
  parseFloat : string -> JsDouble;
  js_toString : Json -> option string;
  Date_parse : string -> JsDate;
  Date_toISOString : Date -> string
}.

(** ** Tokens, adapters and the world of the sync side *)

Record TokenData := mkTokenData {
  accessToken : string;
  refreshToken : option string;
  expiresAt : JsDate
}.

(** A promise or call that completes with a value or throws an [Error]
    with a message. *)
Inductive Result (A : Type) : Type :=
| Done (a : A)
| Raised (message : string).
Arguments Done {A} a.
Arguments Raised {A} message.

(** The calls that reached a broker. *)
Inductive BrokerCall :=
| CallFetchTrades (broker token : string)
| CallRefreshToken (broker oldToken : string)
| CallValidateToken (broker token : string).

(** [IBrokerAdapter].  The three asynchronous methods are answered by
    the broker; the answer may depend on every call made before. *)
Module IBrokerAdapter.
Record t := mk {
  getName : string;
  fetchTrades : list BrokerCall -> string -> Result (list RawTrade);
  refreshToken : list BrokerCall -> string -> Result TokenData;
  isTokenValid : string -> bool;
  validateToken : option (list BrokerCall -> string -> Result bool)
}.
End IBrokerAdapter.

Record SyncWorld := mkSyncWorld {
  tokenStore : list (string * TokenData);
  adapters : list (string * IBrokerAdapter.t);
  wallClock : nat -> Date;
  clockReads : nat;
  env_TOKEN_REFRESH_SKEW_MS : option string;
  env_NODE_ENV : option string;
  brokerCalls : list BrokerCall
}.

Definition M (A : Type) : Type := SyncWorld -> Result A * SyncWorld.

Definition pure {A} (a : A) : M A := fun w => (Done a, w).

Definition throw {A} (message : string) : M A := fun w => (Raised message, w).

Definition andThen {A B} (m : M A) (k : A -> M B) : M B :=
  fun w =>
    match m w with
    | (Done a, w') => k a w'
    | (Raised e, w') => (Raised e, w')
    end.

(** [try { m } catch (error) { handler(error.message) }]. *)
Definition catch {A} (m : M A) (handler : string -> M A) : M A :=
  fun w =>
    match m w with
    | (Done a, w') => (Done a, w')
    | (Raised e, w') => handler e w'
    end.

Declare Scope sync_scope.
Delimit Scope sync_scope with sync.
Notation "x <- m ;; k" := (andThen m (fun x => k))
  (at level 61, m at next level, right associativity) : sync_scope.
Notation "m ;; k" := (andThen m (fun _ => k))
  (at level 61, right associativity) : sync_scope.

(** [for (const x of l) body(x)]. *)
Fixpoint for_each {A} (l : list A) (body : A -> M unit) : M unit :=
  match l with
  | [] => pure tt
  | x :: rest => (body x ;; for_each rest body)%sync
  end.

Definition with_tokenStore (w : SyncWorld) (m : list (string * TokenData))
  : SyncWorld :=
  {| tokenStore := m;
     adapters := adapters w;
     wallClock := wallClock w;
     clockReads := clockReads w;
     env_TOKEN_REFRESH_SKEW_MS := env_TOKEN_REFRESH_SKEW_MS w;
     env_NODE_ENV := env_NODE_ENV w;
     brokerCalls := brokerCalls w |}.

Definition with_adapters (w : SyncWorld)
           (m : list (string * IBrokerAdapter.t)) : SyncWorld :=
  {| tokenStore := tokenStore w;
     adapters := m;
     wallClock := wallClock w;
     clockReads := clockReads w;
     env_TOKEN_REFRESH_SKEW_MS := env_TOKEN_REFRESH_SKEW_MS w;
     env_NODE_ENV := env_NODE_ENV w;
     brokerCalls := brokerCalls w |}.

(** [Date.now()] and the time value of [new Date()]. *)
Definition Date_now : M Date :=
  fun w =>
    (Done (wallClock w (clockReads w)),
     {| tokenStore := tokenStore w;
        adapters := adapters w;
        wallClock := wallClock w;
        clockReads := S (clockReads w);
        env_TOKEN_REFRESH_SKEW_MS := env_TOKEN_REFRESH_SKEW_MS w;
        env_NODE_ENV := env_NODE_ENV w;
        brokerCalls := brokerCalls w |}).

(** A call of an adapter method: the broker answers from the calls seen
    so far, and the call is recorded. *)
Definition broker_call {A} (call : BrokerCall)
           (answer : list BrokerCall -> Result A) : M A :=
  fun w =>
    (answer (brokerCalls w),
     {| tokenStore := tokenStore w;
        adapters := adapters w;
        wallClock := wallClock w;
        clockReads := clockReads w;
        env_TOKEN_REFRESH_SKEW_MS := env_TOKEN_REFRESH_SKEW_MS w;
        env_NODE_ENV := env_NODE_ENV w;
        brokerCalls := brokerCalls w ++ [call] |}).

(** [w'] is [w] after some clock readings and nothing else. *)
Definition ticks_only (w w' : SyncWorld) : Prop :=
  tokenStore w' = tokenStore w /\
  adapters w' = adapters w /\
  wallClock w' = wallClock w /\
  env_TOKEN_REFRESH_SKEW_MS w' = env_TOKEN_REFRESH_SKEW_MS w /\
  env_NODE_ENV w' = env_NODE_ENV w /\
  brokerCalls w' = brokerCalls w /\
  (clockReads w <= clockReads w')%nat.

(** [for (const x of l) { state = body(state, x) }]. *)
Fixpoint fold_each {A S} (l : list A) (init : S) (body : S -> A -> M S)
  : M S :=
  match l with
  | [] => pure init
  | x :: rest => (s <- body init x ;; fold_each rest s body)%sync
  end.

(** ** [TokenService] (services/TokenService.ts) *)
Module TokenService.

Record TokenStats := mkTokenStats {
  totalTokens : nat;
  validTokens : nat;
  expiredTokens : nat
}.

Section Methods.
Variable js : JsRuntime.

Definition getKey (userId brokerName : string) : string :=
  (userId ++ ":" ++ brokerName)%string.

Definition setToken (userId brokerName : string) (tokenData : TokenData)
  : M unit :=
  fun w =>
    (Done tt,
     with_tokenStore w
       (JsMap.set (getKey userId brokerName) tokenData (tokenStore w))).

Definition getToken (userId brokerName : string) : M (option TokenData) :=
  fun w => (Done (JsMap.get (getKey userId brokerName) (tokenStore w)), w).

Definition removeToken (userId brokerName : string) : M unit :=
  fun w =>
    (Done tt,
     with_tokenStore w
       (JsMap.delete (getKey userId brokerName) (tokenStore w))).

(** [parseInt(process.env.TOKEN_REFRESH_SKEW_MS || '30000', 10)]. *)
Definition skewMs : M JsDouble :=
  fun w =>
    (Done (parseInt10 js (or_string (env_TOKEN_REFRESH_SKEW_MS w) "30000")),
     w).

(** [now < new Date(tokenData.expiresAt.getTime() - skewMs)]. *)
Definition before_expiry (now : Date) (skew : JsDouble)
           (tokenData : TokenData) : bool :=
  let expiryWithSkew :=
    Date_of_double (double_minus (getTime (expiresAt tokenData)) skew) in
  date_lt (Some now) expiryWithSkew.

Definition isTokenValid (userId brokerName : string) : M bool :=
  (tokenData <- getToken userId brokerName ;;
   match tokenData with
   | None => pure false
   | Some tokenData =>
       now <- Date_now ;;
       skew <- skewMs ;;
       let isValid := before_expiry now skew tokenData in
       (if negb isValid then removeToken userId brokerName else pure tt) ;;
       pure isValid
   end)%sync.

Definition updateToken (userId brokerName : string) (tokenData : TokenData)
  : M unit :=
  setToken userId brokerName tokenData.

(** The loop body of [getUserTokens]; a key that starts with
    ["<userId>:"] has a second segment. *)
Definition collect_user_token (userId : string)
           (userTokens : list (string * TokenData))
           (entry : string * TokenData) : list (string * TokenData) :=
  let '(key, tokenData) := entry in
  if String.prefix (userId ++ ":") key then
    match nth_error (split_on colon key) 1 with
    | Some brokerName => JsMap.set brokerName tokenData userTokens
    | None => userTokens
    end
  else userTokens.

Definition getUserTokens (userId : string) : M (list (string * TokenData)) :=
  fun w =>
    (Done (fold_left (collect_user_token userId) (tokenStore w) []), w).

Definition clearAllTokens : M unit :=
  fun w => (Done tt, with_tokenStore w []).

Definition getTokenStats : M TokenStats :=
  fun w =>
    (counts <-
       fold_each (JsMap.values (tokenStore w)) (0, 0)
         (fun counts tokenData =>
            now <- Date_now ;;
            skew <- skewMs ;;
            if before_expiry now skew tokenData
            then pure (S (fst counts), snd counts)
            else pure (fst counts, S (snd counts))) ;;
     fun w' =>
       (Done {| totalTokens := JsMap.size (tokenStore w');
                validTokens := fst counts;
                expiredTokens := snd counts |}, w'))%sync w.
End Methods.
End TokenService.

(** ** [AdapterRegistry] (adapters/index.ts) *)
Module AdapterRegistry.

Record Stats := mkStats {
  totalAdapters : nat;
  supportedBrokers : list string
}.

Section Methods.
Variable js : JsRuntime.

(** [initializeAdapters]: the registry starts with the Zerodha adapter
    under its own name. *)
Definition initializeAdapters (zerodhaAdapter : IBrokerAdapter.t)
  : list (string * IBrokerAdapter.t) :=
  JsMap.set (IBrokerAdapter.getName zerodhaAdapter) zerodhaAdapter [].

Definition getAdapter (brokerName : string) : M IBrokerAdapter.t :=
  fun w =>
    match JsMap.get (toLowerCase js brokerName) (adapters w) with
    | Some adapter => (Done adapter, w)
    | None =>
        let availableBrokers :=
          String.concat ", " (JsMap.keys (adapters w)) in
        (Raised ("Unknown broker: " ++ brokerName
                 ++ ". Available brokers: " ++ availableBrokers)%string, w)
    end.

Definition getAllAdapters : M (list (string * IBrokerAdapter.t)) :=
  fun w => (Done (adapters w), w).

Definition getAvailableBrokers : M (list string) :=
  fun w => (Done (JsMap.keys (adapters w)), w).

Definition isBrokerSupported (brokerName : string) : M bool :=
  fun w => (Done (JsMap.has (toLowerCase js brokerName) (adapters w)), w).

Definition registerAdapter (adapter : IBrokerAdapter.t) : M unit :=
  fun w =>
    (Done tt,
     with_adapters w
       (JsMap.set (IBrokerAdapter.getName adapter) adapter (adapters w))).

Definition unregisterAdapter (brokerName : string) : M bool :=
  fun w =>
    let removed := JsMap.has (toLowerCase js brokerName) (adapters w) in
    (Done removed,
     with_adapters w
       (JsMap.delete (toLowerCase js brokerName) (adapters w))).

Definition getStats : M Stats :=
  fun w =>
    (supportedBrokers <- getAvailableBrokers ;;
     pure {| totalAdapters := JsMap.size (adapters w);
             supportedBrokers := supportedBrokers |})%sync w.
End Methods.
End AdapterRegistry.

(** ** Normalisation helpers (utils/helpers.ts) *)

Definition field (name : string) (rawTrade : RawTrade) : option Json :=
  JsMap.get name rawTrade.

(** [NormalizedTrade].  The interface declares [symbol] and
    [timestamp] as strings; the normalisers pass on whatever truthy
    value the broker sent. *)
Record NormalizedTrade := mkNormalizedTrade {
  symbol : Json;
  quantity : JsDouble;
  price : JsDouble;
  timestamp : Json;
  side : string
}.

Section Helpers.
Variable js : JsRuntime.

(** [v?.toString()]: undefined for a null or undefined value; a
    [TypeError] where [toString] throws. *)
Definition optional_toString (v : option Json) : M (option string) :=
  match v with
  | None | Some JNull => pure None
  | Some x =>
      match js_toString js x with
      | Some s => pure (Some s)
      | None => throw "TypeError"
      end
  end.

(** [a || b || new Date().toISOString()]: the clock is read only when
    both values are falsy. *)
Definition first_truthy_or_now (a b : option Json) : M Json :=
  match a, b with
  | Some x, _ =>
      if truthy a then pure x
      else match b with
           | Some y =>
               if truthy b then pure y
               else (now <- Date_now ;;
                     pure (JStr (Date_toISOString js now)))%sync
           | None =>
               (now <- Date_now ;; pure (JStr (Date_toISOString js now)))%sync
           end
  | None, Some y =>
      if truthy b then pure y
      else (now <- Date_now ;; pure (JStr (Date_toISOString js now)))%sync
  | None, None =>
      (now <- Date_now ;; pure (JStr (Date_toISOString js now)))%sync
  end.

(** [rawTrade.tradingsymbol || rawTrade.instrument_token?.toString()
    || 'UNKNOWN']. *)
Definition zerodha_symbol (rawTrade : RawTrade) : M Json :=
  if truthy (field "tradingsymbol" rawTrade) then
    match field "tradingsymbol" rawTrade with
    | Some x => pure x
    | None => pure (JStr "UNKNOWN")
    end
  else
    (s <- optional_toString (field "instrument_token" rawTrade) ;;
     pure (JStr (or_string s "UNKNOWN")))%sync.

(** [rawTrade.transaction_type?.toUpperCase() === 'SELL' ? 'SELL' :
    'BUY']: a value that is neither a string nor null nor undefined has
    no [toUpperCase]. *)
Definition zerodha_side (rawTrade : RawTrade) : M string :=
  match field "transaction_type" rawTrade with
  | None | Some JNull => pure "BUY"
  | Some (JStr s) =>
      pure (if String.eqb (toUpperCase js s) "SELL" then "SELL" else "BUY")
  | Some _ => throw "TypeError"
  end.

Definition normalizeZerodhaTrade (rawTrade : RawTrade) : M NormalizedTrade :=
  catch
    (symbol <- zerodha_symbol rawTrade ;;
     quantityText <- optional_toString (field "quantity" rawTrade) ;;
     let quantity := parseInt10 js (or_string quantityText "0") in
     priceText <- optional_toString (field "average_price" rawTrade) ;;
     let price := parseFloat js (or_string priceText "0") in
     timestamp <-
       first_truthy_or_now (field "order_timestamp" rawTrade)
                           (field "exchange_timestamp" rawTrade) ;;
     side <- zerodha_side rawTrade ;;
     pure {| symbol := symbol;
             quantity := quantity;
             price := price;
             timestamp := timestamp;
             side := side |})%sync
    (fun _ => throw "Failed to normalize Zerodha trade data").

(** [rawTrade.symbol || rawTrade.instrument || 'UNKNOWN']. *)
Definition metatrader_symbol (rawTrade : RawTrade) : Json :=
  if truthy (field "symbol" rawTrade) then
    match field "symbol" rawTrade with
    | Some x => x
    | None => JStr "UNKNOWN"
    end
  else if truthy (field "instrument" rawTrade) then
    match field "instrument" rawTrade with
    | Some y => y
    | None => JStr "UNKNOWN"
    end
  else JStr "UNKNOWN".

Definition normalizeMetaTraderTrade (rawTrade : RawTrade)
  : M NormalizedTrade :=
  catch
    (let symbol := metatrader_symbol rawTrade in
     volumeText <- optional_toString (field "volume" rawTrade) ;;
     let quantity := Math_abs (parseFloat js (or_string volumeText "0")) in
     priceText <- optional_toString (field "price" rawTrade) ;;
     let price := parseFloat js (or_string priceText "0") in
     timestamp <-
       first_truthy_or_now (field "time" rawTrade)
                           (field "close_time" rawTrade) ;;
     volumeText' <- optional_toString (field "volume" rawTrade) ;;
     let side :=
       if double_positive (parseFloat js (or_string volumeText' "0"))
       then "BUY" else "SELL" in
     pure {| symbol := symbol;
             quantity := quantity;
             price := price;
             timestamp := timestamp;
             side := side |})%sync
    (fun _ => throw "Failed to normalize MetaTrader trade data").

Definition normalizeTrade (rawTrade : RawTrade) (brokerName : string)
  : M NormalizedTrade :=
  let name := toLowerCase js brokerName in
  if String.eqb name "zerodha" then normalizeZerodhaTrade rawTrade
  else if String.eqb name "metatrader" then normalizeMetaTraderTrade rawTrade
  else throw ("Unknown broker: " ++ brokerName)%string.
End Helpers.

(** [value !== 'UNKNOWN']. *)
Definition is_not_UNKNOWN (v : Json) : bool :=
  match v with
  | JStr s => negb (String.eqb s "UNKNOWN")
  | _ => true
  end.

Definition validateNormalizedTrade (trade : NormalizedTrade) : bool :=
  truthy (Some (symbol trade))
  && is_not_UNKNOWN (symbol trade)
  && double_positive (quantity trade)
  && double_positive (price trade)
  && truthy (Some (timestamp trade))
  && (String.eqb (side trade) "BUY" || String.eqb (side trade) "SELL").

(** ** [SyncService] (services/SyncService.ts) *)
Module SyncService.

Record SyncStats := mkSyncStats {
  totalBrokers : nat;
  supportedBrokers : list string;
  tokenStats : TokenService.TokenStats
}.

Record ConnectionTest := mkConnectionTest {
  success : bool;
  message : string;
  brokerName : string
}.

Section Methods.
Variable js : JsRuntime.

Definition getValidToken (userId brokerName : string)
           (adapter : IBrokerAdapter.t) : M string :=
  (valid <- TokenService.isTokenValid js userId brokerName ;;
   stored <-
     (if valid then TokenService.getToken userId brokerName
      else pure None) ;;
   match stored with
   | Some tokenData => pure (accessToken tokenData)
   | None =>
       oldTokenData <- TokenService.getToken userId brokerName ;;
       let oldToken := or_string (option_map accessToken oldTokenData) "" in
       catch
         (newTokenData <-
            broker_call
              (CallRefreshToken (IBrokerAdapter.getName adapter) oldToken)
              (fun calls => IBrokerAdapter.refreshToken adapter calls oldToken) ;;
          TokenService.setToken userId brokerName newTokenData ;;
          pure (accessToken newTokenData))
         (fun message => throw ("Authentication failed: " ++ message)%string)
   end)%sync.

Definition normalizeTrades (rawTrades : list RawTrade) (brokerName : string)
  : M (list NormalizedTrade) :=
  fold_each rawTrades []
    (fun normalizedTrades rawTrade =>
       catch
         (normalizedTrade <- normalizeTrade js rawTrade brokerName ;;
          pure (normalizedTrades ++ [normalizedTrade]))%sync
         (fun _ => pure normalizedTrades)).

Definition syncTrades (userId brokerName : string)
  : M (list NormalizedTrade) :=
  catch
    (adapter <- AdapterRegistry.getAdapter js brokerName ;;
     token <- getValidToken userId brokerName adapter ;;
     rawTrades <-
       broker_call
         (CallFetchTrades (IBrokerAdapter.getName adapter) token)
         (fun calls => IBrokerAdapter.fetchTrades adapter calls token) ;;
     normalizedTrades <- normalizeTrades rawTrades brokerName ;;
     let validTrades := filter validateNormalizedTrade normalizedTrades in
     pure validTrades)%sync
    (fun message => throw message).

Definition getSyncStats (userId : string) : M SyncStats :=
  (supportedBrokers <- AdapterRegistry.getAvailableBrokers ;;
   tokenStats <- TokenService.getTokenStats js ;;
   pure {| totalBrokers := List.length supportedBrokers;
           supportedBrokers := supportedBrokers;
           tokenStats := tokenStats |})%sync.

Definition testConnection (userId brokerName : string) : M ConnectionTest :=
  catch
    (adapter <- AdapterRegistry.getAdapter js brokerName ;;
     token <- getValidToken userId brokerName adapter ;;
     isValid <-
       match IBrokerAdapter.validateToken adapter with
       | Some validateToken =>
           broker_call
             (CallValidateToken (IBrokerAdapter.getName adapter) token)
             (fun calls => validateToken calls token)
       | None => pure false
       end ;;
     if isValid then
       pure {| success := true;
               message := ("Successfully connected to " ++ brokerName)%string;
               brokerName := brokerName |}
     else
       pure {| success := false;
               message := ("Connection test failed for " ++ brokerName)%string;
               brokerName := brokerName |})%sync
    (fun message =>
       pure {| success := false;
               message := ("Connection test failed: " ++ message)%string;
               brokerName := brokerName |}).

Definition clearUserTokens (userId : string) : M unit :=
  (userTokens <- TokenService.getUserTokens userId ;;
   for_each (JsMap.keys userTokens)
     (fun brokerName => TokenService.removeToken userId brokerName))%sync.
End Methods.
End SyncService.

(** ** The sync routes (routes/sync.ts, first module) *)

(** The request body of [POST /sync] and [POST /test], with the fields
    typed as documented ([None] is a field that is not there). *)
Record SyncRequest := mkSyncRequest {
  req_userId : option string;
  req_broker : option string;
  req_accessToken : option string;
  req_refreshToken : option string;
  req_expiresAt : option string
}.

Inductive SyncPayload :=
| ErrorPayload (error : string) (message : option string)
               (supportedBrokers : option (list string))
               (suggestion : option string) (details : option string)
| SyncedPayload (userId broker : string) (trades : list NormalizedTrade)
                (count : nat) (timestamp : string)
| BrokersPayload (supportedBrokers : list string)
                 (stats : AdapterRegistry.Stats) (timestamp : string)
| TestPayload (result : SyncService.ConnectionTest) (timestamp : string)
| StatsPayload (userId : string) (stats : SyncService.SyncStats)
               (timestamp : string)
| ClearedPayload (message : string) (timestamp : string).

Record SyncResponse := mkSyncResponse {
  code : Z;
  payload : SyncPayload
}.

(** Truthiness of a string that may be undefined. *)
Definition present (v : option string) : bool :=
  match v with
  | Some s => negb (String.eqb s "")
  | None => false
  end.

Module SyncRoutes.
Section Routes.
Variable js : JsRuntime.

(** [new Date().toISOString()]. *)
Definition now_iso : M string :=
  (now <- Date_now ;; pure (Date_toISOString js now))%sync.

Definition missing_fields : SyncResponse :=
  {| code := 400;
     payload := ErrorPayload "Missing required fields"
                  (Some "Both userId and broker are required")
                  None None None |}.

Definition unsupported_broker (broker : string)
           (supportedBrokers : list string) : SyncResponse :=
  {| code := 400;
     payload := ErrorPayload "Unsupported broker"
                  (Some ("Broker '" ++ broker ++ "' is not supported")%string)
                  (Some supportedBrokers) None None |}.

(** [process.env.NODE_ENV === 'development' ? error.message : undefined]. *)
Definition details_of (message : string) : M (option string) :=
  fun w =>
    (Done (match env_NODE_ENV w with
           | Some mode =>
               if String.eqb mode "development" then Some message else None
           | None => None
           end), w).

(** [POST /sync]. *)
Definition post_sync (body : SyncRequest) : M SyncResponse :=
  catch
    (match req_userId body, req_broker body with
     | Some userId, Some broker =>
         if negb (present (Some userId)) || negb (present (Some broker))
         then pure missing_fields
         else
           supported <- AdapterRegistry.isBrokerSupported js broker ;;
           if negb supported then
             supportedBrokers <- AdapterRegistry.getAvailableBrokers ;;
             pure (unsupported_broker broker supportedBrokers)
           else
             (match req_accessToken body with
              | Some accessToken =>
                  if present (Some accessToken) then
                    expiresAt <-
                      (match req_expiresAt body with
                       | Some text =>
                           if present (Some text)
                           then pure (Date_parse js text)
                           else
                             now <- Date_now ;;
                             pure (Date_of_double
                                     (Finite (inject_Z (now + 23 * 60 * 60 * 1000))))
                       | None =>
                           now <- Date_now ;;
                           pure (Date_of_double
                                   (Finite (inject_Z (now + 23 * 60 * 60 * 1000))))
                       end) ;;
                    TokenService.setToken userId broker
                      {| accessToken := accessToken;
                         refreshToken := req_refreshToken body;
                         expiresAt := expiresAt |}
                  else pure tt
              | None => pure tt
              end) ;;
             trades <- SyncService.syncTrades js userId broker ;;
             stamp <- now_iso ;;
             pure {| code := 200;
                     payload := SyncedPayload userId broker trades
                                  (List.length trades) stamp |}
     | _, _ => pure missing_fields
     end)%sync
    (fun message =>
       if includes "Authentication failed" message then
         pure {| code := 401;
                 payload := ErrorPayload "Authentication failed"
                   (Some message) None
                   (Some "Please check your broker credentials and try again")
                   None |}
       else if includes "Unknown broker" message then
         pure {| code := 400;
                 payload := ErrorPayload "Invalid broker" (Some message)
                              None None None |}
       else
         (details <- details_of message ;;
          pure {| code := 500;
                  payload := ErrorPayload "Internal server error"
                               (Some "Failed to sync trades")
                               None None details |})%sync).

(** [GET /brokers]. *)
Definition get_brokers : M SyncResponse :=
  catch
    (supportedBrokers <- AdapterRegistry.getAvailableBrokers ;;
     stats <- AdapterRegistry.getStats ;;
     stamp <- now_iso ;;
     pure {| code := 200;
             payload := BrokersPayload supportedBrokers stats stamp |})%sync
    (fun _ =>
       pure {| code := 500;
               payload := ErrorPayload "Internal server error"
                            (Some "Failed to get supported brokers")
                            None None None |}).

(** [POST /test]. *)
Definition post_test (body : SyncRequest) : M SyncResponse :=
  catch
    (match req_userId body, req_broker body with
     | Some userId, Some broker =>
         if negb (present (Some userId)) || negb (present (Some broker))
         then pure missing_fields
         else
           supported <- AdapterRegistry.isBrokerSupported js broker ;;
           if negb supported then
             supportedBrokers <- AdapterRegistry.getAvailableBrokers ;;
             pure (unsupported_broker broker supportedBrokers)
           else
             result <- SyncService.testConnection js userId broker ;;
             stamp <- now_iso ;;
             pure {| code := if SyncService.success result then 200 else 400;
                     payload := TestPayload result stamp |}
     | _, _ => pure missing_fields
     end)%sync
    (fun message =>
       (details <- details_of message ;;
        pure {| code := 500;
                payload := ErrorPayload "Internal server error"
                             (Some "Failed to test connection")
                             None None details |})%sync).

(** [GET /stats/:userId]. *)
Definition get_stats (userId : string) : M SyncResponse :=
  catch
    (if negb (present (Some userId)) then
       pure {| code := 400;
               payload := ErrorPayload "Missing userId parameter"
                            None None None None |}
     else
       stats <- SyncService.getSyncStats js userId ;;
       stamp <- now_iso ;;
       pure {| code := 200; payload := StatsPayload userId stats stamp |})%sync
    (fun _ =>
       pure {| code := 500;
               payload := ErrorPayload "Internal server error"
                            (Some "Failed to get sync statistics")
                            None None None |}).

(** [DELETE /tokens/:userId]. *)
Definition delete_tokens (userId : string) : M SyncResponse :=
  catch
    (if negb (present (Some userId)) then
       pure {| code := 400;
               payload := ErrorPayload "Missing userId parameter"
                            None None None None |}
     else
       SyncService.clearUserTokens userId ;;
       stamp <- now_iso ;;
       pure {| code := 200;
               payload := ClearedPayload
                            ("Cleared all tokens for user " ++ userId)%string
                            stamp |})%sync
    (fun _ =>
       pure {| code := 500;
               payload := ErrorPayload "Internal server error"
                            (Some "Failed to clear tokens")
                            None None None |}).
End Routes.
End SyncRoutes.

(** ** A concrete JavaScript runtime and world for the sync side

    The statements below hold for every [JsRuntime]; the concrete runs
    use this one.  It agrees with the builtins on ASCII letters, on
    plain decimal numerals, on strings, booleans and integers for
    [toString], and on the 24-character UTC format for dates; the
    concrete runs use nothing else. *)

Definition ascii_lower (c : ascii) : ascii :=
  let n := nat_of_ascii c in
  if ((65 <=? n) && (n <=? 90))%nat then ascii_of_nat (n + 32) else c.

Definition ascii_upper (c : ascii) : ascii :=
  let n := nat_of_ascii c in
  if ((97 <=? n) && (n <=? 122))%nat then ascii_of_nat (n - 32) else c.

Definition digit_of (c : ascii) : option Z :=
  let n := nat_of_ascii c in
  if ((48 <=? n) && (n <=? 57))%nat then Some (Z.of_nat (n - 48)) else None.

(** The value of the leading decimal digits, with what follows them. *)
Fixpoint leading_digits (s : string) (acc : option Z) : option Z * string :=
  match s with
  | EmptyString => (acc, EmptyString)
  | String c rest =>
      match digit_of c with
      | Some d =>
          leading_digits rest
            (Some (10 * match acc with Some a => a | None => 0 end + d)%Z)
      | None => (acc, s)
      end
  end.

Definition sample_parseInt10 (s : string) : JsDouble :=
  match s with
  | String "-" rest =>
      match fst (leading_digits rest None) with
      | Some n => Finite (inject_Z (- n))
      | None => NotANumber
      end
  | _ =>
      match fst (leading_digits s None) with
      | Some n => Finite (inject_Z n)
      | None => NotANumber
      end
  end.

(** Digits, then optionally a point and digits. *)
Definition unsigned_decimal (s : string) : option Q :=
  match leading_digits s None with
  | (Some n, String "." rest) =>
      match leading_digits rest None with
      | (Some f, after) =>
          let places := (String.length rest - String.length after)%nat in
          Some (inject_Z n + (f # Pos.of_nat (10 ^ places)))%Q
      | (None, _) => Some (inject_Z n)
      end
  | (Some n, _) => Some (inject_Z n)
  | (None, _) => None
  end.

Definition sample_parseFloat (s : string) : JsDouble :=
  match s with
  | String "-" rest =>
      match unsigned_decimal rest with
      | Some q => Finite (- q)
      | None => NotANumber
      end
  | _ =>
      match unsigned_decimal s with
      | Some q => Finite q
      | None => NotANumber
      end
  end.

Definition decimal_of_nat (n : nat) : string :=
  pad (Nat.max 1 (Nat.log2 n / 3 + 1)) (Z.of_nat n).

Fixpoint strip_zeros (fuel : nat) (s : string) : string :=
  match fuel, s with
  | S k, String "0" (String c rest) => strip_zeros k (String c rest)
  | _, _ => s
  end.

Definition sample_toString (v : Json) : option string :=
  match v with
  | JStr s => Some s
  | JBool true => Some "true"
  | JBool false => Some "false"
  | JNum (Zpos p # 1) =>
      let digits := decimal_of_nat (Pos.to_nat p) in
      Some (strip_zeros (String.length digits) digits)
  | JNum (0 # 1) => Some "0"
  | _ => None
  end.

(** Days since the epoch of a civil date. *)
Definition days_from_civil (y m d : Z) : Z :=
  let y' := (if m <=? 2 then y - 1 else y)%Z in
  let era := (y' / 400)%Z in
  let yoe := (y' - era * 400)%Z in
  let doy := ((153 * (if m >? 2 then m - 3 else m + 9) + 2) / 5 + d - 1)%Z in
  let doe := (yoe * 365 + yoe / 4 - yoe / 100 + doy)%Z in
  (era * 146097 + doe - 719468)%Z.

Definition number_at (s : string) (from len : nat) : option Z :=
  match leading_digits (String.substring from len s) None with
  | (Some n, EmptyString) => Some n
  | _ => None
  end.

(** [YYYY-MM-DDTHH:mm:ss.sssZ] and nothing else. *)
Definition sample_Date_parse (s : string) : JsDate :=
  if (String.length s =? 24)%nat then
    match number_at s 0 4, number_at s 5 2, number_at s 8 2,
          number_at s 11 2, number_at s 14 2, number_at s 17 2,
          number_at s 20 3 with
    | Some y, Some mo, Some d, Some h, Some mi, Some sec, Some ms =>
        Some (days_from_civil y mo d * ms_per_day
              + h * 3600000 + mi * 60000 + sec * 1000 + ms)%Z
    | _, _, _, _, _, _, _ => None
    end
  else None.

Definition sample_js : JsRuntime :=
  {| toLowerCase := map_chars ascii_lower;
     toUpperCase := map_chars ascii_upper;
     parseInt10 := sample_parseInt10;
     parseFloat := sample_parseFloat;
     js_toString := sample_toString;
     Date_parse := sample_Date_parse;
     Date_toISOString := utc_toISOString |}.

(** A broker that hands out the token ["fresh"] on refresh and answers
    [fetchTrades] with three orders: a sale, an order without a symbol,
    and one whose transaction type is not a string. *)
Definition sample_orders : list RawTrade :=
  [ [ ("tradingsymbol", JStr "INFY"); ("quantity", JNum (10 # 1));
      ("average_price", JStr "1520.5");
      ("order_timestamp", JStr "2024-03-01 10:00:00");
      ("transaction_type", JStr "sell") ];
    [ ("quantity", JNum (5 # 1)); ("average_price", JStr "99");
      ("transaction_type", JStr "BUY") ];
    [ ("tradingsymbol", JStr "TCS"); ("quantity", JNum (1 # 1));
      ("average_price", JStr "10"); ("transaction_type", JNum (1 # 1)) ] ].

Definition sample_adapter : IBrokerAdapter.t :=
  {| IBrokerAdapter.getName := "zerodha";
     IBrokerAdapter.fetchTrades := fun _ _ => Done sample_orders;
     IBrokerAdapter.refreshToken :=
       fun _ _ =>
         Done {| accessToken := "fresh";
                 refreshToken := Some "next";
                 expiresAt := Some (sample_now + 86400000)%Z |};
     IBrokerAdapter.isTokenValid :=
       fun token => negb (String.eqb token "");
     IBrokerAdapter.validateToken := Some (fun _ _ => Done true) |}.

(** The same broker, refusing to refresh. *)
Definition refusing_adapter : IBrokerAdapter.t :=
  {| IBrokerAdapter.getName := "zerodha";
     IBrokerAdapter.fetchTrades := fun _ _ => Done sample_orders;
     IBrokerAdapter.refreshToken :=
       fun _ _ => Raised "Failed to refresh token: Request failed";
     IBrokerAdapter.isTokenValid :=
       fun token => negb (String.eqb token "");
     IBrokerAdapter.validateToken := None |}.

Definition sample_token : TokenData :=
  {| accessToken := "abc";
     refreshToken := None;
     expiresAt := Some (sample_now + 3600000)%Z |}.

Definition stale_token : TokenData :=
  {| accessToken := "old";
     refreshToken := Some "r";
     expiresAt := Some (sample_now - 1)%Z |}.

Definition sync_world (tokens : list (string * TokenData))
           (adapter : IBrokerAdapter.t) : SyncWorld :=
  {| tokenStore := tokens;
     adapters := AdapterRegistry.initializeAdapters adapter;
     wallClock := fun k => (sample_now + Z.of_nat k)%Z;
     clockReads := 0;
     env_TOKEN_REFRESH_SKEW_MS := None;
     env_NODE_ENV := None;
     brokerCalls := [] |}.

(** A MetaTrader deal that sells. *)
Definition sample_short_deal : RawTrade :=
  [ ("symbol", JStr "EURUSD"); ("volume", JStr "-0.5");
    ("price", JStr "1.08"); ("time", JStr "2024-03-01T10:00:00.000Z") ].

(** Request bodies for [POST /sync]. *)
Definition plain_request (userId broker : string) : SyncRequest :=
  {| req_userId := Some userId;
     req_broker := Some broker;
     req_accessToken := None;
     req_refreshToken := None;
     req_expiresAt := None |}.

Definition seeded_request (userId broker accessToken : string)
  : SyncRequest :=
  {| req_userId := Some userId;
     req_broker := Some broker;
     req_accessToken := Some accessToken;
     req_refreshToken := None;
     req_expiresAt := None |}.

(** ** [ZerodhaAdapter] (adapters/ZerodhaAdapter.ts)

    The HTTP client is an oracle: a request is answered from the broker
    calls seen so far, either with a response or with an error that
    may carry the status of a response.  The body of a response is
    typed as the adapter reads it: [data] is [response.data.data] when
    [response.data && response.data.data] holds ([response.data] for
    the instruments), and is absent otherwise.  [refreshToken] reads
    the clock for the expiry date, so it is a computation on the
    world. *)
Module ZerodhaAdapter.

Inductive HttpReply (A : Type) :=
| Replied (status : Z) (data : option A)
| Failed (responseStatus : option Z) (message : string).
Arguments Replied {A} status data.
Arguments Failed {A} responseStatus message.

Record Http := mkHttp {
  apiKey : string;
  get_orders : list BrokerCall -> string -> HttpReply (list RawTrade);
  post_refresh_token :
    list BrokerCall -> string -> string -> HttpReply (string * option string);
  get_profile : list BrokerCall -> string -> HttpReply unit;
  get_instruments : list BrokerCall -> HttpReply (list Json)
}.

Section Methods.
Variable http : Http.

Definition getName : string := "zerodha".

(** The [Authorization] header. *)
Definition authorization (token : string) : string :=
  ("token " ++ apiKey http ++ ":" ++ token)%string.

Definition fetchTrades (calls : list BrokerCall) (token : string)
  : Result (list RawTrade) :=
  match get_orders http calls (authorization token) with
  | Replied _ (Some trades) => Done trades
  | Replied _ None => Done []
  | Failed responseStatus message =>
      match responseStatus with
      | Some status =>
          if (status =? 401)%Z then Raised "Invalid or expired token"
          else if (status =? 403)%Z then Raised "Insufficient permissions"
          else Raised ("Failed to fetch trades: " ++ message)%string
      | None => Raised ("Failed to fetch trades: " ++ message)%string
      end
  end.

Definition refreshToken (oldToken : string) : M TokenData :=
  catch
    (fun w =>
       match post_refresh_token http (brokerCalls w) oldToken (apiKey http)
       with
       | Replied _ (Some (access_token, refresh_token)) =>
           (now <- Date_now ;;
            pure {| accessToken := access_token;
                    refreshToken := refresh_token;
                    expiresAt :=
                      Date_of_double
                        (Finite (inject_Z (now + 24 * 60 * 60 * 1000))) |})%sync
             w
       | Replied _ None => throw "Invalid response from token refresh" w
       | Failed _ message => throw message w
       end)
    (fun message => throw ("Failed to refresh token: " ++ message)%string).

Definition isTokenValid (token : string) : bool :=
  negb (String.eqb token "") && (0 <? String.length token)%nat.

Definition validateToken (calls : list BrokerCall) (token : string)
  : Result bool :=
  match get_profile http calls (authorization token) with
  | Replied status _ => Done (status =? 200)%Z
  | Failed _ _ => Done false
  end.

Definition getInstruments (calls : list BrokerCall) : Result (list Json) :=
  match get_instruments http calls with
  | Replied _ (Some instruments) => Done instruments
  | Replied _ None => Done []
  | Failed _ _ => Done []
  end.
End Methods.
End ZerodhaAdapter.

(** A Zerodha adapter behind a broker that rejects every request with
    status 401. *)
Definition rejecting_http : ZerodhaAdapter.Http :=
  {| ZerodhaAdapter.apiKey := "key";
     ZerodhaAdapter.get_orders :=
       fun _ _ =>
         ZerodhaAdapter.Failed (Some 401%Z)
                               "Request failed with status code 401";
     ZerodhaAdapter.post_refresh_token :=
       fun _ _ _ =>
         ZerodhaAdapter.Failed (Some 401%Z)
                               "Request failed with status code 401";
     ZerodhaAdapter.get_profile :=
       fun _ _ =>
         ZerodhaAdapter.Failed (Some 401%Z)
                               "Request failed with status code 401";
     ZerodhaAdapter.get_instruments :=
       fun _ =>
         ZerodhaAdapter.Failed (Some 401%Z)
                               "Request failed with status code 401" |}.

Definition rejected_zerodha : IBrokerAdapter.t :=
  {| IBrokerAdapter.getName := ZerodhaAdapter.getName;
     IBrokerAdapter.fetchTrades := ZerodhaAdapter.fetchTrades rejecting_http;
     IBrokerAdapter.refreshToken :=
       fun _ _ =>
         Raised "Failed to refresh token: Request failed with status code 401";
     IBrokerAdapter.isTokenValid := ZerodhaAdapter.isTokenValid;
     IBrokerAdapter.validateToken :=
       Some (ZerodhaAdapter.validateToken rejecting_http) |}.

(** * Properties *)

(** ** Expression evaluation *)

Lemma mapE_ok {A B} (f : A -> Eval B) (g : A -> B) (l : list A) :
  (forall a, In a l -> f a = Ok (g a)) -> mapE f l = Ok (map g l).
Proof.
  induction l as [|a r IH]; intros Hf; simpl; [reflexivity|].
  rewrite (Hf a (or_introl eq_refl)); simpl.
  rewrite IH by (intros b Hb; apply Hf; right; exact Hb).
  reflexivity.
Qed.

Lemma riskScore_ok lvl : riskScore lvl = Ok (score lvl).
Proof.
  unfold riskScore, score; simpl.
  destruct (mongo_eq lvl "low"); [reflexivity|].
  destruct (mongo_eq lvl "medium"); [reflexivity|].
  destruct (mongo_eq lvl "high"); reflexivity.
Qed.

Lemma project_trade_ok t : project_trade t = Ok (projected t).
Proof. unfold project_trade. rewrite riskScore_ok. reflexivity. Qed.

Lemma Qlt_bool_iff x y : Qlt_bool x y = true <-> (x < y)%Q.
Proof. unfold Qlt_bool, Qlt. apply Z.ltb_lt. Qed.

Lemma Qnat_pos n : (0 < n)%nat -> (0 < Qnat n)%Q.
Proof.
  intros H. unfold Qnat, Qlt; simpl. lia.
Qed.

Lemma Qnat_nonneg n : (0 <= Qnat n)%Q.
Proof. unfold Qnat, Qle; simpl. lia. Qed.

Lemma Qnat_le n m : (n <= m)%nat -> (Qnat n <= Qnat m)%Q.
Proof. intros H. unfold Qnat, Qle; simpl. lia. Qed.

(** ** Grouping *)
Section GroupFacts.
Context {K D V : Type}.
Variable eqb : K -> K -> bool.
Hypothesis eqb_eq : forall a b, eqb a b = true <-> a = b.
Variable key : D -> K.
Variable zero : V.
Variable step : V -> D -> V.

Lemma eqb_same k : eqb k k = true.
Proof. apply eqb_eq; reflexivity. Qed.

Lemma lookup_upsert d gs k :
  lookup eqb k (upsert eqb key zero step d gs) =
  if eqb (key d) k then Some (step (nullish (lookup eqb k gs) zero) d)
  else lookup eqb k gs.
Proof.
  induction gs as [|[k' v] rest IH]; simpl.
  - destruct (eqb (key d) k); reflexivity.
  - destruct (eqb k' (key d)) eqn:Hk'; simpl.
    + apply eqb_eq in Hk'; subst k'.
      destruct (eqb (key d) k); reflexivity.
    + destruct (eqb k' k) eqn:Hkk.
      * apply eqb_eq in Hkk; subst k'.
        destruct (eqb (key d) k) eqn:Hd; [|reflexivity].
        apply eqb_eq in Hd; subst k.
        rewrite eqb_same in Hk'; discriminate.
      * exact IH.
Qed.

Lemma keys_upsert d gs k :
  In k (map fst (upsert eqb key zero step d gs)) <->
  k = key d \/ In k (map fst gs).
Proof.
  induction gs as [|[k' v] rest IH]; simpl.
  - intuition.
  - destruct (eqb k' (key d)) eqn:Hk'; simpl.
    + apply eqb_eq in Hk'; subst k'. intuition.
    + rewrite IH. intuition.
Qed.

Lemma NoDup_upsert d gs :
  NoDup (map fst gs) -> NoDup (map fst (upsert eqb key zero step d gs)).
Proof.
  induction gs as [|[k' v] rest IH]; simpl; intros Hnd.
  - constructor; [intros []|constructor].
  - inversion Hnd as [|? ? Hnin Hrest]; subst.
    destruct (eqb k' (key d)) eqn:Hk'; simpl.
    + constructor; assumption.
    + constructor; [|apply IH; assumption].
      rewrite keys_upsert. intros [->|Hin]; [|contradiction].
      rewrite eqb_same in Hk'; discriminate.
Qed.

Lemma NoDup_group_from docs : forall gs,
  NoDup (map fst gs) ->
  NoDup (map fst (group_from eqb key zero step gs docs)).
Proof.
  induction docs as [|d r IH]; intros gs Hnd; simpl; [exact Hnd|].
  apply IH, NoDup_upsert, Hnd.
Qed.

Lemma keys_group_from docs : forall gs k,
  In k (map fst (group_from eqb key zero step gs docs)) <->
  In k (map key docs) \/ In k (map fst gs).
Proof.
  induction docs as [|d r IH]; intros gs k; simpl; [tauto|].
  unfold group_from in IH |- *; simpl.
  rewrite IH, keys_upsert. intuition.
Qed.

Lemma lookup_group_from docs : forall gs k,
  lookup eqb k (group_from eqb key zero step gs docs) =
  match members eqb key k docs with
  | [] => lookup eqb k gs
  | ds => Some (fold_left step ds (nullish (lookup eqb k gs) zero))
  end.
Proof.
  induction docs as [|d r IH]; intros gs k; simpl; [reflexivity|].
  unfold group_from in IH |- *; simpl. rewrite IH.
  rewrite lookup_upsert.
  destruct (eqb (key d) k); simpl.
  - destruct (members eqb key k r); reflexivity.
  - reflexivity.
Qed.

Lemma lookup_In (gs : list (K * V)) k v :
  NoDup (map fst gs) -> (In (k, v) gs <-> lookup eqb k gs = Some v).
Proof.
  induction gs as [|[k' v'] rest IH]; simpl; intros Hnd.
  - split; [intros []|discriminate].
  - inversion Hnd as [|? ? Hnin Hrest]; subst.
    destruct (eqb k' k) eqn:Hk.
    + apply eqb_eq in Hk; subst k'. split.
      * intros [H|H]; [congruence|].
        exfalso; apply Hnin. change k with (fst (k, v)).
        apply in_map; exact H.
      * intros H; left; congruence.
    + rewrite <- (IH Hrest). split; [|tauto].
      intros [H|H]; [|exact H].
      inversion H; subst. rewrite eqb_same in Hk; discriminate.
Qed.

(** Membership in the output of [$group]. *)
Lemma In_group docs k v :
  In (k, v) (group eqb key zero step docs) <->
  members eqb key k docs <> [] /\
  v = fold_left step (members eqb key k docs) zero.
Proof.
  unfold group.
  rewrite lookup_In by (apply NoDup_group_from; constructor).
  rewrite lookup_group_from; simpl.
  destruct (members eqb key k docs) as [|d ds]; simpl.
  - split; [discriminate|intros [H _]; congruence].
  - split.
    + intros H; split; [discriminate|congruence].
    + intros [_ ->]; reflexivity.
Qed.

(** A counter that every [step] advances by one adds up, over all
    groups, to the number of documents. *)
Variable tally : V -> nat.
Hypothesis tally_zero : tally zero = 0.
Hypothesis tally_step : forall v d, tally (step v d) = S (tally v).

Lemma tally_upsert d gs :
  tally_all tally (upsert eqb key zero step d gs) = S (tally_all tally gs).
Proof.
  unfold tally_all.
  induction gs as [|[k v] rest IH]; simpl.
  - rewrite tally_step, tally_zero. reflexivity.
  - destruct (eqb k (key d)); simpl.
    + rewrite tally_step. reflexivity.
    + rewrite IH. lia.
Qed.

Lemma tally_group_from docs : forall gs,
  tally_all tally (group_from eqb key zero step gs docs) =
  tally_all tally gs + List.length docs.
Proof.
  induction docs as [|d r IH]; intros gs; simpl; [lia|].
  unfold group_from in IH |- *; simpl. rewrite IH.
  rewrite tally_upsert. lia.
Qed.

Lemma tally_group docs :
  tally_all tally (group eqb key zero step docs) = List.length docs.
Proof. unfold group. rewrite tally_group_from. reflexivity. Qed.
End GroupFacts.

(** ** Sorting *)
Section SortFacts.
Context {A : Type}.
Variable le : A -> A -> bool.
Hypothesis le_total : forall a b, le a b = true \/ le b a = true.
Hypothesis le_trans :
  forall a b c, le a b = true -> le b c = true -> le a c = true.

Lemma insert_by_perm x l : Permutation (insert_by le x l) (x :: l).
Proof.
  induction l as [|y r IH]; simpl; [reflexivity|].
  destruct (le x y); [reflexivity|].
  rewrite IH. apply perm_swap.
Qed.

Lemma sort_by_perm l : Permutation (sort_by le l) l.
Proof.
  induction l as [|x r IH]; simpl; [reflexivity|].
  rewrite insert_by_perm. constructor. exact IH.
Qed.

Lemma In_sort_by x l : In x (sort_by le l) <-> In x l.
Proof.
  split; apply Permutation_in;
    [apply sort_by_perm | symmetry; apply sort_by_perm].
Qed.

Lemma insert_by_sorted x l :
  StronglySorted (fun a b => le a b = true) l ->
  StronglySorted (fun a b => le a b = true) (insert_by le x l).
Proof.
  induction 1 as [|y r Hr IH Hy]; simpl.
  - repeat constructor.
  - destruct (le x y) eqn:Hxy.
    + constructor; [constructor; assumption|].
      constructor; [exact Hxy|].
      rewrite Forall_forall in Hy |- *.
      intros z Hz. apply le_trans with y; auto.
    + constructor; [exact IH|].
      rewrite Forall_forall in Hy |- *.
      intros z Hz.
      apply (Permutation_in _ (insert_by_perm x r)) in Hz.
      destruct Hz as [<-|Hz]; [|auto].
      destruct (le_total x y) as [H|H]; congruence.
Qed.

Lemma sort_by_sorted l :
  StronglySorted (fun a b => le a b = true) (sort_by le l).
Proof.
  induction l as [|x r IH]; simpl; [constructor|].
  apply insert_by_sorted, IH.
Qed.
End SortFacts.

Lemma StronglySorted_filter {A} (R : A -> A -> Prop) (p : A -> bool) l :
  StronglySorted R l -> StronglySorted R (filter p l).
Proof.
  induction 1 as [|x r Hr IH Hx]; simpl; [constructor|].
  destruct (p x); [|exact IH].
  constructor; [exact IH|].
  rewrite Forall_forall in Hx |- *.
  intros y Hy. apply filter_In in Hy. apply Hx, Hy.
Qed.

Lemma StronglySorted_map {A B} (R : B -> B -> Prop) (f : A -> B) l :
  StronglySorted (fun a b => R (f a) (f b)) l -> StronglySorted R (map f l).
Proof.
  induction 1 as [|x r Hr IH Hx]; simpl; [constructor|].
  constructor; [exact IH|].
  rewrite Forall_forall in Hx |- *.
  intros y Hy. apply in_map_iff in Hy. destruct Hy as [a [<- Ha]]. auto.
Qed.

Lemma StronglySorted_strict {A} (R : A -> A -> Prop) l :
  StronglySorted R l -> NoDup l ->
  StronglySorted (fun a b => R a b /\ a <> b) l.
Proof.
  induction 1 as [|x r Hr IH Hx]; intros Hnd; [constructor|].
  inversion Hnd as [|? ? Hnin Hnd']; subst.
  constructor; [apply IH, Hnd'|].
  rewrite Forall_forall in Hx |- *.
  intros y Hy. split; [auto|]. intros ->. contradiction.
Qed.

(** ** The byte order on strings and on risk levels *)

Lemma ascii_compare_refl a : Ascii.compare a a = Eq.
Proof. unfold Ascii.compare. apply N.compare_refl. Qed.

Lemma ascii_compare_lt_trans a b c :
  Ascii.compare a b = Lt -> Ascii.compare b c = Lt -> Ascii.compare a c = Lt.
Proof.
  unfold Ascii.compare. rewrite !N.compare_lt_iff. apply N.lt_trans.
Qed.

Lemma string_compare_lt_trans : forall s1 s2 s3,
  String.compare s1 s2 = Lt -> String.compare s2 s3 = Lt ->
  String.compare s1 s3 = Lt.
Proof.
  induction s1 as [|a s1 IH]; intros [|b s2] [|c s3]; simpl;
    try discriminate; try reflexivity.
  destruct (Ascii.compare a b) eqn:Hab; try discriminate;
    destruct (Ascii.compare b c) eqn:Hbc; try discriminate; intros H1 H2.
  - apply Ascii.compare_eq_iff in Hab, Hbc; subst.
    rewrite ascii_compare_refl. eapply IH; eassumption.
  - apply Ascii.compare_eq_iff in Hab; subst. rewrite Hbc. reflexivity.
  - apply Ascii.compare_eq_iff in Hbc; subst. rewrite Hab. reflexivity.
  - rewrite (ascii_compare_lt_trans a b c Hab Hbc). reflexivity.
Qed.

Lemma string_leb_cases s1 s2 :
  String.leb s1 s2 = true <-> String.ltb s1 s2 = true \/ s1 = s2.
Proof.
  unfold String.leb, String.ltb.
  destruct (String.compare s1 s2) eqn:Hc; split; intros H;
    try (left; reflexivity); try discriminate; try reflexivity.
  - right. apply String.compare_eq_iff, Hc.
  - destruct H as [H| ->]; [discriminate|].
    assert (String.compare s2 s2 = Eq) as He.
    { clear Hc. induction s2 as [|a s IH]; simpl; [reflexivity|].
      rewrite ascii_compare_refl. exact IH. }
    congruence.
Qed.

Lemma string_ltb_trans s1 s2 s3 :
  String.ltb s1 s2 = true -> String.ltb s2 s3 = true ->
  String.ltb s1 s3 = true.
Proof.
  unfold String.ltb.
  destruct (String.compare s1 s2) eqn:H12; try discriminate.
  destruct (String.compare s2 s3) eqn:H23; try discriminate.
  rewrite (string_compare_lt_trans _ _ _ H12 H23). reflexivity.
Qed.

Lemma string_leb_trans s1 s2 s3 :
  String.leb s1 s2 = true -> String.leb s2 s3 = true ->
  String.leb s1 s3 = true.
Proof.
  rewrite !string_leb_cases.
  intros [H1| ->] [H2| ->]; auto.
  left. eapply string_ltb_trans; eassumption.
Qed.

Lemma level_le_total a b : level_le a b = true \/ level_le b a = true.
Proof.
  destruct a as [x|], b as [y|]; simpl; auto. apply String.leb_total.
Qed.

Lemma level_le_trans a b c :
  level_le a b = true -> level_le b c = true -> level_le a c = true.
Proof.
  destruct a as [x|], b as [y|], c as [z|]; simpl; auto;
    try discriminate. apply string_leb_trans.
Qed.

Lemma level_eqb_eq a b : level_eqb a b = true <-> a = b.
Proof.
  destruct a as [x|], b as [y|]; simpl;
    try (split; [discriminate|congruence]).
  - rewrite String.eqb_eq. split; congruence.
  - tauto.
Qed.

Lemma level_le_strict a b :
  level_le a b = true -> a <> b -> level_lt a b = true.
Proof.
  destruct a as [x|], b as [y|]; simpl; try congruence.
  rewrite string_leb_cases. intros [H| ->] Hne; congruence.
Qed.

(** ** The [byStrategy] facet *)

Lemma Qnat_not_zero n : (0 < n)%nat -> Qeq_bool (Qnat n) 0 = false.
Proof.
  intros H. destruct (Qeq_bool (Qnat n) 0) eqn:E; [|reflexivity].
  apply Qeq_bool_iff in E. apply Qnat_pos in H. lra.
Qed.

Lemma project_strategy_ok g : project_strategy g = Ok (stat_of g).
Proof.
  destruct g as [id a]. unfold project_strategy, stat_of, mongo_cond; simpl.
  destruct (0 <? acc_total a)%nat eqn:Hpos; [|reflexivity].
  apply Nat.ltb_lt in Hpos.
  unfold mongo_divide. rewrite (Qnat_not_zero _ Hpos). reflexivity.
Qed.

Lemma fold_strategy_step ds : forall a,
  fold_left strategy_step ds a =
  {| acc_total := acc_total a + List.length ds;
     acc_wins := acc_wins a + List.length (filter p_win ds) |}.
Proof.
  induction ds as [|d r IH]; intros a; simpl.
  - destruct a; simpl; f_equal; lia.
  - rewrite IH; simpl. destruct (p_win d); simpl; f_equal; lia.
Qed.

Lemma members_strategy sid trades :
  members String.eqb p_strategyId sid (map projected trades) =
  map projected (trades_of_strategy sid trades).
Proof. unfold members, trades_of_strategy. apply filter_map_swap. Qed.

Lemma facets_of_ok trades :
  facets_of trades =
  Ok [ {| byStrategy :=
            sort_by winRate_le
              (map stat_of (group_by_strategy (map projected trades)));
          byRisk := facet_byRisk (map projected trades);
          perTrade := facet_perTrade (map projected trades) |} ].
Proof.
  unfold facets_of.
  rewrite (mapE_ok project_trade projected)
    by (intros; apply project_trade_ok); simpl.
  unfold facet_stage, facet_byStrategy.
  rewrite (mapE_ok project_strategy stat_of)
    by (intros; apply project_strategy_ok).
  reflexivity.
Qed.

(** A bucket of the sorted facet is the statistics of one strategy that
    has at least one trade. *)
Lemma byStrategy_bucket trades s :
  In s (sort_by winRate_le
          (map stat_of (group_by_strategy (map projected trades)))) <->
  (0 < total_of (s_strategyId s) trades)%nat /\
  s = {| s_strategyId := s_strategyId s;
         total := total_of (s_strategyId s) trades;
         wins := wins_of (s_strategyId s) trades;
         winRate := (Qnat (wins_of (s_strategyId s) trades)
                     / Qnat (total_of (s_strategyId s) trades))%Q |}.
Proof.
  rewrite In_sort_by, in_map_iff.
  unfold group_by_strategy, total_of, wins_of. split.
  - intros [[id a] [<- Hin]].
    apply (In_group _ String.eqb_eq) in Hin. destruct Hin as [Hne ->].
    rewrite members_strategy in Hne |- *.
    rewrite fold_strategy_step; simpl.
    rewrite !length_map.
    assert (List.length (filter p_win (map projected
              (trades_of_strategy id trades))) =
            List.length (filter win (trades_of_strategy id trades))) as Hw.
    { rewrite (filter_map_swap p_win projected), length_map.
      reflexivity. }
    rewrite Hw.
    destruct (trades_of_strategy id trades) as [|t ts] eqn:Ht;
      [contradiction Hne; reflexivity|].
    split; [simpl; lia|]. reflexivity.
  - intros [Hpos Hs].
    exists (s_strategyId s,
            fold_left strategy_step
              (members String.eqb p_strategyId (s_strategyId s)
                 (map projected trades)) strategy_zero).
    split.
    + rewrite Hs at 3. unfold stat_of; simpl.
      rewrite members_strategy, fold_strategy_step; simpl.
      rewrite !length_map.
      rewrite (filter_map_swap p_win projected), length_map.
      change (fun a => p_win (projected a)) with win.
      apply Nat.ltb_lt in Hpos. rewrite Hpos. reflexivity.
    + apply (In_group _ String.eqb_eq). split; [|reflexivity].
      rewrite members_strategy.
      destruct (trades_of_strategy (s_strategyId s) trades);
        [simpl in Hpos; lia|discriminate].
Qed.

(** ** The handler *)
Section HandlerFacts.
Variable rt : Runtime.

Lemma optimize_invalid userId w :
  isValid rt userId = false ->
  optimize rt userId w =
  (Return {| status := 400; body := ErrorBody "Invalid userId" |}, w).
Proof.
  intros H. unfold optimize, try_catch. rewrite H. reflexivity.
Qed.

Lemma optimize_store_down userId w :
  isValid rt userId = true -> storeUp w = false ->
  fst (optimize rt userId w) =
  Return {| status := 500; body := ErrorBody "Internal Server Error" |}.
Proof.
  intros Hv Hd. unfold optimize, try_catch. rewrite Hv; simpl.
  unfold bind, new_Date, Trade_aggregate; simpl. rewrite Hd. reflexivity.
Qed.

Lemma optimize_success userId w :
  isValid rt userId = true -> storeUp w = true ->
  exists fr,
    serves rt userId w fr
      (assemble userId (toISOString rt (clock w (S (reads w)))) fr).
Proof.
  intros Hv Hu. unfold serves.
  eexists; split; [apply facets_of_ok|].
  unfold optimize, try_catch. rewrite Hv; simpl.
  unfold bind at 1. unfold new_Date at 1.
  unfold bind at 1. unfold Trade_aggregate; simpl. rewrite Hu.
  unfold pipeline. fold (window_of rt userId w).
  rewrite facets_of_ok.
  unfold after_report. rewrite Hu. reflexivity.
Qed.
End HandlerFacts.

Lemma facets_of_inv trades fr :
  facets_of trades = Ok [fr] ->
  fr = {| byStrategy :=
            sort_by winRate_le
              (map stat_of (group_by_strategy (map projected trades)));
          byRisk := facet_byRisk (map projected trades);
          perTrade := facet_perTrade (map projected trades) |}.
Proof. rewrite facets_of_ok. intros H. injection H as <-. reflexivity. Qed.

Lemma serves_report rt userId w fr rep :
  serves rt userId w fr rep ->
  exists stamp, rep = assemble userId stamp fr.
Proof.
  intros [Hf Ho].
  destruct (isValid rt userId) eqn:Hv.
  - destruct (storeUp w) eqn:Hu.
    + destruct (optimize_success rt userId w Hv Hu) as [fr' [Hf' Ho']].
      rewrite Hf in Hf'. injection Hf' as <-.
      rewrite Ho in Ho'. injection Ho' as ->.
      eexists; reflexivity.
    + pose proof (optimize_store_down rt userId w Hv Hu) as H.
      rewrite Ho in H. discriminate.
  - rewrite (optimize_invalid rt userId w Hv) in Ho. discriminate.
Qed.

(** ** More on the [byStrategy] facet and the underperformers *)

Lemma winRate_le_total a b : winRate_le a b = true \/ winRate_le b a = true.
Proof.
  unfold winRate_le. rewrite !Qle_bool_iff.
  destruct (Qlt_le_dec (winRate b) (winRate a)) as [H|H]; [right|left]; lra.
Qed.

Lemma winRate_le_trans a b c :
  winRate_le a b = true -> winRate_le b c = true -> winRate_le a c = true.
Proof. unfold winRate_le. rewrite !Qle_bool_iff. apply Qle_trans. Qed.

Lemma StronglySorted_weaken {A} (R R' : A -> A -> Prop) l :
  (forall a b, R a b -> R' a b) -> StronglySorted R l -> StronglySorted R' l.
Proof.
  intros HR. induction 1 as [|x r Hr IH Hx]; constructor; [exact IH|].
  eapply Forall_impl; [|exact Hx]. intros y; apply HR.
Qed.

Lemma list_sum_perm l l' : Permutation l l' -> list_sum l = list_sum l'.
Proof. induction 1; simpl; lia. Qed.

Lemma wins_le_total sid trades : (wins_of sid trades <= total_of sid trades)%nat.
Proof. unfold wins_of, total_of. apply filter_length_le. Qed.

Lemma winRate_of_pos sid trades :
  (0 < total_of sid trades)%nat ->
  winRate_of sid trades =
  (Qnat (wins_of sid trades) / Qnat (total_of sid trades))%Q.
Proof.
  intros H. unfold winRate_of.
  destruct (total_of sid trades =? 0)%nat eqn:E; [|reflexivity].
  apply Nat.eqb_eq in E. lia.
Qed.

Lemma ratio_bounds a b :
  (0 < b)%nat -> (a <= b)%nat -> (0 <= Qnat a / Qnat b <= 1)%Q.
Proof.
  intros Hb Hab. pose proof (Qnat_pos b Hb) as Hpos. split.
  - apply Qle_shift_div_l; [exact Hpos|].
    rewrite Qmult_0_l. apply Qnat_nonneg.
  - apply Qle_shift_div_r; [exact Hpos|].
    rewrite Qmult_1_l. apply Qnat_le, Hab.
Qed.

Lemma In_underperforming bs sid wr :
  In {| u_strategyId := sid; u_winRate := wr |} (underperforming bs) <->
  exists s, In s bs /\ s_strategyId s = sid /\ winRate s = wr /\
            (0 < total s)%nat /\ (winRate s < 1 # 2)%Q.
Proof.
  unfold underperforming. rewrite in_map_iff. split.
  - intros [s [Hs Hin]]. apply filter_In in Hin. destruct Hin as [Hin Hp].
    apply andb_prop in Hp. destruct Hp as [Ht Hw].
    apply Nat.ltb_lt in Ht. apply Qlt_bool_iff in Hw.
    injection Hs as <- <-. exists s. auto.
  - intros [s [Hin [<- [<- [Ht Hw]]]]]. exists s. split; [reflexivity|].
    apply filter_In. split; [exact Hin|].
    apply andb_true_intro. split;
      [apply Nat.ltb_lt, Ht | apply Qlt_bool_iff, Hw].
Qed.

Lemma underperforming_sorted bs :
  StronglySorted (fun a b => winRate_le a b = true) bs ->
  StronglySorted Qle (map u_winRate (underperforming bs)).
Proof.
  intros H. unfold underperforming. rewrite map_map; simpl.
  apply StronglySorted_map, StronglySorted_filter.
  eapply StronglySorted_weaken; [|exact H].
  intros a b. unfold winRate_le. apply Qle_bool_iff.
Qed.

(** ** Bucket sizes add up *)

Lemma byStrategy_totals docs :
  list_sum (map total (sort_by winRate_le
                         (map stat_of (group_by_strategy docs)))) =
  List.length docs.
Proof.
  rewrite (list_sum_perm _ _
             (Permutation_map total (sort_by_perm winRate_le _))).
  rewrite map_map. unfold group_by_strategy.
  change (fun x => total (stat_of x))
    with (fun g : string * StrategyAcc => acc_total (snd g)).
  apply (tally_group String.eqb p_strategyId strategy_zero strategy_step
           acc_total).
  - reflexivity.
  - intros v d; simpl. lia.
Qed.

Lemma byRisk_counts docs :
  list_sum (map count (facet_byRisk docs)) = List.length docs.
Proof.
  unfold facet_byRisk.
  rewrite (list_sum_perm _ _
             (Permutation_map count (sort_by_perm riskLevel_le _))).
  rewrite map_map. unfold group_by_risk.
  assert (forall l : list (option string * RiskAcc),
             map (fun x => count (project_risk x)) l =
             map (fun g => acc_count (snd g)) l) as E.
  { intros l. apply map_ext. intros [k a]. reflexivity. }
  rewrite E.
  apply (tally_group level_eqb p_riskLevel risk_zero risk_step acc_count).
  - reflexivity.
  - intros v d; simpl. lia.
Qed.

(** ** The [byRisk] facet *)

Lemma fold_risk_step ds : forall a,
  acc_n (fold_left risk_step ds a) = acc_n a + List.length ds /\
  acc_count (fold_left risk_step ds a) = acc_count a + List.length ds /\
  (acc_sum (fold_left risk_step ds a) ==
   acc_sum a + Qsum (map p_outcome ds))%Q.
Proof.
  induction ds as [|d r IH]; intros a; simpl.
  - repeat split; try lia. ring.
  - destruct (IH (risk_step a d)) as [Hn [Hc Hs]].
    rewrite Hn, Hc, Hs; simpl. repeat split; try lia. ring.
Qed.

Lemma members_level lvl trades :
  members level_eqb p_riskLevel lvl (map projected trades) =
  map projected (trades_of_level lvl trades).
Proof. unfold members, trades_of_level. apply filter_map_swap. Qed.

Lemma byRisk_bucket trades b :
  In b (facet_byRisk (map projected trades)) <->
  (0 < count_of (r_riskLevel b) trades)%nat /\
  b = project_risk
        (r_riskLevel b,
         fold_left risk_step
           (map projected (trades_of_level (r_riskLevel b) trades))
           risk_zero).
Proof.
  unfold facet_byRisk. rewrite In_sort_by, in_map_iff.
  unfold group_by_risk, count_of. split.
  - intros [[lvl a] [<- Hin]].
    apply (In_group _ level_eqb_eq) in Hin. destruct Hin as [Hne ->].
    rewrite members_level in Hne |- *. simpl. split; [|reflexivity].
    destruct (trades_of_level lvl trades); [contradiction Hne; reflexivity|].
    simpl; lia.
  - intros [Hpos Hb]. eexists. split; [symmetry; exact Hb|].
    apply (In_group _ level_eqb_eq). rewrite members_level.
    split; [|reflexivity].
    destruct (trades_of_level (r_riskLevel b) trades);
      [simpl in Hpos; lia|discriminate].
Qed.

Lemma byRisk_keys_NoDup docs : NoDup (map r_riskLevel (facet_byRisk docs)).
Proof.
  unfold facet_byRisk.
  apply (Permutation_NoDup
           (l := map r_riskLevel (map project_risk (group_by_risk docs)))).
  - apply Permutation_map. symmetry. apply sort_by_perm.
  - rewrite map_map.
    assert (forall l : list (option string * RiskAcc),
               map (fun x => r_riskLevel (project_risk x)) l = map fst l) as E.
    { intros l. apply map_ext. intros [k a]. reflexivity. }
    rewrite E. unfold group_by_risk, group.
    apply (NoDup_group_from _ level_eqb_eq). constructor.
Qed.

Lemma byRisk_sorted docs :
  StronglySorted (fun a b => level_lt a b = true)
                 (map r_riskLevel (facet_byRisk docs)).
Proof.
  apply (StronglySorted_weaken
           (fun a b => level_le a b = true /\ a <> b)).
  - intros a b [Hle Hne]. apply level_le_strict; assumption.
  - apply StronglySorted_strict; [|apply byRisk_keys_NoDup].
    apply StronglySorted_map. unfold facet_byRisk.
    apply (sort_by_sorted riskLevel_le).
    + intros a b. apply level_le_total.
    + intros a b c. apply level_le_trans.
Qed.

(** ** The correlation *)

Lemma fold_sums_step l : forall a,
  fold_left sums_step l a =
  {| sumX := fold_left PrimFloat.add (map fst (map point_of l)) (sumX a);
     sumY := fold_left PrimFloat.add (map snd (map point_of l)) (sumY a);
     sumXY :=
       fold_left PrimFloat.add
         (map (fun p => PrimFloat.mul (fst p) (snd p)) (map point_of l))
         (sumXY a);
     sumX2 :=
       fold_left PrimFloat.add
         (map (fun p => PrimFloat.mul (fst p) (fst p)) (map point_of l))
         (sumX2 a);
     sumY2 :=
       fold_left PrimFloat.add
         (map (fun p => PrimFloat.mul (snd p) (snd p)) (map point_of l))
         (sumY2 a) |}.
Proof.
  induction l as [|t r IH]; intros a.
  - destruct a; reflexivity.
  - cbn [fold_left map]. rewrite IH. reflexivity.
Qed.

(** The loop computes the formula. *)
Lemma correlation_of_spec l :
  correlation_of l =
  if (2 <=? List.length l)%nat then
    if PrimFloat.eqb (pearson_denominator (map point_of l)) PrimFloat.zero
    then None
    else Some (pearson (map point_of l))
  else None.
Proof.
  unfold correlation_of. cbv zeta.
  destruct (2 <=? List.length l)%nat; [|reflexivity].
  rewrite fold_sums_step.
  unfold numerator_of, denomLeft_of, denomRight_of, js_sqrt, js_is_zero,
    js_div, pearson, pearson_denominator, pearson_numerator, spread_x,
    spread_y, S_x, S_y, S_xy, S_xx, S_yy, float_sum, sums_zero.
  cbn [sumX sumY sumXY sumX2 sumY2]. rewrite !length_map. reflexivity.
Qed.

Lemma points_of_facet trades :
  map point_of (facet_perTrade (map projected trades)) =
  map point_of_trade trades.
Proof.
  unfold facet_perTrade. rewrite !map_map. apply map_ext.
  intros t. reflexivity.
Qed.

(** ** The suggestions *)

Lemma fold_push {A} (f : A -> string) l : forall acc,
  fold_left (fun acc s => push acc (f s)) l acc = acc ++ map f l.
Proof.
  induction l as [|x r IH]; intros acc; simpl.
  - rewrite app_nil_r. reflexivity.
  - rewrite IH. unfold push. rewrite <- app_assoc. reflexivity.
Qed.

Lemma mongo_eq_iff lvl lit : mongo_eq lvl lit = true <-> lvl = Some lit.
Proof.
  destruct lvl as [s|]; simpl.
  - rewrite String.eqb_eq. split; congruence.
  - split; discriminate.
Qed.

Lemma NoDup_map_unique {A B} (f : A -> B) l a b :
  NoDup (map f l) -> In a l -> In b l -> f a = f b -> a = b.
Proof.
  induction l as [|x r IH]; simpl; intros Hnd Ha Hb Hf; [contradiction|].
  inversion Hnd as [|? ? Hnin Hnd']; subst.
  destruct Ha as [->|Ha], Hb as [->|Hb]; auto.
  - exfalso. apply Hnin. rewrite Hf. apply in_map, Hb.
  - exfalso. apply Hnin. rewrite <- Hf. apply in_map, Ha.
Qed.

(** With one bucket per level, the bucket [find] returns for "low" is
    the low-risk bucket. *)
Lemma find_low_bucket l :
  NoDup (map r_riskLevel l) ->
  match find (fun r => mongo_eq (r_riskLevel r) "low") l with
  | Some r =>
      In r l /\ r_riskLevel r = Some "low" /\
      forall r', In r' l -> r_riskLevel r' = Some "low" -> r' = r
  | None => forall r', In r' l -> r_riskLevel r' <> Some "low"
  end.
Proof.
  intros Hnd.
  destruct (find (fun r => mongo_eq (r_riskLevel r) "low") l) as [r|] eqn:Hf.
  - apply find_some in Hf. destruct Hf as [Hin Hlow].
    apply mongo_eq_iff in Hlow. repeat split; auto.
    intros r' Hin' Hlow'.
    apply (NoDup_map_unique r_riskLevel l); congruence.
  - intros r' Hin' Hlow'.
    pose proof (find_none _ _ Hf r' Hin') as H. simpl in H.
    apply mongo_eq_iff in Hlow'. congruence.
Qed.

Lemma byStrategy_sorted docs :
  StronglySorted (fun a b => winRate_le a b = true)
    (sort_by winRate_le (map stat_of (group_by_strategy docs))).
Proof.
  apply sort_by_sorted; [apply winRate_le_total|apply winRate_le_trans].
Qed.

(** ** Concrete runs *)

Example sample_window_ok :
  window_of sample_runtime sample_user sample_world = sample_window.
Proof. vm_compute. reflexivity. Qed.

Example sample_facets :
  facets_of sample_window =
  Ok [ {| byStrategy :=
            [ mkStrategyStat "mean-reversion" 3 1 (1 # 3);
              mkStrategyStat "scalp" 2 1 (1 # 2);
              mkStrategyStat "breakout" 2 2 (2 # 2) ];
          byRisk :=
            [ mkRiskStat None (-2 # 1) 1;
              mkRiskStat (Some "extreme") (-35 # 1) 1;
              mkRiskStat (Some "high") (-40 # 1) 1;
              mkRiskStat (Some "low") (135 # 3) 3;
              mkRiskStat (Some "medium") (5 # 1) 1 ];
          perTrade :=
            [ mkPerTrade (Some 3%Z) (Some (-40 # 1)%Q);
              mkPerTrade (Some 1%Z) (Some (30 # 1)%Q);
              mkPerTrade (Some 2%Z) (Some (5 # 1)%Q);
              mkPerTrade (Some 1%Z) (Some (45 # 1)%Q);
              mkPerTrade (Some 1%Z) (Some (60 # 1)%Q);
              mkPerTrade (Some 2%Z) (Some (-2 # 1)%Q);
              mkPerTrade (Some 2%Z) (Some (-35 # 1)%Q) ] |} ].
Proof. vm_compute. reflexivity. Qed.

(** On the sample all three rules fire. *)
Example sample_suggestions :
  exists fr rep,
    serves sample_runtime sample_user sample_world fr rep /\
    suggestions rep =
    [ "Refine entry criteria for strategy mean-reversion";
      "Increase position size for low-risk trades";
      "Reduce exposure to high-risk trades" ].
Proof.
  destruct (optimize_success sample_runtime sample_user sample_world
              eq_refl eq_refl) as [fr Hs].
  exists fr. eexists. split; [exact Hs|].
  destruct Hs as [Hf _]. rewrite sample_window_ok, sample_facets in Hf.
  injection Hf as <-.
  vm_compute. reflexivity.
Qed.

(** A win rate of exactly 1/2 ("scalp") is not flagged. *)
Example sample_underperformers :
  underperforming
    [ mkStrategyStat "mean-reversion" 3 1 (1 # 3);
      mkStrategyStat "scalp" 2 1 (1 # 2);
      mkStrategyStat "breakout" 2 2 (2 # 2) ] =
  [ mkUnderperf "mean-reversion" (1 # 3) ].
Proof. reflexivity. Qed.

(** The second rule at its bounds: three trades are enough, two are
    not, and a zero average is not positive. *)
Example increase_rule_bounds :
  suggestions_of [] [mkRiskStat (Some "low") (1 # 1000) 3] None
    = [increase_line] /\
  suggestions_of [] [mkRiskStat (Some "low") (1 # 1) 2] None = [] /\
  suggestions_of [] [mkRiskStat (Some "low") (0 # 1) 3] None = [] /\
  suggestions_of [] [mkRiskStat (Some "medium") (1 # 1) 3] None = [].
Proof. repeat split; reflexivity. Qed.

(** The third rule at its bound: -0.2 itself does not trigger it, the
    next double below it does, and NaN -- a number -- does not. *)
Example reduce_rule_bound :
  suggestions_of [] [] (Some (double_of_Q (-2 # 10))) = [] /\
  suggestions_of [] []
    (Some (PrimFloat.next_down (double_of_Q (-2 # 10))))
  = ["Reduce exposure to high-risk trades"] /\
  suggestions_of [] [] (Some PrimFloat.nan) = [].
Proof. repeat split; vm_compute; reflexivity. Qed.

(** * The claims *)

(** C4. The risk score is a total function of the stored risk level: the
    projection of any trade succeeds, and its [riskScore] is 1 exactly
    for ["low"], 3 exactly for ["high"], and 2 for everything else:
    ["medium"], any other string, and a missing level. *)
Theorem riskScore_total_mapping :
  forall t : TradeDoc, exists d : Projected,
    project_trade t = Ok d /\
    (p_riskScore d = 1%Z <-> riskLevel t = Some "low") /\
    (p_riskScore d = 3%Z <-> riskLevel t = Some "high") /\
    (p_riskScore d = 2%Z <->
       riskLevel t <> Some "low" /\ riskLevel t <> Some "high") /\
    riskScore (Some "low") = Ok 1%Z /\
    riskScore (Some "medium") = Ok 2%Z /\
    riskScore (Some "high") = Ok 3%Z /\
    riskScore None = Ok 2%Z.
Proof.
  intros t. exists (projected t).
  split; [apply project_trade_ok|].
  unfold projected, score; simpl.
  assert (riskScore (Some "low") = Ok 1%Z /\
          riskScore (Some "medium") = Ok 2%Z /\
          riskScore (Some "high") = Ok 3%Z /\
          riskScore None = Ok 2%Z) as Hconcrete
    by (repeat split; reflexivity).
  destruct (riskLevel t) as [s|]; simpl;
    [ destruct (String.eqb_spec s "low") as [->|Hl]; simpl;
      [|destruct (String.eqb_spec s "medium") as [->|Hm]; simpl;
        [|destruct (String.eqb_spec s "high") as [->|Hh]; simpl]] |];
    (split; [|split; [|split; [|exact Hconcrete]]]);
    split; intros H; try discriminate; try reflexivity;
    try congruence; try (split; congruence);
    try (destruct H; congruence).
Qed.

(** C7. A [userId] that fails [Types.ObjectId.isValid] is answered with
    status 400 and body [{ error: "Invalid userId" }]; the world is left
    as it was, so no query reached the trade store. *)
Theorem invalid_userId_rejected :
  forall (rt : Runtime) (userId : string) (w : World),
    isValid rt userId = false ->
    optimize rt userId w =
    (Return {| status := 400; body := ErrorBody "Invalid userId" |}, w) /\
    queries (trace (snd (optimize rt userId w))) = queries (trace w).
Proof.
  intros rt userId w H.
  rewrite (optimize_invalid rt userId w H). split; reflexivity.
Qed.

Lemma invalid_userId_rejected_witness :
  isValid sample_runtime "not-an-object-id" = false /\
  (optimize sample_runtime "not-an-object-id" sample_world =
   (Return {| status := 400; body := ErrorBody "Invalid userId" |},
    sample_world) /\
   queries (trace (snd (optimize sample_runtime "not-an-object-id"
                          sample_world))) =
   queries (trace sample_world)).
Proof.
  split; [reflexivity|].
  apply (invalid_userId_rejected sample_runtime "not-an-object-id"
           sample_world).
  reflexivity.
Defined.

(** C5. With no trade in the window the ordinary path of the handler --
    the query is issued, the facet document is read -- yields a report
    with no underperforming strategy, no risk average, a null
    correlation, no suggestion, and zero trades analysed. *)
Theorem empty_window_report :
  forall (rt : Runtime) (userId : string) (w : World),
    isValid rt userId = true ->
    storeUp w = true ->
    window_of rt userId w = [] ->
    exists fr rep,
      serves rt userId w fr rep /\
      underperformingStrategies rep = [] /\
      riskAverages rep = [] /\
      riskOutcomeCorrelation rep = None /\
      suggestions rep = [] /\
      totalTradesAnalyzed (meta rep) = 0 /\
      queries (trace (after_report w)) = S (queries (trace w)).
Proof.
  intros rt userId w Hv Hu He.
  destruct (optimize_success rt userId w Hv Hu) as [fr Hs].
  exists fr. eexists. split; [exact Hs|].
  destruct Hs as [Hf _]. apply facets_of_inv in Hf.
  rewrite He in Hf. subst fr. simpl.
  repeat split.
  unfold queries, after_report; simpl.
  rewrite filter_app, length_app; simpl. lia.
Qed.

Lemma empty_window_report_witness :
  isValid sample_runtime sample_user = true /\
  storeUp empty_world = true /\
  window_of sample_runtime sample_user empty_world = [] /\
  exists fr rep,
    serves sample_runtime sample_user empty_world fr rep /\
    underperformingStrategies rep = [] /\
    riskAverages rep = [] /\
    riskOutcomeCorrelation rep = None /\
    suggestions rep = [] /\
    totalTradesAnalyzed (meta rep) = 0 /\
    queries (trace (after_report empty_world)) =
    S (queries (trace empty_world)).
Proof.
  split; [reflexivity|]. split; [reflexivity|]. split; [reflexivity|].
  apply (empty_window_report sample_runtime sample_user empty_world);
    reflexivity.
Defined.

(** C9. Two requests for the same user that see the same store and the
    same trades in their windows get the same response, whatever their
    clocks read, except for [meta.generatedAt]. *)
Theorem report_deterministic :
  forall (rt : Runtime) (userId : string) (w1 w2 : World),
    store w1 = store w2 ->
    storeUp w1 = storeUp w2 ->
    window_of rt userId w1 = window_of rt userId w2 ->
    option_map without_stamp (response_of (optimize rt userId w1)) =
    option_map without_stamp (response_of (optimize rt userId w2)) /\
    response_of (optimize rt userId w1) <> None.
Proof.
  intros rt userId w1 w2 Hs Hu Hw.
  destruct (isValid rt userId) eqn:Hv.
  - case_eq (storeUp w1); intros Hu1.
    + assert (storeUp w2 = true) as Hu2 by congruence.
      destruct (optimize_success rt userId w1 Hv Hu1) as [fr1 [Hf1 Ho1]].
      destruct (optimize_success rt userId w2 Hv Hu2) as [fr2 [Hf2 Ho2]].
      rewrite Hw, Hf2 in Hf1. injection Hf1 as <-.
      unfold response_of. rewrite Ho1, Ho2. simpl.
      split; [reflexivity|discriminate].
    + assert (storeUp w2 = false) as Hu2 by congruence.
      unfold response_of.
      rewrite (optimize_store_down rt userId w1 Hv Hu1).
      rewrite (optimize_store_down rt userId w2 Hv Hu2).
      split; [reflexivity|discriminate].
  - unfold response_of.
    rewrite (optimize_invalid rt userId w1 Hv).
    rewrite (optimize_invalid rt userId w2 Hv).
    split; [reflexivity|discriminate].
Qed.

Lemma report_deterministic_witness :
  store sample_world = store later_world /\
  storeUp sample_world = storeUp later_world /\
  window_of sample_runtime sample_user sample_world =
  window_of sample_runtime sample_user later_world /\
  option_map without_stamp
    (response_of (optimize sample_runtime sample_user sample_world)) =
  option_map without_stamp
    (response_of (optimize sample_runtime sample_user later_world)) /\
  response_of (optimize sample_runtime sample_user sample_world) <> None.
Proof.
  split; [reflexivity|]. split; [reflexivity|]. split; [vm_compute; reflexivity|].
  apply (report_deterministic sample_runtime sample_user sample_world
           later_world); [reflexivity|reflexivity|vm_compute; reflexivity].
Defined.

(** C1. A strategy is listed in [underperformingStrategies], with its
    win rate, exactly when it has at least one trade in the window and
    its win rate -- wins/total, 0 for total = 0 -- is strictly below
    1/2; every bucket of [byStrategy] carries that win rate, and it
    lies between 0 and 1. *)
Theorem underperforming_iff_below_half :
  forall (rt : Runtime) (userId : string) (w : World),
    isValid rt userId = true ->
    storeUp w = true ->
    exists fr rep,
      serves rt userId w fr rep /\
      (forall sid wr,
          In {| u_strategyId := sid; u_winRate := wr |}
             (underperformingStrategies rep) <->
          (0 < total_of sid (window_of rt userId w))%nat /\
          wr = winRate_of sid (window_of rt userId w) /\
          (wr < 1 # 2)%Q) /\
      (forall sid,
          (exists s, In s (byStrategy fr) /\ s_strategyId s = sid) <->
          (0 < total_of sid (window_of rt userId w))%nat) /\
      (forall s,
          In s (byStrategy fr) ->
          total s = total_of (s_strategyId s) (window_of rt userId w) /\
          wins s = wins_of (s_strategyId s) (window_of rt userId w) /\
          winRate s = winRate_of (s_strategyId s) (window_of rt userId w) /\
          (0 <= winRate s <= 1)%Q).
Proof.
  intros rt userId w Hv Hu.
  destruct (optimize_success rt userId w Hv Hu) as [fr Hs].
  exists fr. eexists. split; [exact Hs|].
  destruct Hs as [Hf _]. apply facets_of_inv in Hf.
  set (trades := window_of rt userId w) in *.
  subst fr. simpl. split; [|split].
  - intros sid wr. rewrite In_underperforming. split.
    + intros [s [Hin [<- [<- [Ht Hw]]]]].
      apply byStrategy_bucket in Hin. destruct Hin as [Hpos Hs].
      split; [exact Hpos|]. rewrite (winRate_of_pos _ _ Hpos).
      rewrite Hs in Hw |- *; simpl in *. split; [reflexivity|exact Hw].
    + intros [Hpos [-> Hw]].
      exists {| s_strategyId := sid;
                total := total_of sid trades;
                wins := wins_of sid trades;
                winRate := (Qnat (wins_of sid trades)
                            / Qnat (total_of sid trades))%Q |}.
      rewrite (winRate_of_pos _ _ Hpos) in Hw |- *. simpl.
      split; [apply byStrategy_bucket; simpl; auto|auto].
  - intros sid. split.
    + intros [s [Hin <-]]. apply byStrategy_bucket in Hin. tauto.
    + intros Hpos.
      exists {| s_strategyId := sid;
                total := total_of sid trades;
                wins := wins_of sid trades;
                winRate := (Qnat (wins_of sid trades)
                            / Qnat (total_of sid trades))%Q |}.
      split; [apply byStrategy_bucket; simpl; auto|reflexivity].
  - intros s Hin. apply byStrategy_bucket in Hin. destruct Hin as [Hpos Hs].
    rewrite (winRate_of_pos _ _ Hpos).
    pose proof (ratio_bounds _ _ Hpos (wins_le_total (s_strategyId s) trades))
      as Hb.
    assert (total s = total_of (s_strategyId s) trades) as Et
      by (rewrite Hs; reflexivity).
    assert (wins s = wins_of (s_strategyId s) trades) as Ew
      by (rewrite Hs; reflexivity).
    assert (winRate s = (Qnat (wins_of (s_strategyId s) trades)
                         / Qnat (total_of (s_strategyId s) trades))%Q) as Er
      by (rewrite Hs; reflexivity).
    rewrite Er. auto.
Qed.

Lemma underperforming_iff_below_half_witness :
  isValid sample_runtime sample_user = true /\
  storeUp sample_world = true /\
  exists fr rep,
    serves sample_runtime sample_user sample_world fr rep /\
    (forall sid wr,
        In {| u_strategyId := sid; u_winRate := wr |}
           (underperformingStrategies rep) <->
        (0 < total_of sid
               (window_of sample_runtime sample_user sample_world))%nat /\
        wr = winRate_of sid
               (window_of sample_runtime sample_user sample_world) /\
        (wr < 1 # 2)%Q) /\
    (forall sid,
        (exists s, In s (byStrategy fr) /\ s_strategyId s = sid) <->
        (0 < total_of sid
               (window_of sample_runtime sample_user sample_world))%nat) /\
    (forall s,
        In s (byStrategy fr) ->
        total s = total_of (s_strategyId s)
                    (window_of sample_runtime sample_user sample_world) /\
        wins s = wins_of (s_strategyId s)
                   (window_of sample_runtime sample_user sample_world) /\
        winRate s = winRate_of (s_strategyId s)
                      (window_of sample_runtime sample_user sample_world) /\
        (0 <= winRate s <= 1)%Q).
Proof.
  split; [reflexivity|]. split; [reflexivity|].
  apply (underperforming_iff_below_half sample_runtime sample_user
           sample_world); reflexivity.
Defined.

(** C10. The three facets agree on the size of the trade set:
    [meta.totalTradesAnalyzed] is the number of trades in the window,
    which is also the sum of [total] over the strategy buckets and the
    sum of [count] over the risk buckets; and no bucket has more wins
    than trades. *)
Theorem facets_consistent :
  forall (rt : Runtime) (userId : string) (w : World),
    isValid rt userId = true ->
    storeUp w = true ->
    exists fr rep,
      serves rt userId w fr rep /\
      totalTradesAnalyzed (meta rep) =
        List.length (window_of rt userId w) /\
      List.length (perTrade fr) = List.length (window_of rt userId w) /\
      list_sum (map total (byStrategy fr)) =
        List.length (window_of rt userId w) /\
      list_sum (map count (byRisk fr)) =
        List.length (window_of rt userId w) /\
      Forall (fun s => 0 <= wins s /\ wins s <= total s) (byStrategy fr).
Proof.
  intros rt userId w Hv Hu.
  destruct (optimize_success rt userId w Hv Hu) as [fr Hs].
  exists fr. eexists. split; [exact Hs|].
  destruct Hs as [Hf _]. apply facets_of_inv in Hf.
  subst fr. simpl.
  assert (List.length (facet_perTrade (map projected (window_of rt userId w)))
          = List.length (window_of rt userId w)) as Hn
    by (unfold facet_perTrade; rewrite !length_map; reflexivity).
  rewrite Hn, byStrategy_totals, byRisk_counts, length_map.
  repeat split.
  apply Forall_forall. intros s Hin.
  apply byStrategy_bucket in Hin. destruct Hin as [_ Hs].
  rewrite Hs; simpl. split; [lia|apply wins_le_total].
Qed.

Lemma facets_consistent_witness :
  isValid sample_runtime sample_user = true /\
  storeUp sample_world = true /\
  exists fr rep,
    serves sample_runtime sample_user sample_world fr rep /\
    totalTradesAnalyzed (meta rep) =
      List.length (window_of sample_runtime sample_user sample_world) /\
    List.length (perTrade fr) =
      List.length (window_of sample_runtime sample_user sample_world) /\
    list_sum (map total (byStrategy fr)) =
      List.length (window_of sample_runtime sample_user sample_world) /\
    list_sum (map count (byRisk fr)) =
      List.length (window_of sample_runtime sample_user sample_world) /\
    Forall (fun s => 0 <= wins s /\ wins s <= total s) (byStrategy fr).
Proof.
  split; [reflexivity|]. split; [reflexivity|].
  apply (facets_consistent sample_runtime sample_user sample_world);
    reflexivity.
Defined.

(** C6. [riskAverages] has one bucket for each risk level that occurs
    among the trades of the window and none for a level without trades;
    a bucket counts the trades of its level and carries the arithmetic
    mean of their outcomes; and the buckets are in strictly ascending
    byte order of the level (a null level first), an order in which
    "high" < "low" < "medium". *)
Theorem riskAverages_grouped_and_sorted :
  forall (rt : Runtime) (userId : string) (w : World),
    isValid rt userId = true ->
    storeUp w = true ->
    exists fr rep,
      serves rt userId w fr rep /\
      (forall lvl,
          (exists b, In b (riskAverages rep) /\ r_riskLevel b = lvl) <->
          (0 < count_of lvl (window_of rt userId w))%nat) /\
      (forall b,
          In b (riskAverages rep) ->
          (0 < count b)%nat /\
          count b = count_of (r_riskLevel b) (window_of rt userId w) /\
          (avgOutcome b ==
           mean_outcome (r_riskLevel b) (window_of rt userId w))%Q) /\
      StronglySorted (fun a b => level_lt a b = true)
                     (map r_riskLevel (riskAverages rep)) /\
      level_lt (Some "high") (Some "low") = true /\
      level_lt (Some "low") (Some "medium") = true /\
      level_lt (Some "medium") (Some "high") = false.
Proof.
  intros rt userId w Hv Hu.
  destruct (optimize_success rt userId w Hv Hu) as [fr Hs].
  exists fr. eexists. split; [exact Hs|].
  destruct Hs as [Hf _]. apply facets_of_inv in Hf.
  set (trades := window_of rt userId w) in *.
  subst fr. simpl.
  assert (forall b, In b (facet_byRisk (map projected trades)) ->
            count b = count_of (r_riskLevel b) trades /\
            (avgOutcome b == mean_outcome (r_riskLevel b) trades)%Q) as Hb.
  { intros b Hin. apply byRisk_bucket in Hin. destruct Hin as [Hpos Hb].
    destruct (fold_risk_step
                (map projected (trades_of_level (r_riskLevel b) trades))
                risk_zero) as [Hn [Hc Hsum]].
    rewrite length_map in Hn, Hc. rewrite map_map in Hsum. simpl in *.
    assert (count b = count_of (r_riskLevel b) trades) as Ec
      by (rewrite Hb; simpl; rewrite Hc; reflexivity).
    split; [exact Ec|].
    rewrite Hb; simpl. unfold mean_outcome.
    rewrite Hn, Hsum. unfold count_of.
    change (fun x => p_outcome (projected x)) with outcome.
    rewrite Qplus_0_l. reflexivity. }
  split; [|split; [|split; [|repeat split]]].
  - intros lvl. split.
    + intros [b [Hin <-]]. apply byRisk_bucket in Hin. tauto.
    + intros Hpos.
      exists (project_risk
                (lvl, fold_left risk_step
                        (map projected (trades_of_level lvl trades))
                        risk_zero)).
      split; [apply byRisk_bucket; simpl; auto|reflexivity].
  - intros b Hin. destruct (Hb b Hin) as [Ec Ea].
    apply byRisk_bucket in Hin. destruct Hin as [Hpos _].
    repeat split; [rewrite Ec; exact Hpos|exact Ec|exact Ea].
  - apply byRisk_sorted.
Qed.

Lemma riskAverages_grouped_and_sorted_witness :
  isValid sample_runtime sample_user = true /\
  storeUp sample_world = true /\
  exists fr rep,
    serves sample_runtime sample_user sample_world fr rep /\
    (forall lvl,
        (exists b, In b (riskAverages rep) /\ r_riskLevel b = lvl) <->
        (0 < count_of lvl
               (window_of sample_runtime sample_user sample_world))%nat) /\
    (forall b,
        In b (riskAverages rep) ->
        (0 < count b)%nat /\
        count b = count_of (r_riskLevel b)
                    (window_of sample_runtime sample_user sample_world) /\
        (avgOutcome b ==
         mean_outcome (r_riskLevel b)
           (window_of sample_runtime sample_user sample_world))%Q) /\
    StronglySorted (fun a b => level_lt a b = true)
                   (map r_riskLevel (riskAverages rep)) /\
    level_lt (Some "high") (Some "low") = true /\
    level_lt (Some "low") (Some "medium") = true /\
    level_lt (Some "medium") (Some "high") = false.
Proof.
  split; [reflexivity|]. split; [reflexivity|].
  apply (riskAverages_grouped_and_sorted sample_runtime sample_user
           sample_world); reflexivity.
Defined.

(** C2 (as amended).  [riskOutcomeCorrelation] is null exactly when the
    window holds fewer than two trades or the denominator
    sqrt ((n Sxx - Sx^2) (n Syy - Sy^2)), computed in binary64, compares
    equal to 0; in every other case it is the binary64 quotient of
    n Sxy - Sx Sy by that denominator, over the (riskScore, outcome)
    points of the trades in their order. *)
Theorem correlation_is_pearson_or_null :
  forall (rt : Runtime) (userId : string) (w : World),
    isValid rt userId = true ->
    storeUp w = true ->
    exists fr rep,
      serves rt userId w fr rep /\
      (riskOutcomeCorrelation rep = None <->
       (List.length (window_of rt userId w) < 2)%nat \/
       PrimFloat.eqb
         (pearson_denominator (map point_of_trade (window_of rt userId w)))
         PrimFloat.zero = true) /\
      (riskOutcomeCorrelation rep = None \/
       riskOutcomeCorrelation rep =
         Some (pearson (map point_of_trade (window_of rt userId w))) /\
       (2 <= List.length (window_of rt userId w))%nat /\
       PrimFloat.eqb
         (pearson_denominator (map point_of_trade (window_of rt userId w)))
         PrimFloat.zero = false).
Proof.
  intros rt userId w Hv Hu.
  destruct (optimize_success rt userId w Hv Hu) as [fr Hs].
  exists fr. eexists. split; [exact Hs|].
  destruct Hs as [Hf _]. apply facets_of_inv in Hf.
  set (trades := window_of rt userId w) in *.
  subst fr. cbn [assemble riskOutcomeCorrelation perTrade].
  rewrite correlation_of_spec, points_of_facet.
  unfold facet_perTrade. rewrite !length_map.
  destruct (2 <=? List.length trades)%nat eqn:Hn.
  - apply Nat.leb_le in Hn.
    destruct (PrimFloat.eqb
                (pearson_denominator (map point_of_trade trades))
                PrimFloat.zero) eqn:Hz.
    + split; [|left; reflexivity].
      split; [intros _; right; reflexivity|reflexivity].
    + split.
      * split; [discriminate|]. intros [Hlt|Hz']; [lia|discriminate].
      * right. repeat split; assumption.
  - apply Nat.leb_gt in Hn.
    split; [|left; reflexivity].
    split; [intros _; left; exact Hn|reflexivity].
Qed.

Lemma correlation_is_pearson_or_null_witness :
  isValid sample_runtime sample_user = true /\
  storeUp sample_world = true /\
  exists fr rep,
    serves sample_runtime sample_user sample_world fr rep /\
    (riskOutcomeCorrelation rep = None <->
     (List.length (window_of sample_runtime sample_user sample_world) < 2)%nat
     \/ PrimFloat.eqb
          (pearson_denominator
             (map point_of_trade
                (window_of sample_runtime sample_user sample_world)))
          PrimFloat.zero = true) /\
    (riskOutcomeCorrelation rep = None \/
     riskOutcomeCorrelation rep =
       Some (pearson
               (map point_of_trade
                  (window_of sample_runtime sample_user sample_world)))
     /\
     (2 <= List.length
             (window_of sample_runtime sample_user sample_world))%nat /\
     PrimFloat.eqb
       (pearson_denominator
          (map point_of_trade
             (window_of sample_runtime sample_user sample_world)))
       PrimFloat.zero = false).
Proof.
  split; [reflexivity|]. split; [reflexivity|].
  apply (correlation_is_pearson_or_null sample_runtime sample_user
           sample_world); reflexivity.
Defined.

(** C2 as the spec states it fails on the binary64 arithmetic of the
    handler, in each of its parts.  Two trades on a line (low -5.93,
    high -11.93) get a correlation below -1.  Three trades whose risk
    scores and outcomes all differ (100000000, 100000001, 100000002)
    get null, the rounded denominator being 0.  Three trades with the
    same outcome 45.2 get a number, NaN, not null: the rounded product
    under the square root is negative. *)
Lemma correlation_is_pearson_or_null_counterexample :
  (exists fr rep c,
      serves sample_runtime sample_user
             (with_store sample_world collinear_window) fr rep /\
      window_of sample_runtime sample_user
                (with_store sample_world collinear_window)
      = collinear_window /\
      riskOutcomeCorrelation rep = Some c /\
      PrimFloat.ltb c (PrimFloat.opp PrimFloat.one) = true) /\
  (exists fr rep,
      serves sample_runtime sample_user
             (with_store sample_world large_window) fr rep /\
      window_of sample_runtime sample_user
                (with_store sample_world large_window)
      = large_window /\
      riskOutcomeCorrelation rep = None /\
      NoDup (map (fun t => score (riskLevel t)) large_window) /\
      NoDup (map (fun t => Qred (outcome t)) large_window)) /\
  (exists fr rep c,
      serves sample_runtime sample_user
             (with_store sample_world flat_window) fr rep /\
      window_of sample_runtime sample_user
                (with_store sample_world flat_window)
      = flat_window /\
      (forall t, In t flat_window -> outcome t = (226 # 5)%Q) /\
      riskOutcomeCorrelation rep = Some c /\
      PrimFloat.is_nan c = true).
Proof.
  split; [|split].
  - destruct (optimize_success sample_runtime sample_user
                (with_store sample_world collinear_window)
                eq_refl eq_refl) as [fr Hs].
    assert (window_of sample_runtime sample_user
              (with_store sample_world collinear_window)
            = collinear_window) as Hw by (vm_compute; reflexivity).
    exists fr. do 2 eexists. split; [exact Hs|]. split; [exact Hw|].
    destruct Hs as [Hf _]. apply facets_of_inv in Hf. rewrite Hw in Hf.
    subst fr. split; vm_compute; reflexivity.
  - destruct (optimize_success sample_runtime sample_user
                (with_store sample_world large_window)
                eq_refl eq_refl) as [fr Hs].
    assert (window_of sample_runtime sample_user
              (with_store sample_world large_window)
            = large_window) as Hw by (vm_compute; reflexivity).
    exists fr. eexists. split; [exact Hs|]. split; [exact Hw|].
    destruct Hs as [Hf _]. apply facets_of_inv in Hf. rewrite Hw in Hf.
    subst fr. split; [vm_compute; reflexivity|].
    split; vm_compute;
      repeat (constructor; [simpl; intuition discriminate|]);
      constructor.
  - destruct (optimize_success sample_runtime sample_user
                (with_store sample_world flat_window)
                eq_refl eq_refl) as [fr Hs].
    assert (window_of sample_runtime sample_user
              (with_store sample_world flat_window)
            = flat_window) as Hw by (vm_compute; reflexivity).
    exists fr. do 2 eexists. split; [exact Hs|]. split; [exact Hw|].
    destruct Hs as [Hf _]. apply facets_of_inv in Hf. rewrite Hw in Hf.
    subst fr.
    split; [intros t [<-|[<-|[<-|[]]]]; reflexivity|].
    split; vm_compute; reflexivity.
Qed.

(** C8. Once the query has been issued for a valid user against a store
    that answers, the request ends with the 200 report: the pipeline
    aborts on no trade set and the handler throws on none.  The two
    divisions are guarded: [$divide] -- which aborts the pipeline on a
    zero divisor -- is reached only for total > 0, the win rate being 0
    otherwise; the JavaScript division -- which throws on no divisor,
    and yields an infinity on a zero one -- is reached only for a
    denominator that is not equal to 0, the correlation being null
    otherwise. *)
Theorem computation_exception_free :
  forall (rt : Runtime) (userId : string) (w : World),
    isValid rt userId = true ->
    storeUp w = true ->
    (exists fr rep, serves rt userId w fr rep) /\
    (forall trades, exists fr, facets_of trades = Ok [fr]) /\
    (forall id won,
        project_strategy (id, mkStrategyAcc 0 won) =
        Ok (mkStrategyStat id 0 won 0%Q)) /\
    (forall id n won,
        project_strategy (id, mkStrategyAcc (S n) won) =
        Ok (mkStrategyStat id (S n) won (Qnat won / Qnat (S n))%Q)) /\
    (forall a, mongo_divide a 0%Q = Fault DivideByZero) /\
    (forall l,
        (correlation_of l = None /\
         ((List.length l < 2)%nat \/
          PrimFloat.eqb (pearson_denominator (map point_of l))
                        PrimFloat.zero = true)) \/
        (correlation_of l =
           Some (PrimFloat.div (pearson_numerator (map point_of l))
                               (pearson_denominator (map point_of l))) /\
         PrimFloat.eqb (pearson_denominator (map point_of l))
                       PrimFloat.zero = false)) /\
    js_div PrimFloat.one PrimFloat.zero = PrimFloat.infinity.
Proof.
  intros rt userId w Hv Hu.
  split; [|split; [|split; [|split; [|split; [|split]]]]].
  - destruct (optimize_success rt userId w Hv Hu) as [fr Hs].
    exists fr. eexists. exact Hs.
  - intros trades. eexists. apply facets_of_ok.
  - intros id won. reflexivity.
  - intros id n won. rewrite project_strategy_ok.
    unfold stat_of; simpl. reflexivity.
  - intros a. reflexivity.
  - intros l. rewrite correlation_of_spec.
    destruct (2 <=? List.length l)%nat eqn:Hn.
    + destruct (PrimFloat.eqb (pearson_denominator (map point_of l))
                              PrimFloat.zero);
        [left|right]; auto.
    + apply Nat.leb_gt in Hn. left; auto.
  - reflexivity.
Qed.

Lemma computation_exception_free_witness :
  isValid sample_runtime sample_user = true /\
  storeUp sample_world = true /\
  exists fr rep, serves sample_runtime sample_user sample_world fr rep.
Proof.
  split; [reflexivity|]. split; [reflexivity|].
  apply (computation_exception_free sample_runtime sample_user sample_world);
    reflexivity.
Defined.

(** C3. The suggestions are three blocks in this order: one "Refine
    entry criteria for strategy <id>" line per underperforming strategy,
    in the order of that list, which is ascending in win rate; then the
    single line "Increase position size for low-risk trades" exactly
    when some bucket of [riskAverages] is for "low" with count >= 3 and
    avgOutcome > 0; then the single line "Reduce exposure to high-risk
    trades" exactly when the correlation is a number that compares
    below -0.2, the double nearest to -2/10 (NaN compares below
    nothing). *)
Theorem suggestions_three_rules :
  forall (rt : Runtime) (userId : string) (w : World),
    isValid rt userId = true ->
    storeUp w = true ->
    exists fr rep,
      serves rt userId w fr rep /\
      exists refine increase reduce,
        suggestions rep = refine ++ increase ++ reduce /\
        refine =
          map (fun u =>
                 ("Refine entry criteria for strategy " ++ u_strategyId u)
                   %string)
              (underperformingStrategies rep) /\
        StronglySorted Qle
          (map u_winRate (underperformingStrategies rep)) /\
        (increase = ["Increase position size for low-risk trades"%string] /\
         (exists r, In r (riskAverages rep) /\
                    r_riskLevel r = Some "low" /\
                    (3 <= count r)%nat /\ (0 < avgOutcome r)%Q)
         \/
         increase = [] /\
         ~ (exists r, In r (riskAverages rep) /\
                      r_riskLevel r = Some "low" /\
                      (3 <= count r)%nat /\ (0 < avgOutcome r)%Q)) /\
        (reduce = ["Reduce exposure to high-risk trades"%string] /\
         (exists c, riskOutcomeCorrelation rep = Some c /\
                    PrimFloat.ltb c (double_of_Q (-2 # 10)) = true)
         \/
         reduce = [] /\
         ~ (exists c, riskOutcomeCorrelation rep = Some c /\
                      PrimFloat.ltb c (double_of_Q (-2 # 10)) = true)).
Proof.
  intros rt userId w Hv Hu.
  destruct (optimize_success rt userId w Hv Hu) as [fr Hs].
  exists fr. eexists. split; [exact Hs|].
  destruct Hs as [Hf _]. apply facets_of_inv in Hf.
  set (trades := window_of rt userId w) in *.
  cbn [assemble suggestions underperformingStrategies riskAverages
         riskOutcomeCorrelation].
  set (under := underperforming (byStrategy fr)).
  set (corr := correlation_of (perTrade fr)).
  assert (StronglySorted Qle (map u_winRate under)) as Hsorted.
  { unfold under. rewrite Hf; cbn [byStrategy].
    apply underperforming_sorted, byStrategy_sorted. }
  assert (NoDup (map r_riskLevel (byRisk fr))) as Hnd
    by (rewrite Hf; cbn [byRisk]; apply byRisk_keys_NoDup).
  pose proof (find_low_bucket (byRisk fr) Hnd) as Hfind.
  unfold suggestions_of. rewrite fold_push. cbn [app].
  change (map refine_line under)
    with (map (fun u =>
                 ("Refine entry criteria for strategy " ++ u_strategyId u)
                   %string) under).
  set (refine := map (fun u =>
                 ("Refine entry criteria for strategy " ++ u_strategyId u)
                   %string) under).
  change increase_line
    with "Increase position size for low-risk trades"%string.
  change reduce_line with "Reduce exposure to high-risk trades"%string.
  assert (PrimFloat.opp (double_of_Q (2 # 10)) = double_of_Q (-2 # 10))
    as -> by (vm_compute; reflexivity).
  (* second rule *)
  assert (exists increase,
            match find (fun r => mongo_eq (r_riskLevel r) "low") (byRisk fr)
            with
            | Some r =>
                if (3 <=? count r)%nat && Qlt_bool 0 (avgOutcome r)
                then push refine "Increase position size for low-risk trades"
                else refine
            | None => refine
            end = refine ++ increase /\
            (increase = ["Increase position size for low-risk trades"%string]
             /\
             (exists r, In r (byRisk fr) /\ r_riskLevel r = Some "low" /\
                        (3 <= count r)%nat /\ (0 < avgOutcome r)%Q)
             \/
             increase = [] /\
             ~ (exists r, In r (byRisk fr) /\ r_riskLevel r = Some "low" /\
                          (3 <= count r)%nat /\ (0 < avgOutcome r)%Q)))
    as [increase [Hinc Hrule2]].
  { destruct (find (fun r => mongo_eq (r_riskLevel r) "low") (byRisk fr))
      as [r|].
    - destruct Hfind as [Hin [Hlow Huniq]].
      destruct ((3 <=? count r)%nat && Qlt_bool 0 (avgOutcome r)) eqn:Hc.
      + exists ["Increase position size for low-risk trades"%string].
        split; [reflexivity|]. left.
        apply andb_prop in Hc. destruct Hc as [Hc Ha].
        apply Nat.leb_le in Hc. apply Qlt_bool_iff in Ha.
        split; [reflexivity|]. exists r. auto.
      + exists []. split; [rewrite app_nil_r; reflexivity|]. right.
        split; [reflexivity|].
        intros [r' [Hin' [Hlow' [Hc' Ha']]]].
        rewrite (Huniq r' Hin' Hlow') in Hc', Ha'.
        apply Nat.leb_le in Hc'. apply Qlt_bool_iff in Ha'.
        rewrite Hc', Ha' in Hc. discriminate.
    - exists []. split; [rewrite app_nil_r; reflexivity|]. right.
      split; [reflexivity|].
      intros [r' [Hin' [Hlow' _]]]. exact (Hfind r' Hin' Hlow'). }
  rewrite Hinc.
  (* third rule *)
  destruct corr as [c|] eqn:Hcorr.
  - unfold js_lt.
    destruct (PrimFloat.ltb c (double_of_Q (-2 # 10))) eqn:Hlt.
    + exists refine, increase, ["Reduce exposure to high-risk trades"%string].
      split; [unfold push; rewrite <- app_assoc; reflexivity|].
      repeat split; try assumption. left. split; [reflexivity|].
      exists c. split; [reflexivity | exact Hlt].
    + exists refine, increase, [].
      split; [rewrite app_nil_r; reflexivity|].
      repeat split; try assumption. right. split; [reflexivity|].
      intros [c' [Hc' Hlt']]. injection Hc' as ->. congruence.
  - exists refine, increase, [].
    split; [rewrite app_nil_r; reflexivity|].
    repeat split; try assumption. right. split; [reflexivity|].
    intros [c' [Hc' _]]. discriminate.
Qed.

Lemma suggestions_three_rules_witness :
  isValid sample_runtime sample_user = true /\
  storeUp sample_world = true /\
  exists fr rep,
    serves sample_runtime sample_user sample_world fr rep /\
    exists refine increase reduce,
      suggestions rep = refine ++ increase ++ reduce /\
      refine =
        map (fun u =>
               ("Refine entry criteria for strategy " ++ u_strategyId u)
                 %string)
            (underperformingStrategies rep) /\
      StronglySorted Qle
        (map u_winRate (underperformingStrategies rep)) /\
      (increase = ["Increase position size for low-risk trades"%string] /\
       (exists r, In r (riskAverages rep) /\
                  r_riskLevel r = Some "low" /\
                  (3 <= count r)%nat /\ (0 < avgOutcome r)%Q)
       \/
       increase = [] /\
       ~ (exists r, In r (riskAverages rep) /\
                    r_riskLevel r = Some "low" /\
                    (3 <= count r)%nat /\ (0 < avgOutcome r)%Q)) /\
      (reduce = ["Reduce exposure to high-risk trades"%string] /\
       (exists c, riskOutcomeCorrelation rep = Some c /\
                  PrimFloat.ltb c (double_of_Q (-2 # 10)) = true)
       \/
       reduce = [] /\
       ~ (exists c, riskOutcomeCorrelation rep = Some c /\
                    PrimFloat.ltb c (double_of_Q (-2 # 10)) = true)).
Proof.
  split; [reflexivity|]. split; [reflexivity|].
  apply (suggestions_three_rules sample_runtime sample_user sample_world);
    reflexivity.
Defined.

(** * Beyond the claims: more on the optimization report *)

Lemma optimize_failure rt userId w :
  isValid rt userId = true ->
  storeUp w = false ->
  optimize rt userId w =
  (Return {| status := 500; body := ErrorBody "Internal Server Error" |},
   after_failure w).
Proof.
  intros Hv Hd. unfold optimize, try_catch. rewrite Hv; simpl.
  unfold bind at 1. unfold new_Date at 1.
  unfold bind at 1. unfold Trade_aggregate; simpl. rewrite Hd.
  unfold bind, console_error, ret, emit, after_failure; simpl.
  rewrite Hd, <- app_assoc. reflexivity.
Qed.

Lemma queries_app tr tr' : queries (tr ++ tr') = queries tr + queries tr'.
Proof. unfold queries. rewrite filter_app, length_app. reflexivity. Qed.

(** X1. When the query throws (the store does not answer), the request
    is answered 500 with body [{ error: "Internal Server Error" }]; the
    query was attempted once, the error was logged once, and the clock
    was read once. *)
Theorem store_failure_answered_500 :
  forall (rt : Runtime) (userId : string) (w : World),
    isValid rt userId = true ->
    storeUp w = false ->
    optimize rt userId w =
    (Return {| status := 500; body := ErrorBody "Internal Server Error" |},
     after_failure w) /\
    queries (trace (after_failure w)) = S (queries (trace w)) /\
    reads (after_failure w) = S (reads w).
Proof.
  intros rt userId w Hv Hd.
  split; [apply optimize_failure; assumption|].
  split; [|reflexivity].
  unfold after_failure; simpl. rewrite queries_app; simpl.
  unfold queries at 2; simpl. lia.
Qed.

Lemma store_failure_answered_500_witness :
  isValid sample_runtime sample_user = true /\
  storeUp (mkWorld sample_store false (fun _ => sample_now) 0 []) = false /\
  optimize sample_runtime sample_user
    (mkWorld sample_store false (fun _ => sample_now) 0 []) =
  (Return {| status := 500; body := ErrorBody "Internal Server Error" |},
   after_failure (mkWorld sample_store false (fun _ => sample_now) 0 [])) /\
  queries (trace (after_failure
                    (mkWorld sample_store false (fun _ => sample_now) 0 [])))
  = S (queries (trace (mkWorld sample_store false (fun _ => sample_now) 0 [])))
  /\
  reads (after_failure (mkWorld sample_store false (fun _ => sample_now) 0 []))
  = S (reads (mkWorld sample_store false (fun _ => sample_now) 0 [])).
Proof.
  split; [reflexivity|]. split; [reflexivity|].
  apply (store_failure_answered_500 sample_runtime sample_user
           (mkWorld sample_store false (fun _ => sample_now) 0 []));
    reflexivity.
Defined.

(** X2. The handler never lets an exception escape and answers every
    request with exactly one of three statuses: 400 exactly for an
    invalid [userId], 200 exactly for a valid one when the store
    answers, 500 exactly for a valid one when it does not; and it issues
    at most one query. *)
Theorem optimize_status_characterised :
  forall (rt : Runtime) (userId : string) (w : World),
    exists r w',
      optimize rt userId w = (Return r, w') /\
      (status r = 400%Z <-> isValid rt userId = false) /\
      (status r = 200%Z <-> isValid rt userId = true /\ storeUp w = true) /\
      (status r = 500%Z <-> isValid rt userId = true /\ storeUp w = false) /\
      (queries (trace w') <= S (queries (trace w)))%nat.
Proof.
  intros rt userId w.
  destruct (isValid rt userId) eqn:Hv.
  - destruct (storeUp w) eqn:Hu.
    + destruct (optimize_success rt userId w Hv Hu) as [fr [_ Ho]].
      do 2 eexists. split; [exact Ho|]. simpl.
      repeat split; try discriminate; try tauto; try (intros [? ?]; discriminate).
      unfold queries. rewrite filter_app, length_app; simpl. lia.
    + do 2 eexists.
      split; [apply (optimize_failure rt userId w Hv Hu)|]. simpl.
      repeat split; try discriminate; try tauto; try (intros [? ?]; discriminate).
      unfold queries. rewrite filter_app, length_app; simpl. lia.
  - do 2 eexists. split; [apply (optimize_invalid rt userId w Hv)|]. simpl.
    repeat split; try discriminate; try tauto; try (intros [? ?]; discriminate).
    lia.
Qed.

Lemma filter_all {A} (p : A -> bool) l :
  (forall x, In x l -> p x = true) -> filter p l = l.
Proof.
  induction l as [|x r IH]; intros H; simpl; [reflexivity|].
  rewrite (H x (or_introl eq_refl)). f_equal. apply IH.
  intros y Hy. apply H. right. exact Hy.
Qed.

Lemma filter_none {A} (p : A -> bool) l :
  (forall x, In x l -> p x = false) -> filter p l = [].
Proof.
  induction l as [|x r IH]; intros H; simpl; [reflexivity|].
  rewrite (H x (or_introl eq_refl)). apply IH.
  intros y Hy. apply H. right. exact Hy.
Qed.

Lemma byStrategy_of_serves rt userId w fr rep :
  serves rt userId w fr rep ->
  byStrategy fr =
  sort_by winRate_le
    (map stat_of (group_by_strategy (map projected (window_of rt userId w)))).
Proof. intros [Hf _]. apply facets_of_inv in Hf. rewrite Hf. reflexivity. Qed.

(** X3. When every trade of the window is a win, every strategy bucket
    has win rate 1 and no strategy is reported as underperforming,
    whatever the outcomes are. *)
Theorem all_wins_no_underperformer :
  forall (rt : Runtime) (userId : string) (w : World),
    isValid rt userId = true ->
    storeUp w = true ->
    (forall t, In t (window_of rt userId w) -> win t = true) ->
    exists fr rep,
      serves rt userId w fr rep /\
      underperformingStrategies rep = [] /\
      Forall (fun s => (winRate s == 1)%Q) (byStrategy fr).
Proof.
  intros rt userId w Hv Hu Hwin.
  destruct (optimize_success rt userId w Hv Hu) as [fr Hs].
  exists fr. eexists. split; [exact Hs|].
  pose proof (byStrategy_of_serves _ _ _ _ _ Hs) as Hb.
  set (trades := window_of rt userId w) in *.
  assert (forall s, In s (byStrategy fr) -> (winRate s == 1)%Q) as Hone.
  { intros s Hin. rewrite Hb in Hin.
    apply byStrategy_bucket in Hin. destruct Hin as [Hpos Hs'].
    rewrite Hs'; simpl.
    assert (wins_of (s_strategyId s) trades = total_of (s_strategyId s) trades)
      as ->.
    { unfold wins_of, total_of. f_equal. apply filter_all.
      intros t Ht. apply Hwin. unfold trades_of_strategy in Ht.
      apply filter_In in Ht. apply Ht. }
    apply Qnat_pos in Hpos. field. lra. }
  split; [|apply Forall_forall; exact Hone].
  cbn [assemble underperformingStrategies].
  destruct (underperforming (byStrategy fr)) as [|[sid wr] r] eqn:Hunder;
    [reflexivity|exfalso].
  assert (In {| u_strategyId := sid; u_winRate := wr |}
             (underperforming (byStrategy fr))) as Hin
    by (rewrite Hunder; left; reflexivity).
  apply In_underperforming in Hin.
  destruct Hin as [s [Hin [_ [_ [_ Hlt]]]]].
  rewrite (Hone s Hin) in Hlt. unfold Qlt in Hlt; simpl in Hlt. lia.
Qed.

Lemma all_wins_no_underperformer_witness :
  isValid sample_runtime sample_user = true /\
  storeUp (with_store sample_world (filter win sample_store)) = true /\
  (forall t,
      In t (window_of sample_runtime sample_user
              (with_store sample_world (filter win sample_store))) ->
      win t = true) /\
  exists fr rep,
    serves sample_runtime sample_user
      (with_store sample_world (filter win sample_store)) fr rep /\
    underperformingStrategies rep = [] /\
    Forall (fun s => (winRate s == 1)%Q) (byStrategy fr).
Proof.
  assert (forall t,
      In t (window_of sample_runtime sample_user
              (with_store sample_world (filter win sample_store))) ->
      win t = true) as H.
  { intros t Ht. unfold window_of, match_stage in Ht.
    apply filter_In in Ht. destruct Ht as [Ht _].
    cbn [store with_store] in Ht. apply filter_In in Ht. apply Ht. }
  split; [reflexivity|]. split; [reflexivity|]. split; [exact H|].
  apply (all_wins_no_underperformer sample_runtime sample_user
           (with_store sample_world (filter win sample_store)));
    [reflexivity|reflexivity|exact H].
Defined.

Lemma match_stage_outside uid ws extra :
  (forall t, In t extra ->
             userId t <> uid \/ (tradeDate t < ws)%Z) ->
  match_stage uid ws extra = [].
Proof.
  intros H. unfold match_stage. apply filter_none. intros t Ht.
  destruct (H t Ht) as [Hne|Hold].
  - apply String.eqb_neq in Hne. rewrite Hne. reflexivity.
  - apply Z.leb_gt in Hold. rewrite Hold. apply andb_false_r.
Qed.

(** The response is a function of the user id, the two clock readings,
    whether the store answers, and the trades in the window. *)
Lemma optimize_depends_on_window rt userId w1 w2 :
  storeUp w1 = storeUp w2 ->
  clock w1 (S (reads w1)) = clock w2 (S (reads w2)) ->
  window_of rt userId w1 = window_of rt userId w2 ->
  fst (optimize rt userId w1) = fst (optimize rt userId w2).
Proof.
  intros Hu Hc Hw.
  destruct (isValid rt userId) eqn:Hv.
  - case_eq (storeUp w1); intros Hu1.
    + assert (storeUp w2 = true) as Hu2 by congruence.
      destruct (optimize_success rt userId w1 Hv Hu1) as [fr1 [Hf1 Ho1]].
      destruct (optimize_success rt userId w2 Hv Hu2) as [fr2 [Hf2 Ho2]].
      rewrite Hw, Hf2 in Hf1. injection Hf1 as <-.
      rewrite Ho1, Ho2, Hc. reflexivity.
    + assert (storeUp w2 = false) as Hu2 by congruence.
      rewrite (optimize_failure rt userId w1 Hv Hu1).
      rewrite (optimize_failure rt userId w2 Hv Hu2). reflexivity.
  - rewrite (optimize_invalid rt userId w1 Hv).
    rewrite (optimize_invalid rt userId w2 Hv). reflexivity.
Qed.

(** X4. Trades of other users, and trades dated before the window
    start, do not influence the response: inserting any number of them
    anywhere in the collection leaves the response as it was, time
    stamp included. *)
Theorem foreign_trades_ignored :
  forall (rt : Runtime) (userId : string) (w : World)
         (before after extra : list TradeDoc),
    store w = before ++ after ->
    (forall t, In t extra -> outside_window rt userId w t) ->
    fst (optimize rt userId (with_store w (before ++ extra ++ after))) =
    fst (optimize rt userId w).
Proof.
  intros rt userId w before after extra Hst Hout.
  apply optimize_depends_on_window; try reflexivity.
  unfold window_of; cbn [store with_store clock reads].
  rewrite Hst.
  pose proof (match_stage_outside _ _ extra Hout) as He.
  unfold match_stage in He |- *.
  rewrite !filter_app, He. reflexivity.
Qed.

Lemma foreign_trades_ignored_witness :
  store sample_world = firstn 4 sample_store ++ skipn 4 sample_store /\
  (forall t,
      In t [ mkTrade other_user "breakout" 1709000450000 (Some "low")
               (1000 # 1) true;
             mkTrade sample_user "breakout" 1600000000000 (Some "low")
               (1000 # 1) false ] ->
      outside_window sample_runtime sample_user sample_world t) /\
  fst (optimize sample_runtime sample_user
         (with_store sample_world
            (firstn 4 sample_store
             ++ [ mkTrade other_user "breakout" 1709000450000 (Some "low")
                    (1000 # 1) true;
                  mkTrade sample_user "breakout" 1600000000000 (Some "low")
                    (1000 # 1) false ]
             ++ skipn 4 sample_store))) =
  fst (optimize sample_runtime sample_user sample_world).
Proof.
  assert (forall t,
      In t [ mkTrade other_user "breakout" 1709000450000 (Some "low")
               (1000 # 1) true;
             mkTrade sample_user "breakout" 1600000000000 (Some "low")
               (1000 # 1) false ] ->
      outside_window sample_runtime sample_user sample_world t) as H.
  { intros t [<-|[<-|[]]].
    - left. vm_compute. discriminate.
    - right. vm_compute. reflexivity. }
  split; [reflexivity|]. split; [exact H|].
  apply (foreign_trades_ignored sample_runtime sample_user sample_world
           (firstn 4 sample_store) (skipn 4 sample_store)
           [ mkTrade other_user "breakout" 1709000450000 (Some "low")
               (1000 # 1) true;
             mkTrade sample_user "breakout" 1600000000000 (Some "low")
               (1000 # 1) false ]);
    [reflexivity|exact H].
Defined.

(** ** The underperformers are the head of the sorted facet *)

(** In a sorted list, the elements satisfying a downward-closed test
    form an initial segment. *)
Lemma sorted_filter_split {A} (R : A -> A -> Prop) (p : A -> bool) l :
  StronglySorted R l ->
  (forall x y, R x y -> p y = true -> p x = true) ->
  l = filter p l ++ filter (fun x => negb (p x)) l.
Proof.
  intros Hs Hp. induction Hs as [|x r Hr IH Hx]; simpl; [reflexivity|].
  destruct (p x) eqn:Hpx; simpl.
  - f_equal. exact IH.
  - rewrite Forall_forall in Hx.
    assert (forall y, In y r -> p y = false) as Hnone.
    { intros y Hy. destruct (p y) eqn:Hpy; [|reflexivity].
      rewrite (Hp x y (Hx y Hy) Hpy) in Hpx. discriminate. }
    rewrite (filter_none p r Hnone). simpl. f_equal.
    symmetry. apply filter_all. intros y Hy.
    rewrite (Hnone y Hy). reflexivity.
Qed.

Lemma byStrategy_ids_NoDup docs :
  NoDup (map s_strategyId
           (sort_by winRate_le (map stat_of (group_by_strategy docs)))).
Proof.
  apply (Permutation_NoDup
           (l := map s_strategyId (map stat_of (group_by_strategy docs)))).
  - apply Permutation_map. symmetry. apply sort_by_perm.
  - rewrite map_map.
    assert (forall l : list (string * StrategyAcc),
               map (fun x => s_strategyId (stat_of x)) l = map fst l) as E.
    { intros l. apply map_ext. intros [k a]. reflexivity. }
    rewrite E. unfold group_by_strategy, group.
    apply (NoDup_group_from _ String.eqb_eq). constructor.
Qed.

(** X6. The strategy buckets come in ascending order of win rate, one
    bucket per strategy, and the underperforming strategies are exactly
    an initial segment of them: every bucket before the cut has a win
    rate below 1/2, every bucket after it has one of at least 1/2. *)
Theorem underperformers_head_of_ranking :
  forall (rt : Runtime) (userId : string) (w : World),
    isValid rt userId = true ->
    storeUp w = true ->
    exists fr rep,
      serves rt userId w fr rep /\
      StronglySorted Qle (map winRate (byStrategy fr)) /\
      NoDup (map s_strategyId (byStrategy fr)) /\
      exists worst rest,
        byStrategy fr = worst ++ rest /\
        underperformingStrategies rep = map entry_of worst /\
        Forall (fun s => (winRate s < 1 # 2)%Q) worst /\
        Forall (fun s => (1 # 2 <= winRate s)%Q) rest.
Proof.
  intros rt userId w Hv Hu.
  destruct (optimize_success rt userId w Hv Hu) as [fr Hs].
  exists fr. eexists. split; [exact Hs|].
  pose proof (byStrategy_of_serves _ _ _ _ _ Hs) as Hb.
  set (trades := window_of rt userId w) in *.
  pose proof (byStrategy_sorted (map projected trades)) as Hsorted.
  rewrite <- Hb in Hsorted.
  assert (forall s, In s (byStrategy fr) -> (0 <? total s)%nat = true) as Hpos.
  { intros s Hin. rewrite Hb in Hin. apply byStrategy_bucket in Hin.
    destruct Hin as [Hp Hs']. rewrite Hs'; simpl.
    apply Nat.ltb_lt, Hp. }
  split; [|split].
  - apply StronglySorted_map.
    eapply StronglySorted_weaken; [|exact Hsorted].
    intros a b. unfold winRate_le. apply Qle_bool_iff.
  - rewrite Hb. apply byStrategy_ids_NoDup.
  - set (below := fun s : StrategyStat => Qlt_bool (winRate s) (1 # 2)).
    exists (filter below (byStrategy fr)),
           (filter (fun s => negb (below s)) (byStrategy fr)).
    split; [|split; [|split]].
    + apply (sorted_filter_split (fun a b => winRate_le a b = true));
        [exact Hsorted|].
      intros x y Hxy Hy. unfold below, winRate_le in *.
      apply Qle_bool_iff in Hxy. apply Qlt_bool_iff in Hy.
      apply Qlt_bool_iff. lra.
    + cbn [assemble underperformingStrategies]. unfold underperforming.
      f_equal. apply filter_ext_in. intros s Hin.
      rewrite (Hpos s Hin). reflexivity.
    + apply Forall_forall. intros s Hin. apply filter_In in Hin.
      apply Qlt_bool_iff, Hin.
    + apply Forall_forall. intros s Hin. apply filter_In in Hin.
      destruct Hin as [_ Hn]. unfold below in Hn.
      destruct (Qlt_le_dec (winRate s) (1 # 2)) as [Hlt|Hle]; [|exact Hle].
      apply Qlt_bool_iff in Hlt. rewrite Hlt in Hn. discriminate.
Qed.

Lemma underperformers_head_of_ranking_witness :
  isValid sample_runtime sample_user = true /\
  storeUp sample_world = true /\
  exists fr rep,
    serves sample_runtime sample_user sample_world fr rep /\
    StronglySorted Qle (map winRate (byStrategy fr)) /\
    NoDup (map s_strategyId (byStrategy fr)) /\
    exists worst rest,
      byStrategy fr = worst ++ rest /\
      underperformingStrategies rep = map entry_of worst /\
      Forall (fun s => (winRate s < 1 # 2)%Q) worst /\
      Forall (fun s => (1 # 2 <= winRate s)%Q) rest.
Proof.
  split; [reflexivity|]. split; [reflexivity|].
  apply (underperformers_head_of_ranking sample_runtime sample_user
           sample_world); reflexivity.
Defined.

(** * Beyond the claims: the token store *)

(** ** [Map] laws *)
Section JsMapFacts.
Context {V : Type}.

Lemma JsMap_get_set_same k (v : V) m : JsMap.get k (JsMap.set k v m) = Some v.
Proof.
  induction m as [|[k' v'] r IH]; simpl.
  - rewrite String.eqb_refl. reflexivity.
  - destruct (String.eqb k' k) eqn:E; simpl; rewrite E; auto.
Qed.

Lemma JsMap_get_set_other k k' (v : V) m :
  k' <> k -> JsMap.get k' (JsMap.set k v m) = JsMap.get k' m.
Proof.
  intros Hne. induction m as [|[k0 v0] r IH]; simpl.
  - destruct (String.eqb_spec k k'); [congruence|reflexivity].
  - destruct (String.eqb_spec k0 k) as [->|Hk]; simpl.
    + destruct (String.eqb_spec k k'); [congruence|reflexivity].
    + destruct (String.eqb k0 k'); [reflexivity|exact IH].
Qed.

Lemma JsMap_get_delete_same k (m : list (string * V)) :
  JsMap.get k (JsMap.delete k m) = None.
Proof.
  unfold JsMap.delete.
  induction m as [|[k' v'] r IH]; simpl; [reflexivity|].
  destruct (String.eqb k' k) eqn:E; simpl; [exact IH|].
  rewrite E. exact IH.
Qed.

Lemma JsMap_get_delete_other k k' (m : list (string * V)) :
  k' <> k -> JsMap.get k' (JsMap.delete k m) = JsMap.get k' m.
Proof.
  intros Hne. unfold JsMap.delete.
  induction m as [|[k0 v0] r IH]; simpl; [reflexivity|].
  destruct (String.eqb_spec k0 k) as [->|Hk]; simpl.
  - destruct (String.eqb_spec k k'); [congruence|exact IH].
  - destruct (String.eqb k0 k'); [reflexivity|exact IH].
Qed.

Lemma JsMap_keys_set k (v : V) m k' :
  In k' (JsMap.keys (JsMap.set k v m)) <-> k' = k \/ In k' (JsMap.keys m).
Proof.
  unfold JsMap.keys.
  induction m as [|[k0 v0] r IH]; simpl.
  - intuition.
  - destruct (String.eqb_spec k0 k) as [->|Hk]; simpl.
    + intuition.
    + rewrite IH. intuition.
Qed.

Lemma JsMap_get_In k (m : list (string * V)) :
  JsMap.get k m <> None <-> In k (JsMap.keys m).
Proof.
  unfold JsMap.keys.
  induction m as [|[k0 v0] r IH]; simpl.
  - split; [congruence|tauto].
  - destruct (String.eqb_spec k0 k) as [->|Hk].
    + split; [auto|discriminate].
    + rewrite IH. split; [auto|]. intros [H|H]; [congruence|exact H].
Qed.
End JsMapFacts.

(** ** Keys of the token store *)

Lemma append_colon_free_inj u u' rest rest' :
  occurs colon u = false -> occurs colon u' = false ->
  (u ++ String colon rest)%string = (u' ++ String colon rest')%string ->
  u = u' /\ rest = rest'.
Proof.
  revert u'. induction u as [|c u IH]; intros [|c' u'] Hu Hu' E; simpl in *.
  - injection E as ->. auto.
  - injection E as <- _. unfold colon in Hu'.
    rewrite Ascii.eqb_refl in Hu'. discriminate.
  - injection E as -> _. unfold colon in Hu.
    rewrite Ascii.eqb_refl in Hu. discriminate.
  - injection E as -> E.
    apply orb_false_elim in Hu, Hu'.
    destruct (IH u' (proj2 Hu) (proj2 Hu') E) as [-> ->]. auto.
Qed.

Lemma getKey_inj u b u' b' :
  occurs colon u = false -> occurs colon u' = false ->
  TokenService.getKey u b = TokenService.getKey u' b' ->
  u = u' /\ b = b'.
Proof.
  intros Hu Hu' E. unfold TokenService.getKey in E.
  exact (append_colon_free_inj u u' b b' Hu Hu' E).
Qed.

Lemma append_assoc_string (a b c : string) :
  ((a ++ b) ++ c)%string = (a ++ (b ++ c))%string.
Proof. induction a as [|x a IH]; simpl; [reflexivity|]. rewrite IH. reflexivity. Qed.

(** X7. For user ids without a colon, the token store keeps one token
    per (user, broker) pair: a token that was set is the one read back,
    setting or removing it leaves every other pair's token as it was,
    and after removal nothing is read back. *)
Theorem tokens_kept_per_pair :
  forall (userId brokerName userId' brokerName' : string)
         (tokenData : TokenData) (w : SyncWorld),
    occurs colon userId = false ->
    occurs colon userId' = false ->
    (userId', brokerName') <> (userId, brokerName) ->
    let stored := snd (TokenService.setToken userId brokerName tokenData w) in
    let removed := snd (TokenService.removeToken userId brokerName stored) in
    fst (TokenService.getToken userId brokerName stored)
      = Done (Some tokenData) /\
    fst (TokenService.getToken userId' brokerName' stored)
      = fst (TokenService.getToken userId' brokerName' w) /\
    fst (TokenService.getToken userId brokerName removed) = Done None /\
    fst (TokenService.getToken userId' brokerName' removed)
      = fst (TokenService.getToken userId' brokerName' w).
Proof.
  intros u b u' b' td w Hu Hu' Hne. simpl.
  assert (TokenService.getKey u' b' <> TokenService.getKey u b) as Hk.
  { intros E. apply getKey_inj in E; try assumption.
    destruct E as [-> ->]. apply Hne. reflexivity. }
  rewrite JsMap_get_set_same, JsMap_get_delete_same.
  rewrite (JsMap_get_delete_other _ _ _ Hk), (JsMap_get_set_other _ _ _ _ Hk).
  repeat split.
Qed.

Lemma tokens_kept_per_pair_witness :
  occurs colon "u1" = false /\
  occurs colon "u2" = false /\
  ("u2", "zerodha") <> ("u1", "zerodha") /\
  let w := sync_world [("u2:zerodha", stale_token)] sample_adapter in
  let stored := snd (TokenService.setToken "u1" "zerodha" sample_token w) in
  let removed := snd (TokenService.removeToken "u1" "zerodha" stored) in
  fst (TokenService.getToken "u1" "zerodha" stored)
    = Done (Some sample_token) /\
  fst (TokenService.getToken "u2" "zerodha" stored)
    = fst (TokenService.getToken "u2" "zerodha" w) /\
  fst (TokenService.getToken "u1" "zerodha" removed) = Done None /\
  fst (TokenService.getToken "u2" "zerodha" removed)
    = fst (TokenService.getToken "u2" "zerodha" w).
Proof.
  split; [reflexivity|]. split; [reflexivity|].
  split; [discriminate|].
  apply (tokens_kept_per_pair "u1" "zerodha" "u2" "zerodha" sample_token
           (sync_world [("u2:zerodha", stale_token)] sample_adapter));
    [reflexivity|reflexivity|discriminate].
Defined.

(** X8. The key ["<userId>:<brokerName>"] does not separate its two
    parts: a token stored for user ["u:b"] and broker ["c"] is the one
    read back for user ["u"] and broker ["b:c"], whatever [u], [b] and
    [c] are. *)
Theorem token_keys_collide :
  forall (u b c : string) (tokenData : TokenData) (w : SyncWorld),
    TokenService.getKey (u ++ ":" ++ b) c = TokenService.getKey u (b ++ ":" ++ c)
    /\
    fst (TokenService.getToken u (b ++ ":" ++ c)
           (snd (TokenService.setToken (u ++ ":" ++ b) c tokenData w)))
    = Done (Some tokenData).
Proof.
  intros u b c td w.
  assert (TokenService.getKey (u ++ ":" ++ b) c
          = TokenService.getKey u (b ++ ":" ++ c)) as E.
  { unfold TokenService.getKey.
    rewrite !append_assoc_string. reflexivity. }
  split; [exact E|].
  unfold TokenService.getToken, TokenService.setToken.
  cbn [fst snd tokenStore with_tokenStore].
  rewrite E, JsMap_get_set_same. reflexivity.
Qed.

(** ** Validity checks *)

Lemma isTokenValid_run js u b w :
  TokenService.isTokenValid js u b w =
  match JsMap.get (TokenService.getKey u b) (tokenStore w) with
  | None => (Done false, w)
  | Some td =>
      let now := wallClock w (clockReads w) in
      let skew :=
        parseInt10 js (or_string (env_TOKEN_REFRESH_SKEW_MS w) "30000") in
      let ticked :=
        {| tokenStore := tokenStore w;
           adapters := adapters w;
           wallClock := wallClock w;
           clockReads := S (clockReads w);
           env_TOKEN_REFRESH_SKEW_MS := env_TOKEN_REFRESH_SKEW_MS w;
           env_NODE_ENV := env_NODE_ENV w;
           brokerCalls := brokerCalls w |} in
      if TokenService.before_expiry now skew td
      then (Done true, ticked)
      else (Done false,
            with_tokenStore ticked
              (JsMap.delete (TokenService.getKey u b) (tokenStore w)))
  end.
Proof.
  unfold TokenService.isTokenValid, andThen, TokenService.getToken.
  destruct (JsMap.get (TokenService.getKey u b) (tokenStore w)) as [td|];
    [|reflexivity].
  unfold Date_now, TokenService.skewMs; cbn [env_TOKEN_REFRESH_SKEW_MS].
  destruct (TokenService.before_expiry (wallClock w (clockReads w))
              (parseInt10 js
                 (or_string (env_TOKEN_REFRESH_SKEW_MS w) "30000")) td);
    reflexivity.
Qed.

(** X9. [isTokenValid] answers without throwing and without calling a
    broker.  It answers true only for a stored token, and then leaves
    the store as it was; when it answers false, no token is stored for
    the pair afterwards -- an expired token is deleted by the check --
    and the tokens under all other keys are as before. *)
Theorem isTokenValid_effects :
  forall (js : JsRuntime) (userId brokerName : string) (w : SyncWorld),
    exists (valid : bool) (w' : SyncWorld),
      TokenService.isTokenValid js userId brokerName w = (Done valid, w') /\
      (valid = true ->
       tokenStore w' = tokenStore w /\
       exists tokenData,
         JsMap.get (TokenService.getKey userId brokerName) (tokenStore w)
         = Some tokenData) /\
      (valid = false ->
       JsMap.get (TokenService.getKey userId brokerName) (tokenStore w')
       = None) /\
      (forall key,
          key <> TokenService.getKey userId brokerName ->
          JsMap.get key (tokenStore w') = JsMap.get key (tokenStore w)) /\
      brokerCalls w' = brokerCalls w /\
      adapters w' = adapters w.
Proof.
  intros js u b w. rewrite isTokenValid_run.
  destruct (JsMap.get (TokenService.getKey u b) (tokenStore w)) as [td|] eqn:Hg.
  - cbv zeta.
    destruct (TokenService.before_expiry _ _ td).
    + do 2 eexists. split; [reflexivity|]. simpl.
      repeat split; try discriminate; eauto.
    + do 2 eexists. split; [reflexivity|]. simpl.
      repeat split; try discriminate.
      * intros _. apply JsMap_get_delete_same.
      * intros key Hk. apply JsMap_get_delete_other, Hk.
  - do 2 eexists. split; [reflexivity|].
    repeat split; try discriminate. intros _. exact Hg.
Qed.

Lemma before_expiry_reading now skew e td :
  expiresAt td = Some e ->
  (Z.abs (e - skew) <= max_time)%Z ->
  TokenService.before_expiry now (Finite (inject_Z skew)) td
  = (now <? e - skew)%Z.
Proof.
  intros He Hr. unfold TokenService.before_expiry. rewrite He.
  cbn [getTime double_minus Date_of_double].
  assert ((inject_Z e - inject_Z skew)%Q = inject_Z (e - skew)) as E.
  { unfold inject_Z, Qminus, Qplus, Qopp; simpl. f_equal. lia. }
  rewrite E.
  assert (Qle_bool (Qabs (inject_Z (e - skew))) (inject_Z max_time) = true)
    as Hle.
  { apply Qle_bool_iff. unfold max_time in *.
    unfold Qabs, inject_Z, Qle; simpl. lia. }
  rewrite Hle. cbn [date_lt inject_Z Qnum Qden].
  rewrite Z.quot_1_r. reflexivity.
Qed.

(** X10. How a stored token is judged.  With an integer skew [s] (the
    parsed [TOKEN_REFRESH_SKEW_MS], or 30000 when it is unset or empty)
    and a valid expiry date [e], the token is valid exactly when the
    clock reads less than [e - s]; a token whose expiry is an Invalid
    Date, and every token when the skew does not parse to a number, is
    judged expired and deleted by the check. *)
Theorem isTokenValid_reading :
  forall (js : JsRuntime) (userId brokerName : string) (w : SyncWorld)
         (tokenData : TokenData),
    JsMap.get (TokenService.getKey userId brokerName) (tokenStore w)
    = Some tokenData ->
    (forall e s,
        expiresAt tokenData = Some e ->
        parseInt10 js (or_string (env_TOKEN_REFRESH_SKEW_MS w) "30000")
        = Finite (inject_Z s) ->
        (Z.abs (e - s) <= max_time)%Z ->
        fst (TokenService.isTokenValid js userId brokerName w)
        = Done (wallClock w (clockReads w) <? e - s)%Z) /\
    (expiresAt tokenData = None \/
     parseInt10 js (or_string (env_TOKEN_REFRESH_SKEW_MS w) "30000")
     = NotANumber ->
     fst (TokenService.isTokenValid js userId brokerName w) = Done false /\
     JsMap.get (TokenService.getKey userId brokerName)
       (tokenStore (snd (TokenService.isTokenValid js userId brokerName w)))
     = None).
Proof.
  intros js u b w td Hg. rewrite isTokenValid_run, Hg. cbv zeta. split.
  - intros e s He Hs Hr. rewrite Hs.
    rewrite (before_expiry_reading _ _ _ _ He Hr).
    destruct (wallClock w (clockReads w) <? e - s)%Z; reflexivity.
  - intros H.
    assert (TokenService.before_expiry (wallClock w (clockReads w))
              (parseInt10 js
                 (or_string (env_TOKEN_REFRESH_SKEW_MS w) "30000")) td
            = false) as Hb.
    { unfold TokenService.before_expiry.
      destruct H as [-> | ->]; [reflexivity|].
      destruct (getTime (expiresAt td)); reflexivity. }
    rewrite Hb. simpl. split; [reflexivity|apply JsMap_get_delete_same].
Qed.

Lemma isTokenValid_reading_witness :
  JsMap.get (TokenService.getKey "u1" "zerodha")
    (tokenStore (sync_world [("u1:zerodha", stale_token)] sample_adapter))
  = Some stale_token /\
  (forall e s,
      expiresAt stale_token = Some e ->
      parseInt10 sample_js
        (or_string
           (env_TOKEN_REFRESH_SKEW_MS
              (sync_world [("u1:zerodha", stale_token)] sample_adapter))
           "30000")
      = Finite (inject_Z s) ->
      (Z.abs (e - s) <= max_time)%Z ->
      fst (TokenService.isTokenValid sample_js "u1" "zerodha"
             (sync_world [("u1:zerodha", stale_token)] sample_adapter))
      = Done (wallClock
                (sync_world [("u1:zerodha", stale_token)] sample_adapter)
                (clockReads
                   (sync_world [("u1:zerodha", stale_token)] sample_adapter))
              <? e - s)%Z).
Proof.
  split; [reflexivity|].
  apply (isTokenValid_reading sample_js "u1" "zerodha"
           (sync_world [("u1:zerodha", stale_token)] sample_adapter)
           stale_token).
  reflexivity.
Defined.

(** ** Statistics *)

Lemma count_tokens js tokens : forall counts w,
  exists counts' w',
    fold_each tokens counts
      (fun counts tokenData =>
         (now <- Date_now ;;
          skew <- TokenService.skewMs js ;;
          if TokenService.before_expiry now skew tokenData
          then pure (S (fst counts), snd counts)
          else pure (fst counts, S (snd counts)))%sync) w
    = (Done counts', w') /\
    fst counts' + snd counts' = fst counts + snd counts + List.length tokens /\
    tokenStore w' = tokenStore w /\
    adapters w' = adapters w /\
    brokerCalls w' = brokerCalls w /\
    clockReads w' = clockReads w + List.length tokens.
Proof.
  induction tokens as [|td r IH]; intros counts w.
  - exists counts, w. simpl. repeat split; lia.
  - cbn [fold_each]. unfold andThen at 1.
    unfold andThen at 1. unfold Date_now at 1.
    unfold andThen at 1. unfold TokenService.skewMs at 1.
    cbn [env_TOKEN_REFRESH_SKEW_MS].
    match goal with
    | |- context [TokenService.before_expiry ?n ?s td] =>
        destruct (TokenService.before_expiry n s td)
    end; unfold pure at 1;
      match goal with
      | |- context [fold_each r ?c _ ?w1] =>
          destruct (IH c w1) as [c' [w' [Hrun [Hsum [Hst [Had [Hbc Hcl]]]]]]]
      end;
      exists c', w'; (split; [exact Hrun|]);
      simpl in *; repeat split; try assumption; lia.
Qed.

(** X11. [getTokenStats] counts every stored token exactly once, as
    valid or as expired: the two counts add up to [totalTokens], which
    is the size of the store; it changes no token and reads the clock
    once per token. *)
Theorem getTokenStats_partition :
  forall (js : JsRuntime) (w : SyncWorld),
    exists stats w',
      TokenService.getTokenStats js w = (Done stats, w') /\
      TokenService.validTokens stats + TokenService.expiredTokens stats
      = TokenService.totalTokens stats /\
      TokenService.totalTokens stats = JsMap.size (tokenStore w) /\
      tokenStore w' = tokenStore w /\
      clockReads w' = clockReads w + JsMap.size (tokenStore w).
Proof.
  intros js w. unfold TokenService.getTokenStats. unfold andThen at 1.
  destruct (count_tokens js (JsMap.values (tokenStore w)) (0, 0) w)
    as [c' [w' [Hrun [Hsum [Hst [_ [_ Hcl]]]]]]].
  rewrite Hrun. do 2 eexists. split; [reflexivity|].
  unfold JsMap.values, JsMap.size in *. rewrite length_map in Hsum, Hcl.
  cbn [TokenService.validTokens TokenService.expiredTokens
         TokenService.totalTokens].
  rewrite Hst. simpl in Hsum. repeat split; lia.
Qed.

(** * Beyond the claims: the sync service *)

(** X12. [getValidToken] has two outcomes.  If the stored token is
    judged valid, its access token is returned, no broker is called and
    the store is left as it was.  Otherwise the adapter's
    [refreshToken] is called exactly once, and always with the empty
    string -- a stale token has been deleted by the validity check
    before it is read back --; the refreshed token is stored and its
    access token returned, or, if the adapter throws, the error
    "Authentication failed: <message>" is thrown and no token is
    stored for the pair. *)
Theorem getValidToken_outcomes :
  forall (js : JsRuntime) (userId brokerName : string)
         (adapter : IBrokerAdapter.t) (w : SyncWorld),
    exists r w',
      SyncService.getValidToken js userId brokerName adapter w = (r, w') /\
      ((fst (TokenService.isTokenValid js userId brokerName w) = Done true /\
        (exists tokenData,
            JsMap.get (TokenService.getKey userId brokerName) (tokenStore w)
            = Some tokenData /\
            r = Done (accessToken tokenData)) /\
        brokerCalls w' = brokerCalls w /\
        tokenStore w' = tokenStore w)
       \/
       (fst (TokenService.isTokenValid js userId brokerName w) = Done false /\
        brokerCalls w' =
          brokerCalls w
          ++ [CallRefreshToken (IBrokerAdapter.getName adapter) ""] /\
        match IBrokerAdapter.refreshToken adapter (brokerCalls w) "" with
        | Done newTokenData =>
            r = Done (accessToken newTokenData) /\
            JsMap.get (TokenService.getKey userId brokerName) (tokenStore w')
            = Some newTokenData
        | Raised message =>
            r = Raised ("Authentication failed: " ++ message) /\
            JsMap.get (TokenService.getKey userId brokerName) (tokenStore w')
            = None
        end)).
Proof.
  intros js u b adapter w.
  unfold SyncService.getValidToken. unfold andThen at 1.
  rewrite isTokenValid_run.
  destruct (JsMap.get (TokenService.getKey u b) (tokenStore w)) as [td|] eqn:Hg.
  - cbv zeta.
    destruct (TokenService.before_expiry _ _ td) eqn:Hb.
    + (* valid *)
      unfold andThen, TokenService.getToken; cbn [tokenStore]. rewrite Hg.
      do 2 eexists. split; [reflexivity|]. left.
      cbn [fst]. repeat split. exists td. auto.
    + (* expired: deleted, then refreshed with "" *)
      unfold andThen at 1. unfold pure at 1.
      unfold andThen at 1. unfold TokenService.getToken at 1.
      cbn [tokenStore with_tokenStore].
      rewrite JsMap_get_delete_same. cbn [option_map or_string].
      unfold catch, andThen, broker_call.
      cbn [brokerCalls with_tokenStore].
      destruct (IBrokerAdapter.refreshToken adapter (brokerCalls w) "")
        as [td'|m] eqn:Hr.
      * do 2 eexists. split; [reflexivity|]. right.
        cbn [fst brokerCalls tokenStore TokenService.setToken snd
               with_tokenStore].
        repeat split. apply JsMap_get_set_same.
      * do 2 eexists. split; [reflexivity|]. right.
        cbn [fst brokerCalls tokenStore]. repeat split.
        apply JsMap_get_delete_same.
  - unfold andThen at 1. unfold pure at 1.
    unfold andThen at 1. unfold TokenService.getToken at 1.
    rewrite Hg. cbn [option_map or_string].
    unfold catch, andThen, broker_call.
    destruct (IBrokerAdapter.refreshToken adapter (brokerCalls w) "")
      as [td'|m] eqn:Hr.
    + do 2 eexists. split; [reflexivity|]. right.
      cbn [fst brokerCalls tokenStore TokenService.setToken snd
             with_tokenStore].
      repeat split. apply JsMap_get_set_same.
    + do 2 eexists. split; [reflexivity|]. right.
      cbn [fst brokerCalls tokenStore]. repeat split. exact Hg.
Qed.

(** ** Clearing a user's tokens *)

Lemma prefix_append p s : String.prefix p (p ++ s) = true.
Proof.
  induction p as [|c p IH]; simpl.
  - destruct s; reflexivity.
  - destruct (Ascii.ascii_dec c c) as [_|H]; [exact IH|congruence].
Qed.

Lemma prefix_cons a s1 b s2 :
  String.prefix (String a s1) (String b s2) =
  if Ascii.eqb a b then String.prefix s1 s2 else false.
Proof.
  cbn [String.prefix].
  destruct (Ascii.ascii_dec a b) as [->|Hne].
  - rewrite Ascii.eqb_refl. reflexivity.
  - apply Ascii.eqb_neq in Hne. rewrite Hne. reflexivity.
Qed.

Lemma prefix_user_key u u' b' :
  occurs colon u = false -> occurs colon u' = false ->
  String.prefix (u ++ ":") (TokenService.getKey u' b') = true -> u = u'.
Proof.
  unfold TokenService.getKey.
  revert u'. induction u as [|c u IH]; intros [|c' u'] Hu Hu' Hp.
  - reflexivity.
  - cbn [append] in Hp. rewrite prefix_cons in Hp.
    cbn [occurs] in Hu'. apply orb_false_elim in Hu'.
    destruct Hu' as [Hc _]. unfold colon in Hc.
    rewrite Ascii.eqb_sym, Hc in Hp. discriminate.
  - cbn [append] in Hp. rewrite prefix_cons in Hp.
    cbn [occurs] in Hu. apply orb_false_elim in Hu.
    destruct Hu as [Hc _]. unfold colon in Hc.
    rewrite Hc in Hp. discriminate.
  - cbn [append] in Hp. rewrite prefix_cons in Hp.
    cbn [occurs] in Hu, Hu'. apply orb_false_elim in Hu, Hu'.
    destruct (Ascii.eqb_spec c c') as [->|_]; [|discriminate].
    f_equal. apply IH; tauto.
Qed.

Lemma split_colon_free b :
  occurs colon b = false -> split_on colon b = [b].
Proof.
  induction b as [|c b IH]; simpl; intros H; [reflexivity|].
  apply orb_false_elim in H. destruct H as [Hc Hb].
  rewrite Hc, (IH Hb). reflexivity.
Qed.

Lemma split_user_key u b :
  occurs colon u = false -> occurs colon b = false ->
  split_on colon (TokenService.getKey u b) = [u; b].
Proof.
  unfold TokenService.getKey. intros Hu Hb.
  change (":" ++ b)%string with (String ":" b).
  induction u as [|c u IH].
  - cbn [append split_on].
    change (Ascii.eqb ":" colon) with true. cbv iota.
    rewrite (split_colon_free b Hb). reflexivity.
  - cbn [occurs] in Hu. apply orb_false_elim in Hu. destruct Hu as [Hc Hu].
    cbn [append split_on]. rewrite Hc, (IH Hu). reflexivity.
Qed.

(** The brokers [getUserTokens] finds. *)
Lemma collect_user_token_keys u b (store : list (string * TokenData)) :
  occurs colon u = false -> occurs colon b = false ->
  forall acc,
    In b (JsMap.keys acc) \/ In (TokenService.getKey u b) (JsMap.keys store) ->
    In b (JsMap.keys (fold_left (TokenService.collect_user_token u) store acc)).
Proof.
  intros Hu Hb. induction store as [|[key td] r IH]; intros acc H;
    cbn [fold_left].
  - destruct H as [H|[]]. exact H.
  - apply IH. unfold TokenService.collect_user_token.
    destruct H as [H|[H|H]].
    + left. destruct (String.prefix (u ++ ":") key); [|exact H].
      destruct (nth_error (split_on colon key) 1); [|exact H].
      apply JsMap_keys_set. right. exact H.
    + left. cbn [fst] in H. subst key.
      assert (String.prefix (u ++ ":") (TokenService.getKey u b) = true)
        as Hp.
      { unfold TokenService.getKey.
        rewrite <- append_assoc_string. apply prefix_append. }
      rewrite Hp, (split_user_key u b Hu Hb). cbn [nth_error].
      apply JsMap_keys_set. left. reflexivity.
    + right. exact H.
Qed.

Lemma JsMap_get_delete_none {V} k k' (m : list (string * V)) :
  JsMap.get k m = None -> JsMap.get k (JsMap.delete k' m) = None.
Proof.
  intros H. destruct (String.eqb_spec k k') as [->|Hne].
  - apply JsMap_get_delete_same.
  - rewrite JsMap_get_delete_other by exact Hne. exact H.
Qed.

Lemma remove_each_run u brokers : forall w,
  for_each brokers (fun b => TokenService.removeToken u b) w =
  (Done tt,
   with_tokenStore w
     (fold_left (fun m b => JsMap.delete (TokenService.getKey u b) m)
                brokers (tokenStore w))).
Proof.
  induction brokers as [|b r IH]; intros w; simpl.
  - unfold pure, with_tokenStore. destruct w; reflexivity.
  - unfold andThen, TokenService.removeToken. rewrite IH. reflexivity.
Qed.

Lemma get_after_removals u brokers k : forall (m : list (string * TokenData)),
  (In k (map (TokenService.getKey u) brokers) ->
   JsMap.get k (fold_left (fun m b => JsMap.delete (TokenService.getKey u b) m)
                          brokers m) = None) /\
  (~ In k (map (TokenService.getKey u) brokers) ->
   JsMap.get k (fold_left (fun m b => JsMap.delete (TokenService.getKey u b) m)
                          brokers m) = JsMap.get k m) /\
  (JsMap.get k m = None ->
   JsMap.get k (fold_left (fun m b => JsMap.delete (TokenService.getKey u b) m)
                          brokers m) = None).
Proof.
  induction brokers as [|b r IH]; intros m; simpl.
  - tauto.
  - destruct (IH (JsMap.delete (TokenService.getKey u b) m)) as [H1 [H2 H3]].
    split; [|split].
    + intros [<-|H]; [|auto]. apply H3, JsMap_get_delete_same.
    + intros Hn. rewrite H2 by tauto.
      apply JsMap_get_delete_other. intros ->. tauto.
    + intros Hnone. apply H3, JsMap_get_delete_none, Hnone.
Qed.

(** X13. [clearUserTokens] on a store whose keys are made of user ids
    and broker names without a colon: afterwards no token is stored for
    the user under any broker name, every other user's tokens are as
    before, and no broker was called. *)
Theorem clearUserTokens_clears_exactly :
  forall (userId : string) (w : SyncWorld),
    occurs colon userId = false ->
    (forall key,
        In key (JsMap.keys (tokenStore w)) ->
        exists u b, key = TokenService.getKey u b /\
                    occurs colon u = false /\ occurs colon b = false) ->
    exists w',
      SyncService.clearUserTokens userId w = (Done tt, w') /\
      (forall brokerName,
          JsMap.get (TokenService.getKey userId brokerName) (tokenStore w')
          = None) /\
      (forall userId' brokerName',
          occurs colon userId' = false ->
          userId' <> userId ->
          JsMap.get (TokenService.getKey userId' brokerName') (tokenStore w')
          = JsMap.get (TokenService.getKey userId' brokerName') (tokenStore w))
      /\
      brokerCalls w' = brokerCalls w /\
      adapters w' = adapters w.
Proof.
  intros u w Hu Hwf.
  unfold SyncService.clearUserTokens, andThen, TokenService.getUserTokens.
  rewrite remove_each_run.
  eexists. split; [reflexivity|].
  cbn [tokenStore with_tokenStore brokerCalls adapters].
  set (brokers := JsMap.keys
                    (fold_left (TokenService.collect_user_token u)
                               (tokenStore w) [])).
  split; [|split; [|split; reflexivity]].
  - intros b.
    destruct (get_after_removals u brokers (TokenService.getKey u b)
                (tokenStore w)) as [H1 [_ H3]].
    destruct (JsMap.get (TokenService.getKey u b) (tokenStore w))
      as [td|] eqn:Hg; [|apply H3; reflexivity].
    apply H1.
    assert (In (TokenService.getKey u b) (JsMap.keys (tokenStore w))) as Hin
      by (apply JsMap_get_In; congruence).
    destruct (Hwf _ Hin) as [u' [b' [E [Hu' Hb']]]].
    destruct (getKey_inj u b u' b' Hu Hu' E) as [<- <-].
    apply in_map. unfold brokers.
    apply collect_user_token_keys; auto.
  - intros u' b' Hu' Hne.
    destruct (get_after_removals u brokers (TokenService.getKey u' b')
                (tokenStore w)) as [_ [H2 _]].
    apply H2. intros Hin. apply in_map_iff in Hin.
    destruct Hin as [b [E _]].
    destruct (getKey_inj u b u' b' Hu Hu' E) as [-> _]. congruence.
Qed.

Lemma clearUserTokens_clears_exactly_witness :
  occurs colon "u1" = false /\
  (forall key,
      In key (JsMap.keys
                (tokenStore
                   (sync_world [("u1:zerodha", stale_token);
                                ("u2:zerodha", sample_token);
                                ("u1:metatrader", sample_token)]
                               sample_adapter))) ->
      exists u b, key = TokenService.getKey u b /\
                  occurs colon u = false /\ occurs colon b = false) /\
  exists w',
    SyncService.clearUserTokens "u1"
      (sync_world [("u1:zerodha", stale_token);
                   ("u2:zerodha", sample_token);
                   ("u1:metatrader", sample_token)] sample_adapter)
    = (Done tt, w') /\
    (forall brokerName,
        JsMap.get (TokenService.getKey "u1" brokerName) (tokenStore w')
        = None).
Proof.
  assert (forall key,
      In key (JsMap.keys
                (tokenStore
                   (sync_world [("u1:zerodha", stale_token);
                                ("u2:zerodha", sample_token);
                                ("u1:metatrader", sample_token)]
                               sample_adapter))) ->
      exists u b, key = TokenService.getKey u b /\
                  occurs colon u = false /\ occurs colon b = false) as Hwf.
  { intros key [<-|[<-|[<-|[]]]].
    - exists "u1", "zerodha". repeat split.
    - exists "u2", "zerodha". repeat split.
    - exists "u1", "metatrader". repeat split. }
  split; [reflexivity|]. split; [exact Hwf|].
  destruct (clearUserTokens_clears_exactly "u1"
              (sync_world [("u1:zerodha", stale_token);
                           ("u2:zerodha", sample_token);
                           ("u1:metatrader", sample_token)] sample_adapter)
              eq_refl Hwf) as [w' [Hrun [Hnone _]]].
  exists w'. split; [exact Hrun|exact Hnone].
Defined.

(** * Beyond the claims: the adapter registry *)

Lemma JsMap_has_get {V} k (m : list (string * V)) :
  JsMap.has k m = true <-> exists v, JsMap.get k m = Some v.
Proof.
  unfold JsMap.has. destruct (JsMap.get k m) as [v|].
  - split; [eauto|reflexivity].
  - split; [discriminate|intros [v H]; discriminate].
Qed.

(** X14. Registering an adapter under a lower-case name and looking it
    up round-trip: any spelling of the broker name whose lower-case form
    is the adapter's name finds that adapter and is reported as
    supported; after [unregisterAdapter] with such a spelling, which
    answers true, the broker is no longer supported and [getAdapter]
    throws "Unknown broker: ...". *)
Theorem registry_round_trip :
  forall (js : JsRuntime) (adapter : IBrokerAdapter.t) (brokerName : string)
         (w : SyncWorld),
    toLowerCase js brokerName = IBrokerAdapter.getName adapter ->
    let registered := snd (AdapterRegistry.registerAdapter adapter w) in
    let unregistered :=
      snd (AdapterRegistry.unregisterAdapter js brokerName registered) in
    AdapterRegistry.getAdapter js brokerName registered
      = (Done adapter, registered) /\
    fst (AdapterRegistry.isBrokerSupported js brokerName registered)
      = Done true /\
    fst (AdapterRegistry.unregisterAdapter js brokerName registered)
      = Done true /\
    fst (AdapterRegistry.isBrokerSupported js brokerName unregistered)
      = Done false /\
    exists message,
      fst (AdapterRegistry.getAdapter js brokerName unregistered)
        = Raised message /\
      String.prefix ("Unknown broker: " ++ brokerName) message = true.
Proof.
  intros js adapter b w Hname. cbv zeta.
  unfold AdapterRegistry.getAdapter, AdapterRegistry.isBrokerSupported,
    AdapterRegistry.unregisterAdapter, AdapterRegistry.registerAdapter,
    JsMap.has.
  cbn [fst snd adapters with_adapters].
  rewrite Hname, JsMap_get_set_same, JsMap_get_delete_same.
  repeat split.
  eexists. split; [reflexivity|].
  rewrite <- append_assoc_string. apply prefix_append.
Qed.

Lemma registry_round_trip_witness :
  toLowerCase sample_js "Zerodha" = IBrokerAdapter.getName sample_adapter /\
  AdapterRegistry.getAdapter sample_js "Zerodha"
    (snd (AdapterRegistry.registerAdapter sample_adapter
            (sync_world [] refusing_adapter)))
  = (Done sample_adapter,
     snd (AdapterRegistry.registerAdapter sample_adapter
            (sync_world [] refusing_adapter))).
Proof.
  split; [reflexivity|].
  apply (registry_round_trip sample_js sample_adapter "Zerodha"
           (sync_world [] refusing_adapter)).
  reflexivity.
Defined.

(** X15. [registerAdapter] files an adapter under its name as it is,
    while every lookup lower-cases the name it is given.  So an adapter
    whose name is not its own lower-case form is listed by
    [getAvailableBrokers] but can never be looked up: for every broker
    name, [isBrokerSupported] and the adapter found by [getAdapter] are
    what they were before the registration. *)
Theorem mixed_case_adapter_unreachable :
  forall (js : JsRuntime) (adapter : IBrokerAdapter.t) (w : SyncWorld),
    (forall s, toLowerCase js (toLowerCase js s) = toLowerCase js s) ->
    toLowerCase js (IBrokerAdapter.getName adapter)
      <> IBrokerAdapter.getName adapter ->
    let registered := snd (AdapterRegistry.registerAdapter adapter w) in
    (exists names,
        fst (AdapterRegistry.getAvailableBrokers registered) = Done names /\
        In (IBrokerAdapter.getName adapter) names) /\
    forall brokerName,
      fst (AdapterRegistry.isBrokerSupported js brokerName registered)
        = fst (AdapterRegistry.isBrokerSupported js brokerName w) /\
      forall found,
        fst (AdapterRegistry.getAdapter js brokerName registered) = Done found
        <-> fst (AdapterRegistry.getAdapter js brokerName w) = Done found.
Proof.
  intros js adapter w Hidem Hmixed. cbv zeta.
  unfold AdapterRegistry.getAvailableBrokers, AdapterRegistry.getAdapter,
    AdapterRegistry.isBrokerSupported, AdapterRegistry.registerAdapter,
    JsMap.has.
  cbn [fst snd adapters with_adapters].
  split.
  - eexists. split; [reflexivity|]. apply JsMap_keys_set. left. reflexivity.
  - intros b.
    assert (toLowerCase js b <> IBrokerAdapter.getName adapter) as Hne.
    { intros E. apply Hmixed. rewrite <- E. apply Hidem. }
    rewrite (JsMap_get_set_other _ _ _ _ Hne).
    split; [reflexivity|]. intros found.
    destruct (JsMap.get (toLowerCase js b) (adapters w)); cbn [fst];
      split; intros H; try discriminate; exact H.
Qed.

Lemma ascii_lower_idempotent c : ascii_lower (ascii_lower c) = ascii_lower c.
Proof.
  destruct c as [[] [] [] [] [] [] [] []]; reflexivity.
Qed.

Lemma sample_toLowerCase_idempotent s :
  toLowerCase sample_js (toLowerCase sample_js s) = toLowerCase sample_js s.
Proof.
  cbn [toLowerCase sample_js].
  induction s as [|c s IH]; cbn [map_chars]; [reflexivity|].
  rewrite ascii_lower_idempotent, IH. reflexivity.
Qed.

Lemma mixed_case_adapter_unreachable_witness :
  (forall s,
      toLowerCase sample_js (toLowerCase sample_js s)
      = toLowerCase sample_js s) /\
  toLowerCase sample_js
    (IBrokerAdapter.getName
       (IBrokerAdapter.mk "MetaTrader" (fun _ _ => Done [])
          (fun _ _ => Raised "no") (fun _ => false) None))
  <> IBrokerAdapter.getName
       (IBrokerAdapter.mk "MetaTrader" (fun _ _ => Done [])
          (fun _ _ => Raised "no") (fun _ => false) None) /\
  forall brokerName,
    fst (AdapterRegistry.isBrokerSupported sample_js brokerName
           (snd (AdapterRegistry.registerAdapter
                   (IBrokerAdapter.mk "MetaTrader" (fun _ _ => Done [])
                      (fun _ _ => Raised "no") (fun _ => false) None)
                   (sync_world [] sample_adapter))))
    = fst (AdapterRegistry.isBrokerSupported sample_js brokerName
             (sync_world [] sample_adapter)).
Proof.
  split; [exact sample_toLowerCase_idempotent|].
  split; [discriminate|].
  intros brokerName.
  apply (mixed_case_adapter_unreachable sample_js
           (IBrokerAdapter.mk "MetaTrader" (fun _ _ => Done [])
              (fun _ _ => Raised "no") (fun _ => false) None)
           (sync_world [] sample_adapter)
           sample_toLowerCase_idempotent).
  discriminate.
Defined.


(** * Beyond the claims: the normalisation helpers *)

Lemma ticks_only_refl (w : SyncWorld) : ticks_only w w.
Proof. unfold ticks_only. repeat split; auto. Qed.

Lemma ticks_only_trans (w1 w2 w3 : SyncWorld) :
  ticks_only w1 w2 -> ticks_only w2 w3 -> ticks_only w1 w3.
Proof.
  unfold ticks_only.
  intros (A1 & A2 & A3 & A4 & A5 & A6 & A7) (B1 & B2 & B3 & B4 & B5 & B6 & B7).
  repeat split; try congruence. lia.
Qed.

Lemma Date_now_ticks (w : SyncWorld) : ticks_only w (snd (Date_now w)).
Proof. unfold ticks_only, Date_now. cbn. repeat split; auto. Qed.

Lemma optional_toString_run (js : JsRuntime) (v : option Json)
      (w : SyncWorld) :
  (exists o, optional_toString js v w = (Done o, w)) \/
  optional_toString js v w = (Raised "TypeError", w).
Proof.
  unfold optional_toString, pure, throw.
  destruct v as [[| b | q | s | l | l] |];
    try (left; eexists; reflexivity);
    destruct (js_toString js _); (left; eexists; reflexivity) || (right; reflexivity).
Qed.

Lemma first_truthy_or_now_run (js : JsRuntime) (a b : option Json)
      (w : SyncWorld) :
  exists t w',
    first_truthy_or_now js a b w = (Done t, w') /\ ticks_only w w'.
Proof.
  assert (Hnow : exists t w',
             andThen Date_now
               (fun now => pure (JStr (Date_toISOString js now))) w
             = (Done t, w') /\ ticks_only w w').
  { unfold andThen, pure. cbn. do 2 eexists. split; [reflexivity|].
    apply (Date_now_ticks w). }
  unfold first_truthy_or_now.
  destruct a as [x|], b as [y|];
    repeat match goal with
           | |- context [if ?c then _ else _] => destruct c
           end;
    try exact Hnow;
    unfold pure; do 2 eexists; (split; [reflexivity | apply ticks_only_refl]).
Qed.

Lemma or_string_nonempty (v : option string) (d : string) :
  d <> ""%string -> or_string v d <> ""%string.
Proof.
  intros Hd. unfold or_string. destruct v as [s|]; auto.
  destruct (String.eqb s "") eqn:E; auto.
  apply String.eqb_neq in E. exact E.
Qed.

Lemma zerodha_symbol_run (js : JsRuntime) (raw : RawTrade) (w : SyncWorld) :
  (exists s, zerodha_symbol js raw w = (Done s, w) /\
             truthy (Some s) = true) \/
  zerodha_symbol js raw w = (Raised "TypeError", w).
Proof.
  unfold zerodha_symbol.
  destruct (truthy (field "tradingsymbol" raw)) eqn:T.
  - left. destruct (field "tradingsymbol" raw) as [x|]; [|discriminate].
    exists x. split; [reflexivity | exact T].
  - unfold andThen.
    destruct (optional_toString_run js (field "instrument_token" raw) w)
      as [[o Ho] | Hr]; rewrite ?Ho, ?Hr.
    + left. eexists. split; [reflexivity|].
      cbn [truthy]. apply Bool.negb_true_iff, String.eqb_neq.
      apply or_string_nonempty. discriminate.
    + right. reflexivity.
Qed.

Lemma zerodha_side_run (js : JsRuntime) (raw : RawTrade) (w : SyncWorld) :
  (exists s, zerodha_side js raw w = (Done s, w) /\
             (s = "BUY" \/ s = "SELL")%string) \/
  zerodha_side js raw w = (Raised "TypeError", w).
Proof.
  unfold zerodha_side, pure, throw.
  destruct (field "transaction_type" raw) as [[| b | q | s | l | l] |];
    try (right; reflexivity);
    try (left; eexists; split; [reflexivity | left; reflexivity]).
  left. eexists. split; [reflexivity|].
  destruct (String.eqb _ _); auto.
Qed.

(** What a normaliser may answer: a trade with a truthy symbol and a
    side that is BUY or SELL, or the one failure message. *)
Lemma normalizeZerodhaTrade_run (js : JsRuntime) (raw : RawTrade)
      (w : SyncWorld) :
  exists r w',
    normalizeZerodhaTrade js raw w = (r, w') /\ ticks_only w w' /\
    match r with
    | Done t => truthy (Some (symbol t)) = true /\
                (side t = "BUY" \/ side t = "SELL")%string
    | Raised m => m = "Failed to normalize Zerodha trade data"%string
    end.
Proof.
  unfold normalizeZerodhaTrade, catch, throw.
  unfold andThen at 1.
  destruct (zerodha_symbol_run js raw w) as [[s [Hs Ts]] | Hr];
    rewrite ?Hs, ?Hr;
    [| do 2 eexists; split; [reflexivity | split; [apply ticks_only_refl | reflexivity]]].
  unfold andThen at 1.
  destruct (optional_toString_run js (field "quantity" raw) w)
    as [[q Hq] | Hr]; rewrite ?Hq, ?Hr;
    [| do 2 eexists; split; [reflexivity | split; [apply ticks_only_refl | reflexivity]]].
  unfold andThen at 1.
  destruct (optional_toString_run js (field "average_price" raw) w)
    as [[p Hp] | Hr]; rewrite ?Hp, ?Hr;
    [| do 2 eexists; split; [reflexivity | split; [apply ticks_only_refl | reflexivity]]].
  unfold andThen at 1.
  destruct (first_truthy_or_now_run js (field "order_timestamp" raw)
              (field "exchange_timestamp" raw) w) as (t & w1 & Ht & Hw).
  rewrite Ht.
  unfold andThen at 1.
  destruct (zerodha_side_run js raw w1) as [[sd [Hsd Hor]] | Hr];
    rewrite ?Hsd, ?Hr;
    [| do 2 eexists; split; [reflexivity | split; [exact Hw | reflexivity]]].
  unfold pure. do 2 eexists. split; [reflexivity|]. split; [exact Hw|].
  cbn [symbol side]. split; assumption.
Qed.

Lemma double_positive_abs (d : JsDouble) :
  double_positive d = true -> double_positive (Math_abs d) = true.
Proof.
  destruct d as [q | | |]; cbn; auto.
  intros H. apply Qlt_bool_iff in H. apply Qlt_bool_iff.
  rewrite Qabs_pos by (apply Qlt_le_weak; exact H). exact H.
Qed.

Lemma normalizeMetaTraderTrade_run (js : JsRuntime) (raw : RawTrade)
      (w : SyncWorld) :
  exists r w',
    normalizeMetaTraderTrade js raw w = (r, w') /\ ticks_only w w' /\
    match r with
    | Done t =>
        (side t = "BUY" /\ double_positive (quantity t) = true \/
         side t = "SELL")%string /\
        exists volumeText,
          optional_toString js (field "volume" raw) w = (Done volumeText, w) /\
          quantity t = Math_abs (parseFloat js (or_string volumeText "0")) /\
          side t =
            (if double_positive (parseFloat js (or_string volumeText "0"))
             then "BUY" else "SELL")%string
    | Raised m => m = "Failed to normalize MetaTrader trade data"%string
    end.
Proof.
  unfold normalizeMetaTraderTrade, catch, throw.
  cbv zeta.
  unfold andThen at 1.
  destruct (optional_toString_run js (field "volume" raw) w)
    as [[q Hq] | Hr]; rewrite ?Hq, ?Hr;
    [| do 2 eexists; split; [reflexivity | split; [apply ticks_only_refl | reflexivity]]].
  unfold andThen at 1.
  destruct (optional_toString_run js (field "price" raw) w)
    as [[p Hp] | Hr]; rewrite ?Hp, ?Hr;
    [| do 2 eexists; split; [reflexivity | split; [apply ticks_only_refl | reflexivity]]].
  unfold andThen at 1.
  destruct (first_truthy_or_now_run js (field "time" raw)
              (field "close_time" raw) w) as (t & w1 & Ht & Hw).
  rewrite Ht.
  unfold andThen at 1.
  destruct (optional_toString_run js (field "volume" raw) w1)
    as [[q' Hq'] | Hr]; rewrite ?Hq', ?Hr;
    [| do 2 eexists; split; [reflexivity | split; [exact Hw | reflexivity]]].
  unfold pure. do 2 eexists. split; [reflexivity|]. split; [exact Hw|].
  cbn [side quantity].
  assert (q' = q) as ->.
  { revert Hq Hq'. unfold optional_toString, pure, throw.
    destruct (field "volume" raw) as [[| b | z | s | l | l] |];
      try congruence;
      destruct (js_toString js _); congruence. }
  split.
  - destruct (double_positive (parseFloat js (or_string q "0"))) eqn:E.
    + left. split; [reflexivity|]. apply double_positive_abs. exact E.
    + right. reflexivity.
  - exists q. split; [reflexivity|]. split; reflexivity.
Qed.

(** X16.  [normalizeTrade] answers a trade whose side is BUY or SELL, or
    throws one of three messages: the Zerodha failure, the MetaTrader
    failure, or "Unknown broker: " followed by the broker name as it was
    given.  It changes nothing but the number of clock readings. *)
Theorem normalizeTrade_outcomes (js : JsRuntime) (raw : RawTrade)
        (brokerName : string) (w : SyncWorld) :
  exists r w',
    normalizeTrade js raw brokerName w = (r, w') /\ ticks_only w w' /\
    match r with
    | Done t => (side t = "BUY" \/ side t = "SELL")%string
    | Raised m =>
        (toLowerCase js brokerName = "zerodha" /\
         m = "Failed to normalize Zerodha trade data")%string \/
        (toLowerCase js brokerName = "metatrader" /\
         m = "Failed to normalize MetaTrader trade data")%string \/
        (toLowerCase js brokerName <> "zerodha" /\
         toLowerCase js brokerName <> "metatrader" /\
         m = "Unknown broker: " ++ brokerName)%string
    end.
Proof.
  unfold normalizeTrade. cbv zeta.
  destruct (String.eqb (toLowerCase js brokerName) "zerodha") eqn:Ez.
  - apply String.eqb_eq in Ez.
    destruct (normalizeZerodhaTrade_run js raw w) as (r & w' & Hr & Hw & Hc).
    exists r, w'. split; [exact Hr|]. split; [exact Hw|].
    destruct r as [t|m]; [tauto | left; split; assumption].
  - apply String.eqb_neq in Ez.
    destruct (String.eqb (toLowerCase js brokerName) "metatrader") eqn:Em.
    + apply String.eqb_eq in Em.
      destruct (normalizeMetaTraderTrade_run js raw w)
        as (r & w' & Hr & Hw & Hc).
      exists r, w'. split; [exact Hr|]. split; [exact Hw|].
      destruct r as [t|m]; [tauto | right; left; split; assumption].
    + apply String.eqb_neq in Em.
      exists (Raised ("Unknown broker: " ++ brokerName)%string), w.
      split; [reflexivity|]. split; [apply ticks_only_refl|].
      right; right. repeat split; assumption.
Qed.

(** X17.  The side of a MetaTrader trade follows the sign of its
    volume, the number [parseFloat] reads from the volume's text ("0"
    when there is none): BUY exactly for a positive volume, SELL for a
    negative one, for zero and for one that is not a number; the
    quantity is the absolute volume, so a BUY has a positive
    quantity. *)
Theorem metatrader_side_follows_volume (js : JsRuntime)
        (raw : RawTrade) (w w' : SyncWorld) (t : NormalizedTrade) :
  normalizeMetaTraderTrade js raw w = (Done t, w') ->
  exists volumeText,
    optional_toString js (field "volume" raw) w = (Done volumeText, w) /\
    quantity t = Math_abs (parseFloat js (or_string volumeText "0")) /\
    side t =
      (if double_positive (parseFloat js (or_string volumeText "0"))
       then "BUY" else "SELL")%string /\
    (side t = "BUY"%string -> double_positive (quantity t) = true) /\
    (forall q, parseFloat js (or_string volumeText "0") = Finite q ->
               (q <= 0)%Q -> side t = "SELL"%string).
Proof.
  intros Hrun.
  destruct (normalizeMetaTraderTrade_run js raw w) as (r & w1 & Hr & _ & Hc).
  rewrite Hrun in Hr. injection Hr as <- <-.
  destruct Hc as [Hside (volumeText & Hv & Hq & Hs)].
  exists volumeText. split; [exact Hv|]. split; [exact Hq|].
  split; [exact Hs|]. split.
  - intros Hbuy. destruct Hside as [[_ Hpos] | Hsell]; [exact Hpos|].
    rewrite Hsell in Hbuy. discriminate.
  - intros q Hfin Hle. rewrite Hs, Hfin. cbn [double_positive].
    destruct (Qlt_bool 0 q) eqn:E; [|reflexivity].
    apply Qlt_bool_iff in E. exfalso.
    apply (Qlt_irrefl 0). eapply Qlt_le_trans; eauto.
Qed.

Lemma metatrader_side_follows_volume_witness :
  exists t w',
    normalizeMetaTraderTrade sample_js sample_short_deal
      (sync_world [] sample_adapter) = (Done t, w') /\
    exists volumeText,
      optional_toString sample_js (field "volume" sample_short_deal)
        (sync_world [] sample_adapter)
      = (Done volumeText, sync_world [] sample_adapter) /\
      quantity t = Math_abs (parseFloat sample_js (or_string volumeText "0")) /\
      side t =
        (if double_positive (parseFloat sample_js (or_string volumeText "0"))
         then "BUY" else "SELL")%string /\
      (side t = "BUY"%string -> double_positive (quantity t) = true) /\
      (forall q,
          parseFloat sample_js (or_string volumeText "0") = Finite q ->
          (q <= 0)%Q -> side t = "SELL"%string).
Proof.
  eexists. eexists.
  split; [reflexivity|].
  apply (metatrader_side_follows_volume sample_js sample_short_deal
           (sync_world [] sample_adapter) (sync_world [] sample_adapter)
           {| symbol := JStr "EURUSD";
              quantity := Finite (Qabs (- (inject_Z 0 + (5 # 10))));
              price := Finite (inject_Z 1 + (8 # 100));
              timestamp := JStr "2024-03-01T10:00:00.000Z";
              side := "SELL" |});
    reflexivity.
Defined.

Lemma normalizeTrade_run (js : JsRuntime) (raw : RawTrade)
      (brokerName : string) (w : SyncWorld) :
  exists r w',
    normalizeTrade js raw brokerName w = (r, w') /\ ticks_only w w' /\
    match r with
    | Done t => (side t = "BUY" \/ side t = "SELL")%string
    | Raised _ => True
    end.
Proof.
  unfold normalizeTrade. cbv zeta.
  destruct (String.eqb (toLowerCase js brokerName) "zerodha").
  - destruct (normalizeZerodhaTrade_run js raw w) as (r & w' & Hr & Hw & Hc).
    exists r, w'. split; [exact Hr|]. split; [exact Hw|].
    destruct r; tauto.
  - destruct (String.eqb (toLowerCase js brokerName) "metatrader").
    + destruct (normalizeMetaTraderTrade_run js raw w)
        as (r & w' & Hr & Hw & Hc).
      exists r, w'. split; [exact Hr|]. split; [exact Hw|].
      destruct r; tauto.
    + do 2 eexists. split; [reflexivity|].
      split; [apply ticks_only_refl | exact I].
Qed.

Lemma normalizeTrades_fold (js : JsRuntime) (brokerName : string)
      (rawTrades : list RawTrade) :
  forall (acc : list NormalizedTrade) (w : SyncWorld),
  exists l w',
    fold_each rawTrades acc
      (fun normalizedTrades rawTrade =>
         catch
           (normalizedTrade <- normalizeTrade js rawTrade brokerName ;;
            pure (normalizedTrades ++ [normalizedTrade]))%sync
           (fun _ => pure normalizedTrades)) w
    = (Done (acc ++ l), w') /\
    ticks_only w w' /\
    List.length l <= List.length rawTrades /\
    Forall (fun t => side t = "BUY" \/ side t = "SELL")%string l.
Proof.
  induction rawTrades as [|raw rest IH]; intros acc w.
  - exists [], w. cbn [fold_each]. unfold pure. rewrite app_nil_r.
    split; [reflexivity|]. split; [apply ticks_only_refl|].
    split; [apply Nat.le_refl | constructor].
  - cbn [fold_each]. unfold andThen at 1. unfold catch at 1.
    unfold andThen at 1.
    destruct (normalizeTrade_run js raw brokerName w)
      as (r & w1 & Hr & Hw & Hc).
    rewrite Hr. destruct r as [t|m].
    + unfold pure at 1.
      destruct (IH (acc ++ [t]) w1) as (l & w2 & Hl & Hw2 & Hlen & Hall).
      exists (t :: l), w2. rewrite Hl.
      split; [rewrite <- app_assoc; reflexivity|].
      split; [eapply ticks_only_trans; eauto|].
      split; [cbn [List.length]; lia | constructor; assumption].
    + unfold pure at 1.
      destruct (IH acc w1) as (l & w2 & Hl & Hw2 & Hlen & Hall).
      exists l, w2. rewrite Hl.
      split; [reflexivity|].
      split; [eapply ticks_only_trans; eauto|].
      split; [cbn [List.length]; lia | assumption].
Qed.

(** X18.  [normalizeTrades] never throws: a raw trade that cannot be
    normalised is skipped.  The result keeps the order of the input,
    is no longer than it, holds only BUY and SELL trades, and nothing
    but the number of clock readings has changed. *)
Theorem normalizeTrades_never_throws (js : JsRuntime)
        (rawTrades : list RawTrade) (brokerName : string) (w : SyncWorld) :
  exists l w',
    SyncService.normalizeTrades js rawTrades brokerName w = (Done l, w') /\
    ticks_only w w' /\
    List.length l <= List.length rawTrades /\
    Forall (fun t => side t = "BUY" \/ side t = "SELL")%string l.
Proof.
  unfold SyncService.normalizeTrades.
  destruct (normalizeTrades_fold js brokerName rawTrades [] w)
    as (l & w' & Hl & H).
  exists l, w'. split; [exact Hl | exact H].
Qed.

(** X19.  For a broker name other than zerodha and metatrader (in any
    letter case), [normalizeTrades] drops every raw trade: the result
    is empty and the world is untouched, whatever the broker sent. *)
Theorem other_broker_normalises_nothing (js : JsRuntime)
        (rawTrades : list RawTrade) (brokerName : string) (w : SyncWorld) :
  toLowerCase js brokerName <> "zerodha"%string ->
  toLowerCase js brokerName <> "metatrader"%string ->
  SyncService.normalizeTrades js rawTrades brokerName w = (Done [], w).
Proof.
  intros Hz Hm. unfold SyncService.normalizeTrades.
  generalize (@nil NormalizedTrade) as acc.
  induction rawTrades as [|raw rest IH]; intros acc.
  - reflexivity.
  - cbn [fold_each]. unfold andThen at 1. unfold catch at 1.
    unfold andThen at 1. unfold normalizeTrade at 1. cbv zeta.
    apply String.eqb_neq in Hz. apply String.eqb_neq in Hm.
    rewrite Hz, Hm. unfold throw at 1. unfold pure at 1.
    apply IH.
Qed.


Lemma other_broker_normalises_nothing_witness :
  SyncService.normalizeTrades sample_js sample_orders "Upstox"
    (sync_world [] sample_adapter)
  = (Done [], sync_world [] sample_adapter).
Proof.
  apply (other_broker_normalises_nothing sample_js sample_orders "Upstox"
           (sync_world [] sample_adapter));
    vm_compute; discriminate.
Defined.

Lemma getValidToken_run (js : JsRuntime) (userId brokerName : string)
      (adapter : IBrokerAdapter.t) (w : SyncWorld) :
  exists r w',
    SyncService.getValidToken js userId brokerName adapter w = (r, w') /\
    adapters w' = adapters w /\
    env_NODE_ENV w' = env_NODE_ENV w /\
    wallClock w' = wallClock w /\
    ((exists token, r = Done token) /\ brokerCalls w' = brokerCalls w
     \/
     brokerCalls w' =
       brokerCalls w ++ [CallRefreshToken (IBrokerAdapter.getName adapter) ""] /\
     match IBrokerAdapter.refreshToken adapter (brokerCalls w) "" with
     | Done newTokenData => r = Done (accessToken newTokenData)
     | Raised message => r = Raised ("Authentication failed: " ++ message)
     end).
Proof.
  unfold SyncService.getValidToken. unfold andThen at 1.
  rewrite isTokenValid_run.
  destruct (JsMap.get (TokenService.getKey userId brokerName) (tokenStore w))
    as [td|] eqn:Hg.
  - cbv zeta.
    destruct (TokenService.before_expiry _ _ td) eqn:Hb.
    + unfold andThen, TokenService.getToken; cbn [tokenStore]. rewrite Hg.
      do 2 eexists. split; [reflexivity|].
      cbn [adapters env_NODE_ENV brokerCalls wallClock]. repeat split.
      left. split; [eexists; reflexivity | reflexivity].
    + unfold andThen at 1. unfold pure at 1.
      unfold andThen at 1. unfold TokenService.getToken at 1.
      cbn [tokenStore with_tokenStore].
      rewrite JsMap_get_delete_same. cbn [option_map or_string].
      unfold catch, andThen, broker_call.
      cbn [brokerCalls with_tokenStore].
      destruct (IBrokerAdapter.refreshToken adapter (brokerCalls w) "")
        as [td'|m] eqn:Hr.
      * do 2 eexists. split; [reflexivity|].
        cbn [adapters env_NODE_ENV brokerCalls TokenService.setToken snd
               with_tokenStore wallClock].
        repeat split. right. split; reflexivity.
      * do 2 eexists. split; [reflexivity|].
        cbn [adapters env_NODE_ENV brokerCalls wallClock]. repeat split.
        right. split; reflexivity.
  - unfold andThen at 1. unfold pure at 1.
    unfold andThen at 1. unfold TokenService.getToken at 1.
    rewrite Hg. cbn [option_map or_string].
    unfold catch, andThen, broker_call.
    destruct (IBrokerAdapter.refreshToken adapter (brokerCalls w) "")
      as [td'|m] eqn:Hr.
    + do 2 eexists. split; [reflexivity|].
      cbn [adapters env_NODE_ENV brokerCalls TokenService.setToken snd
             with_tokenStore wallClock].
      repeat split. right. split; reflexivity.
    + do 2 eexists. split; [reflexivity|].
      cbn [adapters env_NODE_ENV brokerCalls wallClock]. repeat split.
      right. split; reflexivity.
Qed.

Lemma forallb_filter_id {A} (f : A -> bool) (l : list A) :
  forallb f (filter f l) = true.
Proof.
  induction l as [|x r IH]; [reflexivity|].
  cbn [filter]. destruct (f x) eqn:E; [|exact IH].
  cbn [forallb]. rewrite E, IH. reflexivity.
Qed.

Lemma filter_length_le {A} (f : A -> bool) (l : list A) :
  List.length (filter f l) <= List.length l.
Proof.
  induction l as [|x r IH]; [apply Nat.le_refl|].
  cbn [filter]. destruct (f x); cbn [List.length]; lia.
Qed.

Lemma syncTrades_run (js : JsRuntime) (userId brokerName : string)
      (w : SyncWorld) :
  exists r w',
    SyncService.syncTrades js userId brokerName w = (r, w') /\
    env_NODE_ENV w' = env_NODE_ENV w /\
    (forall l, r = Done l -> forallb validateNormalizedTrade l = true) /\
    match JsMap.get (toLowerCase js brokerName) (adapters w) with
    | None =>
        r = Raised ("Unknown broker: " ++ brokerName
                    ++ ". Available brokers: "
                    ++ String.concat ", " (JsMap.keys (adapters w)))%string /\
        w' = w
    | Some adapter =>
        let name := IBrokerAdapter.getName adapter in
        (exists message,
            r = Raised ("Authentication failed: " ++ message)%string /\
            IBrokerAdapter.refreshToken adapter (brokerCalls w) ""
            = Raised message /\
            brokerCalls w' = brokerCalls w ++ [CallRefreshToken name ""])
        \/
        (exists token wt,
            SyncService.getValidToken js userId brokerName adapter w
            = (Done token, wt) /\
            (brokerCalls wt = brokerCalls w \/
             brokerCalls wt = brokerCalls w ++ [CallRefreshToken name ""]) /\
            brokerCalls w' =
              brokerCalls wt ++ [CallFetchTrades name token] /\
            match IBrokerAdapter.fetchTrades adapter (brokerCalls wt) token
            with
            | Done rawTrades =>
                exists wf normalized,
                  brokerCalls wf =
                    brokerCalls wt ++ [CallFetchTrades name token] /\
                  wallClock wf = wallClock w /\
                  clockReads wf = clockReads wt /\
                  SyncService.normalizeTrades js rawTrades brokerName wf
                  = (Done normalized, w') /\
                  r = Done (filter validateNormalizedTrade normalized)
            | Raised message => r = Raised message
            end)
    end.
Proof.
  unfold SyncService.syncTrades, catch. unfold andThen at 1.
  unfold AdapterRegistry.getAdapter at 1.
  destruct (JsMap.get (toLowerCase js brokerName) (adapters w))
    as [adapter|] eqn:Ha.
  2:{ cbv zeta. unfold throw. do 2 eexists. split; [reflexivity|].
      split; [reflexivity|]. split; [discriminate|].
      split; reflexivity. }
  cbv zeta. unfold andThen at 1.
  destruct (getValidToken_run js userId brokerName adapter w)
    as (r1 & w1 & Hr1 & _ & Henv & Hclock & Hc).
  rewrite Hr1.
  assert (Hfetch : forall token,
             r1 = Done token ->
             exists r w',
               (let (r0, w'0) :=
                  andThen
                    (broker_call
                       (CallFetchTrades (IBrokerAdapter.getName adapter) token)
                       (fun calls =>
                          IBrokerAdapter.fetchTrades adapter calls token))
                    (fun rawTrades =>
                       andThen
                         (SyncService.normalizeTrades js rawTrades brokerName)
                         (fun normalizedTrades =>
                            pure (filter validateNormalizedTrade
                                    normalizedTrades))) w1 in
                match r0 with
                | Done a => (Done a, w'0)
                | Raised e => throw e w'0
                end) = (r, w') /\
               env_NODE_ENV w' = env_NODE_ENV w1 /\
               (forall l, r = Done l ->
                          forallb validateNormalizedTrade l = true) /\
               brokerCalls w' =
                 brokerCalls w1
                 ++ [CallFetchTrades (IBrokerAdapter.getName adapter) token] /\
               match IBrokerAdapter.fetchTrades adapter (brokerCalls w1) token
               with
               | Done rawTrades =>
                   exists wf normalized,
                     brokerCalls wf =
                       brokerCalls w1
                       ++ [CallFetchTrades (IBrokerAdapter.getName adapter)
                                           token] /\
                     wallClock wf = wallClock w1 /\
                     clockReads wf = clockReads w1 /\
                     SyncService.normalizeTrades js rawTrades brokerName wf
                     = (Done normalized, w') /\
                     r = Done (filter validateNormalizedTrade normalized)
               | Raised message => r = Raised message
               end).
  { intros token _. unfold andThen at 1. unfold broker_call at 1.
    destruct (IBrokerAdapter.fetchTrades adapter (brokerCalls w1) token)
      as [raws|m].
    - unfold andThen.
      match goal with
      | |- context [SyncService.normalizeTrades js raws brokerName ?w0] =>
          set (wf := w0);
          destruct (normalizeTrades_fold js brokerName raws [] wf)
            as (l & w2 & Hl & Hw2 & Hlen & _)
      end.
      assert (Hn : SyncService.normalizeTrades js raws brokerName wf
                   = (Done l, w2)) by exact Hl.
      rewrite Hn. unfold pure.
      do 2 eexists. split; [reflexivity|].
      destruct Hw2 as (_ & _ & _ & _ & He & Hcalls & _).
      split; [exact He|].
      split; [intros l0 Hl0; injection Hl0 as <-; apply forallb_filter_id|].
      split; [exact Hcalls|].
      exists wf, l. repeat split. exact Hn.
    - unfold throw. do 2 eexists. split; [reflexivity|].
      split; [reflexivity|]. split; [discriminate|].
      split; reflexivity. }
  destruct Hc as [[[token Htok] Hcalls] | [Hcalls Hrefresh]].
  - destruct (Hfetch token Htok) as (r & w' & Hrun & He & Hv & Hlog & Hres).
    subst r1. exists r, w'. split; [exact Hrun|].
    split; [congruence|]. split; [exact Hv|].
    right. exists token, w1.
    split; [reflexivity|]. split; [left; exact Hcalls|].
    split; [exact Hlog|].
    destruct (IBrokerAdapter.fetchTrades adapter (brokerCalls w1) token);
      [|exact Hres].
    destruct Hres as (wf & l & H1 & H2 & H3 & H4 & H5).
    exists wf, l. repeat split; try assumption. congruence.
  - destruct (IBrokerAdapter.refreshToken adapter (brokerCalls w) "")
      as [td|m] eqn:Hrt.
    + destruct (Hfetch (accessToken td) Hrefresh)
        as (r & w' & Hrun & He & Hv & Hlog & Hres).
      subst r1. exists r, w'. split; [exact Hrun|].
      split; [congruence|]. split; [exact Hv|].
      right. exists (accessToken td), w1.
      split; [reflexivity|]. split; [right; exact Hcalls|].
      split; [exact Hlog|].
      destruct (IBrokerAdapter.fetchTrades adapter (brokerCalls w1)
                  (accessToken td)); [|exact Hres].
      destruct Hres as (wf & l & H1 & H2 & H3 & H4 & H5).
      exists wf, l. repeat split; try assumption. congruence.
    + subst r1. unfold throw. do 2 eexists. split; [reflexivity|].
      split; [exact Henv|]. split; [discriminate|].
      left. exists m. repeat split. exact Hcalls.
Qed.

(** X20.  [syncTrades] step by step.  Without an adapter for the
    lower-cased broker name it throws "Unknown broker: ..." and touches
    nothing.  With one, either the token refresh fails, the error is
    "Authentication failed: ..." and [fetchTrades] is never called; or
    [fetchTrades] is called exactly once, as the last broker call and
    with the token [getValidToken] returned, and then its error is
    passed on unchanged, or the result is exactly the trades it
    answered, normalised by [normalizeTrades] and filtered by
    [validateNormalizedTrade]. *)
Theorem syncTrades_outcomes (js : JsRuntime) (userId brokerName : string)
        (w : SyncWorld) :
  exists r w',
    SyncService.syncTrades js userId brokerName w = (r, w') /\
    match JsMap.get (toLowerCase js brokerName) (adapters w) with
    | None =>
        r = Raised ("Unknown broker: " ++ brokerName
                    ++ ". Available brokers: "
                    ++ String.concat ", " (JsMap.keys (adapters w)))%string /\
        w' = w
    | Some adapter =>
        let name := IBrokerAdapter.getName adapter in
        (exists message,
            r = Raised ("Authentication failed: " ++ message)%string /\
            IBrokerAdapter.refreshToken adapter (brokerCalls w) ""
            = Raised message /\
            brokerCalls w' = brokerCalls w ++ [CallRefreshToken name ""])
        \/
        (exists token wt,
            SyncService.getValidToken js userId brokerName adapter w
            = (Done token, wt) /\
            (brokerCalls wt = brokerCalls w \/
             brokerCalls wt = brokerCalls w ++ [CallRefreshToken name ""]) /\
            brokerCalls w' =
              brokerCalls wt ++ [CallFetchTrades name token] /\
            match IBrokerAdapter.fetchTrades adapter (brokerCalls wt) token
            with
            | Done rawTrades =>
                exists wf normalized,
                  brokerCalls wf =
                    brokerCalls wt ++ [CallFetchTrades name token] /\
                  wallClock wf = wallClock w /\
                  clockReads wf = clockReads wt /\
                  SyncService.normalizeTrades js rawTrades brokerName wf
                  = (Done normalized, w') /\
                  r = Done (filter validateNormalizedTrade normalized)
            | Raised message => r = Raised message
            end)
    end.
Proof.
  destruct (syncTrades_run js userId brokerName w)
    as (r & w' & Hrun & _ & _ & H).
  exists r, w'. split; [exact Hrun | exact H].
Qed.

(** * Beyond the claims: the sync routes *)

Lemma includes_append (n s : string) : includes n (n ++ s) = true.
Proof.
  destruct (n ++ s)%string eqn:E; cbn [includes];
    rewrite <- E, prefix_append; reflexivity.
Qed.

(** The step of [POST /sync] that stores a supplied access token. *)
Lemma seed_token_run (js : JsRuntime) (body : SyncRequest)
      (userId broker : string) (w : SyncWorld) :
  exists w',
    (match req_accessToken body with
     | Some accessToken =>
         if present (Some accessToken) then
           (expiresAt <-
              match req_expiresAt body with
              | Some text =>
                  if present (Some text)
                  then pure (Date_parse js text)
                  else
                    now <- Date_now ;;
                    pure (Date_of_double
                            (Finite (inject_Z (now + 23 * 60 * 60 * 1000))))
              | None =>
                  now <- Date_now ;;
                  pure (Date_of_double
                          (Finite (inject_Z (now + 23 * 60 * 60 * 1000))))
              end ;;
            TokenService.setToken userId broker
              {| accessToken := accessToken;
                 refreshToken := req_refreshToken body;
                 expiresAt := expiresAt |})%sync
         else pure tt
     | None => pure tt
     end) w = (Done tt, w') /\
    env_NODE_ENV w' = env_NODE_ENV w /\
    adapters w' = adapters w /\
    brokerCalls w' = brokerCalls w.
Proof.
  destruct (req_accessToken body) as [a|];
    [destruct (present (Some a)) |];
    try (exists w; unfold pure; repeat split; reflexivity).
  destruct (req_expiresAt body) as [t|];
    [destruct (present (Some t)) |];
    unfold andThen, pure, Date_now, TokenService.setToken;
    eexists; (split; [reflexivity|]); repeat split; reflexivity.
Qed.

(** X21.  [POST /sync] always answers, with status 200, 400, 401 or
    500.  A 200 carries the user and broker of the request, trades that
    all pass [validateNormalizedTrade], and their number as count.  A
    500 carries the error message as details only when NODE_ENV is
    development. *)
Theorem post_sync_answers (js : JsRuntime) (body : SyncRequest)
        (w : SyncWorld) :
  exists resp w',
    SyncRoutes.post_sync js body w = (Done resp, w') /\
    ((code resp = 200%Z /\
      exists trades stamp,
        payload resp =
          SyncedPayload (or_string (req_userId body) "")
                        (or_string (req_broker body) "")
                        trades (List.length trades) stamp /\
        forallb validateNormalizedTrade trades = true)
     \/ code resp = 400%Z
     \/ code resp = 401%Z
     \/ (code resp = 500%Z /\
         exists details,
           payload resp =
             ErrorPayload "Internal server error"
                          (Some "Failed to sync trades"%string)
                          None None details /\
           (details <> None ->
            env_NODE_ENV w = Some "development"%string))).
Proof.
  unfold SyncRoutes.post_sync, catch.
  destruct (req_userId body) as [u|] eqn:Hu;
    [destruct (req_broker body) as [b|] eqn:Hb |];
    try (unfold pure; do 2 eexists; split; [reflexivity|];
         right; left; reflexivity).
  destruct (present (Some u)) eqn:Pu; cbn [negb orb];
    [| unfold pure; do 2 eexists; split; [reflexivity|];
       right; left; reflexivity].
  destruct (present (Some b)) eqn:Pb; cbn [negb];
    [| unfold pure; do 2 eexists; split; [reflexivity|];
       right; left; reflexivity].
  unfold andThen at 1. unfold AdapterRegistry.isBrokerSupported at 1.
  destruct (JsMap.has (toLowerCase js b) (adapters w)); cbn [negb];
    [| unfold andThen, AdapterRegistry.getAvailableBrokers, pure;
       do 2 eexists; split; [reflexivity|]; right; left; reflexivity].
  unfold andThen at 1.
  destruct (seed_token_run js body u b w) as (ws & Hs & Hes & _ & _).
  rewrite Hs.
  unfold andThen at 1.
  destruct (syncTrades_run js u b ws) as (r & wt & Hr & Het & Hv & _).
  rewrite Hr. destruct r as [trades|message].
  - unfold andThen, SyncRoutes.now_iso, Date_now, pure.
    do 2 eexists. split; [reflexivity|]. left.
    split; [reflexivity|]. cbn [payload].
    assert (or_string (Some u) "" = u) as ->.
    { unfold or_string. unfold present in Pu.
      destruct (String.eqb u ""); [discriminate | reflexivity]. }
    assert (or_string (Some b) "" = b) as ->.
    { unfold or_string. unfold present in Pb.
      destruct (String.eqb b ""); [discriminate | reflexivity]. }
    do 2 eexists. split; [reflexivity|]. apply Hv. reflexivity.
  - destruct (includes "Authentication failed" message);
      [unfold pure; do 2 eexists; split; [reflexivity|];
       right; right; left; reflexivity|].
    destruct (includes "Unknown broker" message);
      [unfold pure; do 2 eexists; split; [reflexivity|];
       right; left; reflexivity|].
    unfold andThen, SyncRoutes.details_of, pure.
    do 2 eexists. split; [reflexivity|].
    right; right; right. split; [reflexivity|].
    eexists. split; [reflexivity|].
    rewrite Het, Hes.
    destruct (env_NODE_ENV w) as [mode|]; [|congruence].
    destruct (String.eqb mode "development") eqn:E; [|congruence].
    apply String.eqb_eq in E. congruence.
Qed.


(** X22.  A request that is rejected for a missing field or for an
    unsupported broker leaves everything as it was: status 400, no
    token stored although one may have been supplied, no broker called,
    the clock not read. *)
Theorem post_sync_rejects_before_storing (js : JsRuntime)
        (body : SyncRequest) (w : SyncWorld) :
  (present (req_userId body) = false \/
   present (req_broker body) = false \/
   exists broker,
     req_broker body = Some broker /\
     JsMap.has (toLowerCase js broker) (adapters w) = false) ->
  exists resp,
    SyncRoutes.post_sync js body w = (Done resp, w) /\ code resp = 400%Z.
Proof.
  intros H. unfold SyncRoutes.post_sync, catch.
  destruct (req_userId body) as [u|] eqn:Hu;
    [destruct (req_broker body) as [b|] eqn:Hb |];
    try (unfold pure; eexists; split; reflexivity).
  destruct (present (Some u)) eqn:Pu; cbn [negb orb];
    [| unfold pure; eexists; split; reflexivity].
  destruct (present (Some b)) eqn:Pb; cbn [negb];
    [| unfold pure; eexists; split; reflexivity].
  destruct H as [H | [H | (b' & Hb' & Hh)]]; try discriminate.
  injection Hb' as <-.
  unfold andThen at 1. unfold AdapterRegistry.isBrokerSupported at 1.
  rewrite Hh. cbn [negb].
  unfold andThen, AdapterRegistry.getAvailableBrokers, pure.
  eexists; split; reflexivity.
Qed.

Lemma post_sync_rejects_before_storing_witness :
  exists resp,
    SyncRoutes.post_sync sample_js (seeded_request "u1" "kite" "secret")
      (sync_world [] sample_adapter)
    = (Done resp, sync_world [] sample_adapter) /\ code resp = 400%Z.
Proof.
  apply (post_sync_rejects_before_storing sample_js
           (seeded_request "u1" "kite" "secret")
           (sync_world [] sample_adapter)).
  right; right. exists "kite"%string. split; reflexivity.
Defined.

(** X23.  When no token is stored or supplied for the pair and the
    adapter refuses to refresh, [POST /sync] answers 401 with the
    adapter's message behind "Authentication failed: ".  The adapter
    has been asked once, to refresh the empty token; no trades were
    fetched and the token store is as before. *)
Theorem post_sync_refresh_failure (js : JsRuntime) (body : SyncRequest)
        (userId broker message : string) (adapter : IBrokerAdapter.t)
        (w : SyncWorld) :
  req_userId body = Some userId ->
  req_broker body = Some broker ->
  userId <> ""%string ->
  broker <> ""%string ->
  present (req_accessToken body) = false ->
  JsMap.get (toLowerCase js broker) (adapters w) = Some adapter ->
  JsMap.get (TokenService.getKey userId broker) (tokenStore w) = None ->
  IBrokerAdapter.refreshToken adapter (brokerCalls w) "" = Raised message ->
  exists w',
    SyncRoutes.post_sync js body w =
    (Done {| code := 401;
             payload :=
               ErrorPayload "Authentication failed"
                 (Some ("Authentication failed: " ++ message)%string) None
                 (Some "Please check your broker credentials and try again"%string)
                 None |}, w') /\
    brokerCalls w' =
      brokerCalls w ++ [CallRefreshToken (IBrokerAdapter.getName adapter) ""] /\
    tokenStore w' = tokenStore w.
Proof.
  intros Hu Hb Nu Nb Ha Hg Ht Hr.
  unfold SyncRoutes.post_sync, catch. rewrite Hu, Hb.
  unfold present at 1 2.
  apply String.eqb_neq in Nu. apply String.eqb_neq in Nb.
  rewrite Nu, Nb. cbn [negb orb].
  unfold andThen at 1. unfold AdapterRegistry.isBrokerSupported at 1.
  unfold JsMap.has. rewrite Hg. cbn [negb].
  unfold andThen at 1.
  assert ((match req_accessToken body with
           | Some accessToken =>
               if present (Some accessToken) then
                 (expiresAt <-
                    match req_expiresAt body with
                    | Some text =>
                        if present (Some text)
                        then pure (Date_parse js text)
                        else
                          now <- Date_now ;;
                          pure (Date_of_double
                                  (Finite (inject_Z (now + 23 * 60 * 60 * 1000))))
                    | None =>
                        now <- Date_now ;;
                        pure (Date_of_double
                                (Finite (inject_Z (now + 23 * 60 * 60 * 1000))))
                    end ;;
                  TokenService.setToken userId broker
                    {| accessToken := accessToken;
                       refreshToken := req_refreshToken body;
                       expiresAt := expiresAt |})%sync
               else pure tt
           | None => pure tt
           end) w = (Done tt, w)) as ->.
  { destruct (req_accessToken body) as [a|]; [|reflexivity].
    rewrite Ha. reflexivity. }
  unfold andThen at 1.
  unfold SyncService.syncTrades at 1. unfold catch at 1.
  unfold andThen at 1. unfold AdapterRegistry.getAdapter at 1. rewrite Hg.
  unfold andThen at 1. unfold SyncService.getValidToken at 1.
  unfold andThen at 1. rewrite isTokenValid_run, Ht.
  unfold andThen at 1. unfold pure at 1.
  unfold andThen at 1. unfold TokenService.getToken at 1. rewrite Ht.
  cbn [option_map or_string].
  unfold catch at 1. unfold andThen at 1. unfold broker_call at 1.
  rewrite Hr. unfold throw at 1 2.
  change ("Authentication failed: " ++ message)%string
    with ("Authentication failed" ++ (": " ++ message))%string.
  rewrite includes_append. unfold pure.
  eexists. split; [reflexivity|]. split; reflexivity.
Qed.

Lemma post_sync_refresh_failure_witness :
  exists w',
    SyncRoutes.post_sync sample_js (plain_request "u1" "Zerodha")
      (sync_world [] refusing_adapter) =
    (Done {| code := 401;
             payload :=
               ErrorPayload "Authentication failed"
                 (Some ("Authentication failed: "
                        ++ "Failed to refresh token: Request failed")%string)
                 None
                 (Some "Please check your broker credentials and try again"%string)
                 None |}, w') /\
    brokerCalls w' =
      brokerCalls (sync_world [] refusing_adapter)
      ++ [CallRefreshToken (IBrokerAdapter.getName refusing_adapter) ""] /\
    tokenStore w' = tokenStore (sync_world [] refusing_adapter).
Proof.
  apply (post_sync_refresh_failure sample_js (plain_request "u1" "Zerodha")
           "u1" "Zerodha" "Failed to refresh token: Request failed"
           refusing_adapter (sync_world [] refusing_adapter));
    try reflexivity; discriminate.
Defined.


Lemma Date_of_double_Z (z : Z) :
  (Z.abs z <= max_time)%Z ->
  Date_of_double (Finite (inject_Z z)) = Some z.
Proof.
  intros H. unfold Date_of_double.
  assert (Qle_bool (Qabs (inject_Z z)) (inject_Z max_time) = true) as ->.
  { apply Qle_bool_iff. unfold max_time in *.
    unfold Qabs, inject_Z, Qle; simpl. lia. }
  cbn [inject_Z Qnum Qden]. rewrite Z.quot_1_r. reflexivity.
Qed.

(** [syncTrades] when the stored token is still valid. *)
Lemma syncTrades_with_valid_token (js : JsRuntime) (userId brokerName : string)
      (adapter : IBrokerAdapter.t) (tokenData : TokenData) (w : SyncWorld) :
  JsMap.get (toLowerCase js brokerName) (adapters w) = Some adapter ->
  JsMap.get (TokenService.getKey userId brokerName) (tokenStore w)
  = Some tokenData ->
  TokenService.before_expiry (wallClock w (clockReads w))
    (parseInt10 js (or_string (env_TOKEN_REFRESH_SKEW_MS w) "30000"))
    tokenData = true ->
  exists r w',
    SyncService.syncTrades js userId brokerName w = (r, w') /\
    brokerCalls w' =
      brokerCalls w
      ++ [CallFetchTrades (IBrokerAdapter.getName adapter)
                          (accessToken tokenData)] /\
    tokenStore w' = tokenStore w /\
    (forall rawTrades,
        IBrokerAdapter.fetchTrades adapter (brokerCalls w)
                                   (accessToken tokenData)
        = Done rawTrades ->
        exists l, r = Done l) /\
    (forall message,
        IBrokerAdapter.fetchTrades adapter (brokerCalls w)
                                   (accessToken tokenData)
        = Raised message ->
        r = Raised message) /\
    env_NODE_ENV w' = env_NODE_ENV w.
Proof.
  intros Ha Hg Hv.
  unfold SyncService.syncTrades, catch. unfold andThen at 1.
  unfold AdapterRegistry.getAdapter at 1. rewrite Ha.
  unfold andThen at 1. unfold SyncService.getValidToken at 1.
  unfold andThen at 1. rewrite isTokenValid_run, Hg. cbv zeta. rewrite Hv.
  unfold andThen at 1. unfold TokenService.getToken at 1.
  cbn [tokenStore]. rewrite Hg. unfold pure at 1.
  unfold andThen at 1. unfold broker_call at 1. cbn [brokerCalls].
  destruct (IBrokerAdapter.fetchTrades adapter (brokerCalls w)
              (accessToken tokenData)) as [raws|m].
  - unfold andThen.
    match goal with
    | |- context [SyncService.normalizeTrades js raws brokerName ?w0] =>
        destruct (normalizeTrades_fold js brokerName raws [] w0)
          as (l & w2 & Hl & Hw2 & _)
    end.
    unfold SyncService.normalizeTrades. rewrite Hl. unfold pure.
    do 2 eexists. split; [reflexivity|].
    destruct Hw2 as (Hst & _ & _ & _ & Henv & Hcalls & _).
    split; [exact Hcalls|]. split; [exact Hst|].
    split; [intros raws' _; eexists; reflexivity|].
    split; [intros m H; discriminate | exact Henv].
  - unfold throw. do 2 eexists. split; [reflexivity|].
    split; [reflexivity|]. split; [reflexivity|].
    split; [intros raws' H; discriminate|].
    split; [intros m' H; injection H as <-; reflexivity | reflexivity].
Qed.

Lemma post_sync_with_supplied_token (js : JsRuntime) (body : SyncRequest)
        (userId broker token : string) (adapter : IBrokerAdapter.t)
        (skew : Z) (w : SyncWorld) :
  req_userId body = Some userId ->
  req_broker body = Some broker ->
  userId <> ""%string ->
  broker <> ""%string ->
  req_accessToken body = Some token ->
  token <> ""%string ->
  present (req_expiresAt body) = false ->
  JsMap.get (toLowerCase js broker) (adapters w) = Some adapter ->
  parseInt10 js (or_string (env_TOKEN_REFRESH_SKEW_MS w) "30000")
  = Finite (inject_Z skew) ->
  (Z.abs (wallClock w (clockReads w) + 82800000) <= max_time)%Z ->
  (Z.abs (wallClock w (clockReads w) + 82800000 - skew) <= max_time)%Z ->
  (wallClock w (S (clockReads w))
   < wallClock w (clockReads w) + 82800000 - skew)%Z ->
  exists resp w',
    SyncRoutes.post_sync js body w = (Done resp, w') /\
    brokerCalls w' =
      brokerCalls w
      ++ [CallFetchTrades (IBrokerAdapter.getName adapter) token] /\
    JsMap.get (TokenService.getKey userId broker) (tokenStore w')
    = Some {| accessToken := token;
              refreshToken := req_refreshToken body;
              expiresAt := Some (wallClock w (clockReads w) + 82800000)%Z |} /\
    (forall rawTrades,
        IBrokerAdapter.fetchTrades adapter (brokerCalls w) token
        = Done rawTrades ->
        code resp = 200%Z) /\
    (forall message,
        IBrokerAdapter.fetchTrades adapter (brokerCalls w) token
        = Raised message ->
        includes "Authentication failed" message = false ->
        includes "Unknown broker" message = false ->
        resp =
        {| code := 500;
           payload :=
             ErrorPayload "Internal server error"
               (Some "Failed to sync trades"%string) None None
               (match env_NODE_ENV w with
                | Some mode =>
                    if String.eqb mode "development" then Some message
                    else None
                | None => None
                end) |}).
Proof.
  intros Hu Hb Nu Nb Ha Nt He Hg Hskew Hr1 Hr2 Hlt.
  unfold SyncRoutes.post_sync, catch. rewrite Hu, Hb.
  unfold present at 1 2.
  apply String.eqb_neq in Nu. apply String.eqb_neq in Nb.
  rewrite Nu, Nb. cbn [negb orb].
  unfold andThen at 1. unfold AdapterRegistry.isBrokerSupported at 1.
  unfold JsMap.has. rewrite Hg. cbn [negb].
  unfold andThen at 1. rewrite Ha.
  unfold present at 1. apply String.eqb_neq in Nt. rewrite Nt. cbn [negb].
  set (td := {| accessToken := token;
                refreshToken := req_refreshToken body;
                expiresAt := Some (wallClock w (clockReads w) + 82800000)%Z |}).
  set (ws := with_tokenStore
               {| tokenStore := tokenStore w;
                  adapters := adapters w;
                  wallClock := wallClock w;
                  clockReads := S (clockReads w);
                  env_TOKEN_REFRESH_SKEW_MS := env_TOKEN_REFRESH_SKEW_MS w;
                  env_NODE_ENV := env_NODE_ENV w;
                  brokerCalls := brokerCalls w |}
               (JsMap.set (TokenService.getKey userId broker) td
                          (tokenStore w))).
  assert (Hseed :
            andThen
              (match req_expiresAt body with
               | Some text =>
                   if present (Some text)
                   then pure (Date_parse js text)
                   else
                     andThen Date_now
                       (fun now =>
                          pure (Date_of_double
                                  (Finite (inject_Z (now + 23 * 60 * 60 * 1000)))))
               | None =>
                   andThen Date_now
                     (fun now =>
                        pure (Date_of_double
                                (Finite (inject_Z (now + 23 * 60 * 60 * 1000)))))
               end)
              (fun expiresAt =>
                 TokenService.setToken userId broker
                   {| accessToken := token;
                      refreshToken := req_refreshToken body;
                      expiresAt := expiresAt |}) w
            = (Done tt, ws)).
  { assert (andThen Date_now
              (fun now =>
                 pure (Date_of_double
                         (Finite (inject_Z (now + 23 * 60 * 60 * 1000))))) w
            = (Done (Some (wallClock w (clockReads w) + 82800000)%Z),
               {| tokenStore := tokenStore w;
                  adapters := adapters w;
                  wallClock := wallClock w;
                  clockReads := S (clockReads w);
                  env_TOKEN_REFRESH_SKEW_MS := env_TOKEN_REFRESH_SKEW_MS w;
                  env_NODE_ENV := env_NODE_ENV w;
                  brokerCalls := brokerCalls w |})) as Hnow.
    { unfold andThen, Date_now, pure.
      change (23 * 60 * 60 * 1000)%Z with 82800000%Z.
      rewrite (Date_of_double_Z _ Hr1). reflexivity. }
    unfold andThen at 1.
    destruct (req_expiresAt body) as [text|]; [rewrite He|];
      rewrite Hnow; reflexivity. }
  rewrite Hseed.
  unfold andThen at 1.
  destruct (syncTrades_with_valid_token js userId broker adapter td ws)
    as (r & wt & Hrun & Hcalls & Hstore & Hdone & Hraised & Henv).
  { exact Hg. }
  { unfold ws. cbn [tokenStore with_tokenStore]. apply JsMap_get_set_same. }
  { unfold ws. cbn [wallClock clockReads env_TOKEN_REFRESH_SKEW_MS
                      with_tokenStore].
    rewrite Hskew.
    rewrite (before_expiry_reading _ skew
               (wallClock w (clockReads w) + 82800000)%Z td eq_refl Hr2).
    apply Z.ltb_lt. exact Hlt. }
  rewrite Hrun.
  assert (Hget : JsMap.get (TokenService.getKey userId broker) (tokenStore wt)
                 = Some td).
  { rewrite Hstore. unfold ws. cbn [tokenStore with_tokenStore].
    apply JsMap_get_set_same. }
  destruct r as [trades|message].
  - unfold andThen, SyncRoutes.now_iso, Date_now, pure.
    do 2 eexists. split; [reflexivity|].
    cbn [brokerCalls tokenStore code].
    split; [exact Hcalls|]. split; [exact Hget|].
    split; [reflexivity|].
    intros m Hf. specialize (Hraised m Hf). discriminate.
  - assert (Hno : forall rawTrades,
               IBrokerAdapter.fetchTrades adapter (brokerCalls w) token
               = Done rawTrades -> False).
    { intros raws Hf. destruct (Hdone raws Hf) as [l Hl]. discriminate. }
    destruct (includes "Authentication failed" message) eqn:I1;
      [| destruct (includes "Unknown broker" message) eqn:I2];
      unfold andThen, SyncRoutes.details_of, pure;
      do 2 eexists; (split; [reflexivity|]);
      (split; [exact Hcalls|]); (split; [exact Hget|]);
      (split; [intros raws Hf; destruct (Hno raws Hf)|]);
      intros m Hf J1 J2; specialize (Hraised m Hf);
      injection Hraised as <-; try congruence.
    rewrite Henv. reflexivity.
Qed.

(** X24.  An access token sent with the request without an expiry date
    is stored with an expiry 23 hours after the clock reading, and is
    the token the trades are fetched with: [fetchTrades] is the only
    broker call, no refresh is attempted, and a broker that answers
    gives status 200.  This holds while the next clock reading is
    earlier than the expiry minus the skew. *)
Theorem post_sync_uses_supplied_token (js : JsRuntime) (body : SyncRequest)
        (userId broker token : string) (adapter : IBrokerAdapter.t)
        (skew : Z) (w : SyncWorld) :
  req_userId body = Some userId ->
  req_broker body = Some broker ->
  userId <> ""%string ->
  broker <> ""%string ->
  req_accessToken body = Some token ->
  token <> ""%string ->
  present (req_expiresAt body) = false ->
  JsMap.get (toLowerCase js broker) (adapters w) = Some adapter ->
  parseInt10 js (or_string (env_TOKEN_REFRESH_SKEW_MS w) "30000")
  = Finite (inject_Z skew) ->
  (Z.abs (wallClock w (clockReads w) + 82800000) <= max_time)%Z ->
  (Z.abs (wallClock w (clockReads w) + 82800000 - skew) <= max_time)%Z ->
  (wallClock w (S (clockReads w))
   < wallClock w (clockReads w) + 82800000 - skew)%Z ->
  exists resp w',
    SyncRoutes.post_sync js body w = (Done resp, w') /\
    brokerCalls w' =
      brokerCalls w
      ++ [CallFetchTrades (IBrokerAdapter.getName adapter) token] /\
    JsMap.get (TokenService.getKey userId broker) (tokenStore w')
    = Some {| accessToken := token;
              refreshToken := req_refreshToken body;
              expiresAt := Some (wallClock w (clockReads w) + 82800000)%Z |} /\
    (forall rawTrades,
        IBrokerAdapter.fetchTrades adapter (brokerCalls w) token
        = Done rawTrades ->
        code resp = 200%Z).
Proof.
  intros Hu Hb Nu Nb Ha Nt He Hg Hskew Hr1 Hr2 Hlt.
  destruct (post_sync_with_supplied_token js body userId broker token
              adapter skew w Hu Hb Nu Nb Ha Nt He Hg Hskew Hr1 Hr2 Hlt)
    as (resp & w' & Hrun & Hcalls & Hget & Hok & _).
  exists resp, w'. repeat split; assumption.
Qed.

Lemma post_sync_uses_supplied_token_witness :
  exists resp w',
    SyncRoutes.post_sync sample_js (seeded_request "u1" "Zerodha" "secret")
      (sync_world [] refusing_adapter) = (Done resp, w') /\
    brokerCalls w' =
      brokerCalls (sync_world [] refusing_adapter)
      ++ [CallFetchTrades (IBrokerAdapter.getName refusing_adapter) "secret"] /\
    JsMap.get (TokenService.getKey "u1" "Zerodha") (tokenStore w')
    = Some {| accessToken := "secret";
              refreshToken :=
                req_refreshToken (seeded_request "u1" "Zerodha" "secret");
              expiresAt :=
                Some (wallClock (sync_world [] refusing_adapter)
                        (clockReads (sync_world [] refusing_adapter))
                      + 82800000)%Z |} /\
    (forall rawTrades,
        IBrokerAdapter.fetchTrades refusing_adapter
          (brokerCalls (sync_world [] refusing_adapter)) "secret"
        = Done rawTrades ->
        code resp = 200%Z).
Proof.
  apply (post_sync_uses_supplied_token sample_js
           (seeded_request "u1" "Zerodha" "secret")
           "u1" "Zerodha" "secret" refusing_adapter 30000
           (sync_world [] refusing_adapter));
    try reflexivity; try discriminate.
Defined.


(** X25.  [testConnection] never throws and always names the broker it
    was asked about.  It reports success exactly when there is an
    adapter for the lower-cased name, [getValidToken] returned a token
    for it, the adapter has a [validateToken] method and that method,
    called with that token on the broker calls made so far, answered
    true; the call is then the last broker call, and the message is
    "Successfully connected to <broker>". *)
Theorem testConnection_outcomes (js : JsRuntime) (userId brokerName : string)
        (w : SyncWorld) :
  exists r w',
    SyncService.testConnection js userId brokerName w = (Done r, w') /\
    SyncService.brokerName r = brokerName /\
    (SyncService.success r = true <->
     exists adapter validateToken token wt,
       JsMap.get (toLowerCase js brokerName) (adapters w) = Some adapter /\
       SyncService.getValidToken js userId brokerName adapter w
       = (Done token, wt) /\
       IBrokerAdapter.validateToken adapter = Some validateToken /\
       validateToken (brokerCalls wt) token = Done true) /\
    (SyncService.success r = true ->
     SyncService.message r
     = ("Successfully connected to " ++ brokerName)%string /\
     exists adapter token wt,
       JsMap.get (toLowerCase js brokerName) (adapters w) = Some adapter /\
       SyncService.getValidToken js userId brokerName adapter w
       = (Done token, wt) /\
       brokerCalls w' =
         brokerCalls wt
         ++ [CallValidateToken (IBrokerAdapter.getName adapter) token]).
Proof.
  unfold SyncService.testConnection, catch. unfold andThen at 1.
  unfold AdapterRegistry.getAdapter at 1.
  destruct (JsMap.get (toLowerCase js brokerName) (adapters w))
    as [adapter|] eqn:Ha.
  2:{ cbv zeta. unfold pure. do 2 eexists. split; [reflexivity|].
      split; [reflexivity|]. cbn [SyncService.success].
      split; [|discriminate].
      split; [discriminate|].
      intros (a & vt & tok & wt & H & _). discriminate. }
  unfold andThen at 1.
  destruct (SyncService.getValidToken js userId brokerName adapter w)
    as [[token|m] w1] eqn:Hr1.
  2:{ unfold pure. do 2 eexists. split; [reflexivity|].
      split; [reflexivity|]. cbn [SyncService.success].
      split; [|discriminate].
      split; [discriminate|].
      intros (a & vt & tok & wt & H1 & H2 & _).
      injection H1 as <-. rewrite Hr1 in H2.
      discriminate. }
  unfold andThen at 1.
  destruct (IBrokerAdapter.validateToken adapter) as [vt|] eqn:Hvt.
  - unfold broker_call at 1.
    destruct (vt (brokerCalls w1) token) as [[|]|m] eqn:Hans.
    + unfold pure. do 2 eexists. split; [reflexivity|].
      split; [reflexivity|]. cbn [SyncService.success SyncService.message].
      split.
      * split; [|reflexivity]. intros _.
        exists adapter, vt, token, w1.
        split; [reflexivity|]. split; [exact Hr1|].
        split; [exact Hvt | exact Hans].
      * intros _. split; [reflexivity|].
        exists adapter, token, w1.
        split; [reflexivity|]. split; [exact Hr1 | reflexivity].
    + unfold pure. do 2 eexists. split; [reflexivity|].
      split; [reflexivity|]. cbn [SyncService.success].
      split; [|discriminate].
      split; [discriminate|].
      intros (a & vt' & tok & wt & H1 & H2 & H3 & H4).
      injection H1 as <-.
      rewrite Hr1 in H2. injection H2 as <- <-.
      rewrite Hvt in H3. injection H3 as <-.
      rewrite Hans in H4. discriminate.
    + unfold pure. do 2 eexists. split; [reflexivity|].
      split; [reflexivity|]. cbn [SyncService.success].
      split; [|discriminate].
      split; [discriminate|].
      intros (a & vt' & tok & wt & H1 & H2 & H3 & H4).
      injection H1 as <-.
      rewrite Hr1 in H2. injection H2 as <- <-.
      rewrite Hvt in H3. injection H3 as <-.
      rewrite Hans in H4. discriminate.
  - unfold pure. do 2 eexists. split; [reflexivity|].
    split; [reflexivity|]. cbn [SyncService.success].
    split; [|discriminate].
    split; [discriminate|].
    intros (a & vt' & tok & wt & H1 & H2 & H3 & _).
    injection H1 as <-. rewrite Hvt in H3. discriminate.
Qed.

Lemma testConnection_never_throws (js : JsRuntime)
      (userId brokerName : string) (w : SyncWorld) :
  exists r w', SyncService.testConnection js userId brokerName w = (Done r, w').
Proof.
  unfold SyncService.testConnection, catch.
  match goal with
  | |- context [match ?m w with _ => _ end] =>
      destruct (m w) as [[r|e] w1]
  end; unfold pure; do 2 eexists; reflexivity.
Qed.

(** X26.  [POST /test] always answers 200 or 400; with fields that
    are strings and adapters that throw [Error]s, its 500 branch is
    never taken.  It answers 200 exactly when the connection test
    succeeded. *)
Theorem post_test_answers (js : JsRuntime) (body : SyncRequest)
        (w : SyncWorld) :
  exists resp w',
    SyncRoutes.post_test js body w = (Done resp, w') /\
    (code resp = 200%Z \/ code resp = 400%Z) /\
    (code resp = 200%Z <->
     exists result stamp,
       payload resp = TestPayload result stamp /\
       SyncService.success result = true).
Proof.
  assert (Hbad : forall (w0 : SyncWorld) resp,
             (exists e m s1 s2 d, payload resp = ErrorPayload e m s1 s2 d) ->
             code resp = 400%Z ->
             (code resp = 200%Z \/ code resp = 400%Z) /\
             (code resp = 200%Z <->
              exists result stamp,
                payload resp = TestPayload result stamp /\
                SyncService.success result = true)).
  { intros _ resp (e & m & s1 & s2 & d & Hp) Hc.
    split; [right; exact Hc|]. rewrite Hc, Hp. split; [discriminate|].
    intros (result & stamp & H & _). discriminate. }
  unfold SyncRoutes.post_test, catch.
  destruct (req_userId body) as [u|] eqn:Hu;
    [destruct (req_broker body) as [b|] eqn:Hb |];
    try (unfold pure; do 2 eexists; split; [reflexivity|];
         apply (Hbad w); [do 5 eexists; reflexivity | reflexivity]).
  destruct (negb (present (Some u)) || negb (present (Some b)));
    [unfold pure; do 2 eexists; split; [reflexivity|];
     apply (Hbad w); [do 5 eexists; reflexivity | reflexivity] |].
  unfold andThen at 1. unfold AdapterRegistry.isBrokerSupported at 1.
  destruct (JsMap.has (toLowerCase js b) (adapters w)); cbn [negb];
    [| unfold andThen, AdapterRegistry.getAvailableBrokers, pure;
       do 2 eexists; split; [reflexivity|];
       apply (Hbad w); [do 5 eexists; reflexivity | reflexivity]].
  unfold andThen at 1.
  destruct (testConnection_never_throws js u b w) as (result & wt & Ht).
  rewrite Ht.
  unfold andThen, SyncRoutes.now_iso, Date_now, pure.
  do 2 eexists. split; [reflexivity|]. cbn [code payload].
  destruct (SyncService.success result) eqn:Hs.
  - split; [left; reflexivity|]. split; [|reflexivity].
    intros _. do 2 eexists. split; [reflexivity | exact Hs].
  - split; [right; reflexivity|]. split; [discriminate|].
    intros (result' & stamp & Hp & Hs'). injection Hp as <- _.
    rewrite Hs in Hs'. discriminate.
Qed.

Lemma getSyncStats_run (js : JsRuntime) (userId : string) (w : SyncWorld) :
  exists stats w',
    SyncService.getSyncStats js userId w = (Done stats, w') /\
    tokenStore w' = tokenStore w /\
    adapters w' = adapters w /\
    brokerCalls w' = brokerCalls w /\
    SyncService.supportedBrokers stats = JsMap.keys (adapters w) /\
    SyncService.totalBrokers stats = List.length (JsMap.keys (adapters w)).
Proof.
  unfold SyncService.getSyncStats. unfold andThen at 1.
  unfold AdapterRegistry.getAvailableBrokers at 1.
  unfold andThen at 1. unfold TokenService.getTokenStats at 1.
  unfold andThen at 1.
  destruct (count_tokens js (JsMap.values (tokenStore w)) (0, 0) w)
    as (counts & w1 & Hc & _ & Hst & Had & Hbc & _).
  rewrite Hc. unfold pure.
  do 2 eexists. split; [reflexivity|].
  cbn [SyncService.supportedBrokers SyncService.totalBrokers].
  repeat split; assumption.
Qed.

(** X27.  The statistics of [GET /stats/:userId] do not depend on the
    user: two requests made in the same state for different users get
    the same figures, the same timestamp and the same resulting state,
    each with its own user id echoed. *)
Theorem get_stats_ignores_user (js : JsRuntime) (userId1 userId2 : string)
        (w : SyncWorld) :
  userId1 <> ""%string ->
  userId2 <> ""%string ->
  exists stats stamp w',
    SyncRoutes.get_stats js userId1 w =
    (Done {| code := 200; payload := StatsPayload userId1 stats stamp |}, w') /\
    SyncRoutes.get_stats js userId2 w =
    (Done {| code := 200; payload := StatsPayload userId2 stats stamp |}, w') /\
    tokenStore w' = tokenStore w.
Proof.
  intros N1 N2. unfold SyncRoutes.get_stats, catch, present.
  apply String.eqb_neq in N1. apply String.eqb_neq in N2.
  rewrite N1, N2. cbn [negb].
  unfold andThen at 1 3.
  destruct (getSyncStats_run js userId1 w)
    as (stats & w1 & Hs & Hst & _).
  change (SyncService.getSyncStats js userId2 w)
    with (SyncService.getSyncStats js userId1 w).
  rewrite Hs.
  unfold andThen, SyncRoutes.now_iso, Date_now, pure.
  do 3 eexists. split; [reflexivity|]. split; [reflexivity|].
  exact Hst.
Qed.

Lemma get_stats_ignores_user_witness :
  exists stats stamp w',
    SyncRoutes.get_stats sample_js "u1"
      (sync_world [("u2:zerodha", sample_token)] sample_adapter) =
    (Done {| code := 200; payload := StatsPayload "u1" stats stamp |}, w') /\
    SyncRoutes.get_stats sample_js "nobody"
      (sync_world [("u2:zerodha", sample_token)] sample_adapter) =
    (Done {| code := 200; payload := StatsPayload "nobody" stats stamp |}, w') /\
    tokenStore w'
    = tokenStore (sync_world [("u2:zerodha", sample_token)] sample_adapter).
Proof.
  apply (get_stats_ignores_user sample_js "u1" "nobody"
           (sync_world [("u2:zerodha", sample_token)] sample_adapter));
    discriminate.
Defined.

(** X28.  [GET /brokers], [GET /stats/:userId] and
    [DELETE /tokens/:userId] never take their 500 branch: the first
    answers 200, the other two 400 for an empty user id and 200
    otherwise.  None of them calls a broker or changes the registry,
    and the first two leave the token store alone. *)
Theorem plain_routes_never_fail (js : JsRuntime) (userId : string)
        (w : SyncWorld) :
  (exists resp w',
      SyncRoutes.get_brokers js w = (Done resp, w') /\
      code resp = 200%Z /\
      payload resp =
        BrokersPayload (JsMap.keys (adapters w))
          {| AdapterRegistry.totalAdapters := JsMap.size (adapters w);
             AdapterRegistry.supportedBrokers := JsMap.keys (adapters w) |}
          (Date_toISOString js (wallClock w (clockReads w))) /\
      ticks_only w w') /\
  (exists resp w',
      SyncRoutes.get_stats js userId w = (Done resp, w') /\
      code resp = (if String.eqb userId "" then 400 else 200)%Z /\
      tokenStore w' = tokenStore w /\
      adapters w' = adapters w /\
      brokerCalls w' = brokerCalls w) /\
  (exists resp w',
      SyncRoutes.delete_tokens js userId w = (Done resp, w') /\
      code resp = (if String.eqb userId "" then 400 else 200)%Z /\
      adapters w' = adapters w /\
      brokerCalls w' = brokerCalls w).
Proof.
  split; [| split].
  - unfold SyncRoutes.get_brokers, catch, andThen,
      AdapterRegistry.getAvailableBrokers, AdapterRegistry.getStats,
      andThen, AdapterRegistry.getAvailableBrokers,
      SyncRoutes.now_iso, Date_now, pure.
    cbn. do 2 eexists. split; [reflexivity|].
    split; [reflexivity|]. split; [reflexivity|].
    unfold ticks_only. cbn. repeat split; auto.
  - unfold SyncRoutes.get_stats, catch, present.
    destruct (String.eqb userId ""); cbn [negb].
    + unfold pure. do 2 eexists. split; [reflexivity|].
      repeat split; reflexivity.
    + unfold andThen at 1.
      destruct (getSyncStats_run js userId w)
        as (stats & w1 & Hs & Hst & Had & Hbc & _).
      rewrite Hs.
      unfold andThen, SyncRoutes.now_iso, Date_now, pure.
      do 2 eexists. split; [reflexivity|].
      cbn [code tokenStore adapters brokerCalls].
      repeat split; assumption.
  - unfold SyncRoutes.delete_tokens, catch, present.
    destruct (String.eqb userId ""); cbn [negb].
    + unfold pure. do 2 eexists. split; [reflexivity|].
      repeat split; reflexivity.
    + unfold andThen at 1. unfold SyncService.clearUserTokens at 1.
      unfold andThen at 1. unfold TokenService.getUserTokens at 1.
      rewrite remove_each_run.
      unfold andThen, SyncRoutes.now_iso, Date_now, pure.
      do 2 eexists. split; [reflexivity|].
      cbn [code adapters brokerCalls with_tokenStore].
      repeat split; reflexivity.
Qed.

(** * Beyond the claims: the Zerodha adapter *)

(** X30.  When Zerodha rejects the orders request with status 401 or
    403, [POST /sync] answers 500 "Internal server error", not 401:
    the adapter's messages "Invalid or expired token" and
    "Insufficient permissions" are not among those the route
    recognises.  Shown for a request that supplies its access token. *)
Theorem broker_rejection_answered_500 (js : JsRuntime) (body : SyncRequest)
        (userId broker token : string) (adapter : IBrokerAdapter.t)
        (http : ZerodhaAdapter.Http) (skew status : Z) (message : string)
        (w : SyncWorld) :
  req_userId body = Some userId ->
  req_broker body = Some broker ->
  userId <> ""%string ->
  broker <> ""%string ->
  req_accessToken body = Some token ->
  token <> ""%string ->
  present (req_expiresAt body) = false ->
  JsMap.get (toLowerCase js broker) (adapters w) = Some adapter ->
  parseInt10 js (or_string (env_TOKEN_REFRESH_SKEW_MS w) "30000")
  = Finite (inject_Z skew) ->
  (Z.abs (wallClock w (clockReads w) + 82800000) <= max_time)%Z ->
  (Z.abs (wallClock w (clockReads w) + 82800000 - skew) <= max_time)%Z ->
  (wallClock w (S (clockReads w))
   < wallClock w (clockReads w) + 82800000 - skew)%Z ->
  (forall calls accessToken,
      IBrokerAdapter.fetchTrades adapter calls accessToken
      = ZerodhaAdapter.fetchTrades http calls accessToken) ->
  ZerodhaAdapter.get_orders http (brokerCalls w)
    (ZerodhaAdapter.authorization http token)
  = ZerodhaAdapter.Failed (Some status) message ->
  (status = 401 \/ status = 403)%Z ->
  exists w',
    SyncRoutes.post_sync js body w =
    (Done {| code := 500;
             payload :=
               ErrorPayload "Internal server error"
                 (Some "Failed to sync trades"%string) None None
                 (match env_NODE_ENV w with
                  | Some mode =>
                      if String.eqb mode "development"
                      then Some (if (status =? 401)%Z
                                 then "Invalid or expired token"
                                 else "Insufficient permissions")%string
                      else None
                  | None => None
                  end) |}, w') /\
    brokerCalls w' =
      brokerCalls w
      ++ [CallFetchTrades (IBrokerAdapter.getName adapter) token].
Proof.
  intros Hu Hb Nu Nb Ha Nt He Hg Hskew Hr1 Hr2 Hlt Hz Ho Hs.
  destruct (post_sync_with_supplied_token js body userId broker token
              adapter skew w Hu Hb Nu Nb Ha Nt He Hg Hskew Hr1 Hr2 Hlt)
    as (resp & w' & Hrun & Hcalls & _ & _ & Hbad).
  exists w'. split; [|exact Hcalls]. rewrite Hrun. f_equal. f_equal.
  apply Hbad.
  - rewrite Hz. unfold ZerodhaAdapter.fetchTrades. rewrite Ho.
    destruct Hs as [-> | ->]; reflexivity.
  - destruct Hs as [-> | ->]; reflexivity.
  - destruct Hs as [-> | ->]; reflexivity.
Qed.

Lemma broker_rejection_answered_500_witness :
  exists w',
    SyncRoutes.post_sync sample_js (seeded_request "u1" "Zerodha" "secret")
      (sync_world [] rejected_zerodha) =
    (Done {| code := 500;
             payload :=
               ErrorPayload "Internal server error"
                 (Some "Failed to sync trades"%string) None None
                 (match env_NODE_ENV (sync_world [] rejected_zerodha) with
                  | Some mode =>
                      if String.eqb mode "development"
                      then Some (if (401 =? 401)%Z
                                 then "Invalid or expired token"
                                 else "Insufficient permissions")%string
                      else None
                  | None => None
                  end) |}, w') /\
    brokerCalls w' =
      brokerCalls (sync_world [] rejected_zerodha)
      ++ [CallFetchTrades (IBrokerAdapter.getName rejected_zerodha) "secret"].
Proof.
  apply (broker_rejection_answered_500 sample_js
           (seeded_request "u1" "Zerodha" "secret")
           "u1" "Zerodha" "secret" rejected_zerodha rejecting_http
           30000 401 "Request failed with status code 401"
           (sync_world [] rejected_zerodha));
    try reflexivity; try discriminate.
  left; reflexivity.
Defined.


(** X29.  What the Zerodha adapter can answer.  [fetchTrades] throws
    "Invalid or expired token" exactly on an error with status 401,
    "Insufficient permissions" exactly on status 403, and "Failed to
    fetch trades: ..." on every other error; a response gives its
    trades, or none.  [validateToken] and [getInstruments] never throw.
    Every error of [refreshToken] starts with "Failed to refresh
    token: " -- also its own "Invalid response from token refresh" --
    and leaves the world untouched; a refreshed token expires 24 hours
    after the one clock reading made. *)
Theorem zerodha_adapter_outcomes (http : ZerodhaAdapter.Http)
        (calls : list BrokerCall) (token oldToken : string) (w : SyncWorld) :
  match ZerodhaAdapter.get_orders http calls
          (ZerodhaAdapter.authorization http token) with
  | ZerodhaAdapter.Replied _ data =>
      ZerodhaAdapter.fetchTrades http calls token
      = Done (match data with Some trades => trades | None => [] end)
  | ZerodhaAdapter.Failed responseStatus message =>
      ZerodhaAdapter.fetchTrades http calls token
      = Raised (if match responseStatus with
                   | Some status => (status =? 401)%Z
                   | None => false
                   end
                then "Invalid or expired token"
                else if match responseStatus with
                        | Some status => (status =? 403)%Z
                        | None => false
                        end
                     then "Insufficient permissions"
                     else "Failed to fetch trades: " ++ message)%string
  end /\
  (exists answer, ZerodhaAdapter.validateToken http calls token = Done answer) /\
  (exists instruments, ZerodhaAdapter.getInstruments http calls
                       = Done instruments) /\
  exists r w',
    ZerodhaAdapter.refreshToken http oldToken w = (r, w') /\
    match r with
    | Done tokenData =>
        expiresAt tokenData =
          Date_of_double
            (Finite (inject_Z (wallClock w (clockReads w) + 86400000))) /\
        ticks_only w w' /\ clockReads w' = S (clockReads w)
    | Raised message =>
        String.prefix "Failed to refresh token: " message = true /\ w' = w
    end.
Proof.
  split; [| split; [| split]].
  - unfold ZerodhaAdapter.fetchTrades.
    destruct (ZerodhaAdapter.get_orders http calls
                (ZerodhaAdapter.authorization http token))
      as [status [trades|] | [status|] message]; try reflexivity.
    destruct (status =? 401)%Z; [reflexivity|].
    destruct (status =? 403)%Z; reflexivity.
  - unfold ZerodhaAdapter.validateToken.
    destruct (ZerodhaAdapter.get_profile http calls
                (ZerodhaAdapter.authorization http token));
      eexists; reflexivity.
  - unfold ZerodhaAdapter.getInstruments.
    destruct (ZerodhaAdapter.get_instruments http calls)
      as [status [l|] | st message]; eexists; reflexivity.
  - unfold ZerodhaAdapter.refreshToken, catch.
    destruct (ZerodhaAdapter.post_refresh_token http (brokerCalls w) oldToken
                (ZerodhaAdapter.apiKey http))
      as [status [[access_token refresh_token]|] | st message].
    + unfold andThen, Date_now, pure. do 2 eexists.
      split; [reflexivity|]. cbn [expiresAt clockReads].
      split; [reflexivity|]. split; [|reflexivity].
      unfold ticks_only. cbn. repeat split; auto.
    + unfold throw. do 2 eexists. split; [reflexivity|].
      split; [apply prefix_append | reflexivity].
    + unfold throw. do 2 eexists. split; [reflexivity|].
      split; [apply prefix_append | reflexivity].
Qed.
